(** * Radiant Smart (Topband cloud) integration: the data-point engine

    A shallow embedding of [custom_components/radiant_smart/api.py]: the
    data-point value codec ([SmartDeviceDataPoint.get_value], [set_value]),
    the observer fan-out ([update_value]), the classifier
    ([SmartDevice.parse_data_points] with the [get_*] passes it calls and
    [remove_unsupported_data]), the inbound router
    ([TopbandCloudApi.on_mqtt_message], [SmartDevice.handle_mqtt_command]),
    the outbound transport ([send_mqtt_command]) and the device table
    ([async_get_devices]); and of the entity methods of [switch.py],
    [climate.py] and [sensor.py] that read or write a data point.

    Python dictionaries are finite maps ([gmap]); a Python set is a finite
    set ([gset]).  Python code runs in a state-and-exception monad in which,
    as in Python, the mutations made before an exception stay in place. *)

From Stdlib Require Import ZArith QArith Qabs Qround String Ascii Lia.
From Corelib Require Floats.PrimFloat Floats.SpecFloat.
From Stdlib Require Floats.FloatOps.
From stdpp Require Import base decidable option list gmap strings fin_maps fin_sets.

#[local] Open Scope Z_scope.
#[local] Open Scope string_scope.
#[local] Open Scope list_scope.

(** ** Exceptions and the monad *)

(** The Python exceptions the modelled code can raise.  [CallbackError c]
    stands for whatever exception the listener callback [c] raises. *)
Inductive exn : Type :=
| KeyError (k : string)
| AttributeError
| TypeError
| ValueError
| OverflowError
| UnboundLocalError
| CallbackError (c : positive).

Inductive result (A : Type) : Type :=
| Ok (a : A)
| Raise (e : exn).
Arguments Ok {A} a.
Arguments Raise {A} e.

(** A computation on a mutable state [S]: its outcome and the state it
    leaves, also when it raises. *)
Definition M (S A : Type) : Type := S → result A * S.

Definition ret {S A} (a : A) : M S A := λ s, (Ok a, s).

Definition raise {S A} (e : exn) : M S A := λ s, (Raise e, s).

Definition bind {S A B} (m : M S A) (f : A → M S B) : M S B :=
λ s, match m s with
     | (Ok a, s') => f a s'
     | (Raise e, s') => (Raise e, s')
     end.

Definition get {S} : M S S := λ s, (Ok s, s).

Definition modify {S} (f : S → S) : M S unit := λ s, (Ok tt, f s).

Definition lift {S A} (r : result A) : M S A := λ s, (r, s).

Notation "'do' x <- c1 ; c2" := (bind c1 (λ x, c2))
  (at level 10, x name, c1 at level 100, c2 at level 200).
Notation "c1 ;; c2" := (bind c1 (λ _, c2))
  (at level 100, c2 at level 200, right associativity).

(** [for x in l: acc = body(acc, x)]: a loop that updates a local
    variable [acc]. *)
Fixpoint for_fold {S A B} (l : list A) (acc : B) (body : B → A → M S B) : M S B :=
match l with
| [] => ret acc
| x :: l' => do acc' <- body acc x; for_fold l' acc' body
end.

(** [for x in l: body(x)] *)
Definition for_each {S A} (l : list A) (body : A → M S unit) : M S unit :=
for_fold l tt (λ _ x, body x).

(** ** Strings *)

(** [s.startswith(p)] *)
Fixpoint startswith (p s : string) : bool :=
match p, s with
| EmptyString, _ => true
| String _ _, EmptyString => false
| String a p', String b s' => Ascii.eqb a b && startswith p' s'
end.

(** [s.endswith(suf)] *)
Fixpoint endswith (suf s : string) : bool :=
match s with
| EmptyString => String.eqb suf EmptyString
| String c s' => String.eqb suf (String c s') || endswith suf s'
end.

(** [s.startswith((p1, p2, ...))] and [s.endswith((p1, p2, ...))] *)
Definition startswith_any (ps : list string) (s : string) : bool :=
existsb (λ p, startswith p s) ps.

Definition endswith_any (ps : list string) (s : string) : bool :=
existsb (λ p, endswith p s) ps.

Definition is_upper (c : ascii) : bool :=
let n := N_of_ascii c in (65 <=? n)%N && (n <=? 90)%N.

Definition is_lower (c : ascii) : bool :=
let n := N_of_ascii c in (97 <=? n)%N && (n <=? 122)%N.

Definition to_upper (c : ascii) : ascii :=
if is_lower c then ascii_of_N (N_of_ascii c - 32) else c.

Definition to_lower (c : ascii) : ascii :=
if is_upper c then ascii_of_N (N_of_ascii c + 32) else c.

(** [s.title()] on ASCII text: a letter that follows a letter is put in
    lower case, any other letter in upper case. *)
Fixpoint title_from (after_letter : bool) (s : string) : string :=
match s with
| EmptyString => EmptyString
| String c s' =>
    if is_upper c || is_lower c
    then String (if after_letter then to_lower c else to_upper c) (title_from true s')
    else String c (title_from false s')
end.

Definition title (s : string) : string := title_from false s.

(** [s.replace(old, new)] for a non-empty [old]: the occurrences of
    [old] are replaced from the left, without overlap.  [skip] counts the
    characters of an occurrence of [old] still to be dropped. *)
Fixpoint str_replace_from (skip : nat) (old new s : string) : string :=
match s with
| EmptyString => EmptyString
| String c s' =>
    match skip with
    | S n => str_replace_from n old new s'
    | O =>
        if startswith old s
        then String.append new (str_replace_from (String.length old - 1) old new s')
        else String c (str_replace_from 0 old new s')
    end
end.

Definition str_replace (old new s : string) : string := str_replace_from 0 old new s.

Fixpoint str_repeat (n : nat) (s : string) : string :=
match n with
| O => EmptyString
| S n' => String.append s (str_repeat n' s)
end.

(** ** Python values carried by data points

    Wire values arrive from JSON, display values from the host framework.
    JSON arrays and objects never reach the codec and are left out.  A
    Python float is an IEEE 754 binary64 number: the primitive floats of
    the kernel, whose operations round to nearest, ties to even, as
    Python's do. *)
Abbreviation float := PrimFloat.float.

Inductive pyval : Type :=
| PNone
| PBool (b : bool)
| PInt (z : Z)
| PFloat (x : float)
| PStr (s : string).

(** The float nearest to the int [k], a tie going to the even one; an
    infinity when [k] is beyond the range of the floats. *)
Definition nearest_float (k : Z) : float :=
FloatOps.SF2Prim (SpecFloat.binary_normalize FloatOps.prec FloatOps.emax k 0 false).

(** [float(k)] on an int: the nearest float, [OverflowError] beyond the
    range. *)
Definition float_of_int (k : Z) : result float :=
match SpecFloat.binary_normalize FloatOps.prec FloatOps.emax k 0 false with
| SpecFloat.S754_infinity _ => Raise OverflowError
| x => Ok (FloatOps.SF2Prim x)
end.

(** The int [10] as a float, in [value * 10] and [float(value) / 10]. *)
Definition ten : float := nearest_float 10.

(** [int(x)] on a float: truncation toward zero; [OverflowError] on an
    infinity, [ValueError] on a NaN. *)
Definition int_of_float (x : float) : result Z :=
match FloatOps.Prim2SF x with
| SpecFloat.S754_zero _ => Ok 0
| SpecFloat.S754_finite s m e =>
    let a := if Z.leb 0 e then Z.shiftl (Z.pos m) e else Z.shiftr (Z.pos m) (- e) in
    Ok (if s then - a else a)
| SpecFloat.S754_infinity _ => Raise OverflowError
| SpecFloat.S754_nan => Raise ValueError
end.

(** [n / d] on two ints below 2^53: the float nearest to the fraction,
    which is also what the decimal literal of the fraction denotes. *)
Definition ratio (n d : Z) : float := PrimFloat.div (nearest_float n) (nearest_float d).

(** The float of the one-decimal number [k / 10], as [21.5] for 215. *)
Definition one_decimal (k : Z) : float := ratio k 10.

(** ** The numbers that floats stand for

    Not part of the code: the exact rational value of a finite float, and
    truncation and rounding of rationals, to say what the conversions of
    the code compute. *)
Definition Q_of_float (x : float) : option Q :=
match FloatOps.Prim2SF x with
| SpecFloat.S754_zero _ => Some 0%Q
| SpecFloat.S754_finite s m e =>
    let a := match e with
             | Z0 => inject_Z (Z.pos m)
             | Zpos p => inject_Z (Z.pos m * Z.pow_pos 2 p)
             | Zneg p => Z.pos m # Pos.pow 2 p
             end in
    Some (if s then (- a)%Q else a)
| _ => None
end.

(** Truncation toward zero. *)
Definition truncate (q : Q) : Z := Z.quot (Qnum q) (Z.pos (Qden q)).

(** [round(x)]: the nearest integer, a tie going to the even one.  The
    code never calls it; the codec table of the specification does. *)
Definition py_round (q : Q) : Z :=
let f := Qfloor q in
match ((q - inject_Z f) ?= 1 # 2)%Q with
| Lt => f
| Gt => f + 1
| Eq => if Z.even f then f else f + 1
end.

(** The conversions are exact on the one-decimal number [k / 10]: [int]
    and [round] of ten times its float are [k], and [float(k)] is in
    range. *)
Definition one_decimal_exact (k : Z) : bool :=
match int_of_float (PrimFloat.mul (one_decimal k) ten),
      Q_of_float (PrimFloat.mul (one_decimal k) ten),
      SpecFloat.binary_normalize FloatOps.prec FloatOps.emax k 0 false with
| _, _, SpecFloat.S754_infinity _ => false
| Ok z, Some p, _ => Z.eqb z k && Z.eqb (py_round p) k
| _, _, _ => false
end.

(** ** Data points *)

(** [SmartDeviceDataPoint].  The owning [device] back-reference is left to
    the device-level functions; [_listener] holds the handles of the
    registered callbacks. *)
Record SmartDeviceDataPoint : Type := mkDataPoint {
  index : Z;
  name : string;
  point_type : Z;
  value : pyval;
  _listener : gset positive
}.

Definition with_value (data : pyval) (self : SmartDeviceDataPoint) : SmartDeviceDataPoint :=
mkDataPoint (index self) (name self) (point_type self) data (_listener self).

Definition with_listener (l : gset positive) (self : SmartDeviceDataPoint) : SmartDeviceDataPoint :=
mkDataPoint (index self) (name self) (point_type self) (value self) l.

Definition add_listener (callback : positive) (self : SmartDeviceDataPoint)
  : SmartDeviceDataPoint :=
with_listener ({[callback]} ∪ _listener self) self.

Definition remove_listener (callback : positive) (self : SmartDeviceDataPoint)
  : SmartDeviceDataPoint :=
with_listener (_listener self ∖ {[callback]}) self.

(** One value of the [pointDataMap] of the telemetry snapshot: the members
    [pointIndex], [pointName] (absent: [None]), [pointType] and [value]. *)
Record PointData : Type := mkPointData {
  pointIndex : Z;
  pointName : option string;
  pointType : Z;
  point_value : pyval
}.

(** The data point that [SmartDevice.__init__] builds from it. *)
Definition new_data_point (p : PointData) : SmartDeviceDataPoint :=
mkDataPoint (pointIndex p) (str_replace "PARAM_ID_" "" (default "" (pointName p)))
  (pointType p) (point_value p) ∅.

(** The command envelope [{"i": ..., "t": ..., "len": 0, "v": ...}] that
    [send_data_point_update] hands to the transport. *)
Record Command : Type := mkCommand {
  cmd_i : Z;
  cmd_t : Z;
  cmd_len : Z;
  cmd_v : pyval
}.

Definition send_data_point_update (dp : SmartDeviceDataPoint) : Command :=
mkCommand (index dp) (point_type dp) 0 (value dp).

(** ** Capability-group descriptors

    A descriptor refers to the data-point objects it was built from.  A
    data-point object is the one [self.data_points] holds under some key,
    for the whole life of the device; a reference to it is that key,
    paired with the state of the object when the reference was taken.
    The current state of a data point is always the one in
    [data_points]. *)
Abbreviation dict := (gmap string SmartDeviceDataPoint).

Definition dp_ref : Type := string * SmartDeviceDataPoint.

Inductive Unit : Type := CELSIUS | LITERS_PER_SECOND | BAR.

Inductive HVACMode : Type := AUTO | HEAT | OFF.

Inductive DeviceClass : Type :=
| SensorDeviceClass_TEMPERATURE
| SensorDeviceClass_VOLUME_FLOW_RATE
| SensorDeviceClass_PRESSURE
| SensorDeviceClass_ENUM
| BinarySensorDeviceClass_PLUG
| BinarySensorDeviceClass_CONNECTIVITY
| SwitchDeviceClass_SWITCH
| NumberDeviceClass_TEMPERATURE.

Inductive SensorStateClass : Type := MEASUREMENT.

Inductive EntityCategory : Type := DIAGNOSTIC.

Inductive NumberMode : Type := NumberMode_AUTO | NumberMode_BOX.

Module WaterHeaterData.
Record t : Type := mk {
  name : string;
  icon : option string;
  min_temp : dp_ref;
  max_temp : dp_ref;
  current_temp : dp_ref;
  target_temp : dp_ref;
  target_temp_step : Q;
  temp_unit : Unit
}.
Definition keys (w : t) : list string :=
[fst (min_temp w); fst (max_temp w); fst (current_temp w); fst (target_temp w)].
End WaterHeaterData.

Module ClimateData.
Record t : Type := mk {
  name : string;
  icon : option string;
  current_temp : dp_ref;
  target_temp : dp_ref;
  hvac_modes : list (Z * HVACMode);
  hvac_mode : dp_ref;
  target_temp_step : Q;
  temp_unit : Unit;
  min_temp : option dp_ref;
  max_temp : option dp_ref
}.
Definition keys (c : t) : list string :=
[fst (current_temp c); fst (target_temp c); fst (hvac_mode c)]
  ++ option_list (fst <$> min_temp c) ++ option_list (fst <$> max_temp c).
End ClimateData.

Module SelectData.
Record t : Type := mk {
  data_point : dp_ref;
  name : string;
  icon : option string;
  options : list (Z * string)
}.
End SelectData.

Module SwitchData.
Record t : Type := mk {
  data_point : dp_ref;
  name : string;
  icon : option string;
  device_class : option DeviceClass
}.
End SwitchData.

Module NumberData.
Record t : Type := mk {
  data_point : dp_ref;
  name : string;
  icon : option string;
  device_class : option DeviceClass;
  unit_of_measurement : option Unit;
  mode : NumberMode;
  min_value : option Q;
  max_value : option Q;
  step_value : option Q
}.
End NumberData.

Module SensorData.
Record t : Type := mk {
  data_point : dp_ref;
  name : string;
  icon : option string;
  device_class : option DeviceClass;
  state_class : option SensorStateClass;
  unit_of_measurement : option Unit;
  options : option (list (Z * string));
  entity_category : option EntityCategory
}.
End SensorData.

(** ** Devices *)

Record Gateway : Type := mkGateway {
  uid : string;
  gateway_product_id : string
}.

(** [SmartDevice].  [device_name] and [device_id] are the attributes
    [name] and [id].  The attributes that [parse_data_points] assigns
    ([unknown_points] and the seven groups) are empty until it does. *)
Record SmartDevice : Type := mkSmartDevice {
  device_type : Z;
  device_name : string;
  device_id : string;
  product_id : string;
  model : string;
  gateway : Gateway;
  mac_address : string;
  online : bool;
  data_points : dict;
  unknown_points : dict;
  water_heaters : list WaterHeaterData.t;
  climate_data : list ClimateData.t;
  select_data : list SelectData.t;
  switches_data : list SwitchData.t;
  numbers_data : list NumberData.t;
  sensors_data : list SensorData.t;
  binary_sensors_data : list SensorData.t
}.

Definition set_data_points (x : dict) (self : SmartDevice) : SmartDevice :=
mkSmartDevice (device_type self) (device_name self) (device_id self) (product_id self)
  (model self) (gateway self) (mac_address self) (online self) x (unknown_points self)
  (water_heaters self) (climate_data self) (select_data self) (switches_data self)
  (numbers_data self) (sensors_data self) (binary_sensors_data self).

Definition set_unknown_points (x : dict) (self : SmartDevice) : SmartDevice :=
mkSmartDevice (device_type self) (device_name self) (device_id self) (product_id self)
  (model self) (gateway self) (mac_address self) (online self) (data_points self) x
  (water_heaters self) (climate_data self) (select_data self) (switches_data self)
  (numbers_data self) (sensors_data self) (binary_sensors_data self).

Definition set_water_heaters (x : list WaterHeaterData.t) (self : SmartDevice) : SmartDevice :=
mkSmartDevice (device_type self) (device_name self) (device_id self) (product_id self)
  (model self) (gateway self) (mac_address self) (online self) (data_points self)
  (unknown_points self) x (climate_data self) (select_data self) (switches_data self)
  (numbers_data self) (sensors_data self) (binary_sensors_data self).

Definition set_climate_data (x : list ClimateData.t) (self : SmartDevice) : SmartDevice :=
mkSmartDevice (device_type self) (device_name self) (device_id self) (product_id self)
  (model self) (gateway self) (mac_address self) (online self) (data_points self)
  (unknown_points self) (water_heaters self) x (select_data self) (switches_data self)
  (numbers_data self) (sensors_data self) (binary_sensors_data self).

Definition set_select_data (x : list SelectData.t) (self : SmartDevice) : SmartDevice :=
mkSmartDevice (device_type self) (device_name self) (device_id self) (product_id self)
  (model self) (gateway self) (mac_address self) (online self) (data_points self)
  (unknown_points self) (water_heaters self) (climate_data self) x (switches_data self)
  (numbers_data self) (sensors_data self) (binary_sensors_data self).

Definition set_switches_data (x : list SwitchData.t) (self : SmartDevice) : SmartDevice :=
mkSmartDevice (device_type self) (device_name self) (device_id self) (product_id self)
  (model self) (gateway self) (mac_address self) (online self) (data_points self)
  (unknown_points self) (water_heaters self) (climate_data self) (select_data self) x
  (numbers_data self) (sensors_data self) (binary_sensors_data self).

Definition set_numbers_data (x : list NumberData.t) (self : SmartDevice) : SmartDevice :=
mkSmartDevice (device_type self) (device_name self) (device_id self) (product_id self)
  (model self) (gateway self) (mac_address self) (online self) (data_points self)
  (unknown_points self) (water_heaters self) (climate_data self) (select_data self)
  (switches_data self) x (sensors_data self) (binary_sensors_data self).

Definition set_sensors_data (x : list SensorData.t) (self : SmartDevice) : SmartDevice :=
mkSmartDevice (device_type self) (device_name self) (device_id self) (product_id self)
  (model self) (gateway self) (mac_address self) (online self) (data_points self)
  (unknown_points self) (water_heaters self) (climate_data self) (select_data self)
  (switches_data self) (numbers_data self) x (binary_sensors_data self).

Definition set_binary_sensors_data (x : list SensorData.t) (self : SmartDevice) : SmartDevice :=
mkSmartDevice (device_type self) (device_name self) (device_id self) (product_id self)
  (model self) (gateway self) (mac_address self) (online self) (data_points self)
  (unknown_points self) (water_heaters self) (climate_data self) (select_data self)
  (switches_data self) (numbers_data self) (sensors_data self) x.

(** ** Dictionary operations *)

(** [k in data_points]; also [data_points.get(k) is not None], the values
    being objects. *)
Definition contains (k : string) (data_points : dict) : bool :=
bool_decide (is_Some (data_points !! k)).

(** [data_points.pop(k)]: remove the entry and return the object, or
    raise [KeyError]. *)
Definition pop (k : string) : M dict dp_ref :=
λ data_points,
  match data_points !! k with
  | Some d => (Ok (k, d), delete k data_points)
  | None => (Raise (KeyError k), data_points)
  end.

Section Model.

(** What calling the listener callback [c] does: return or raise. *)
Variable callback : positive → result unit.

(** The order in which Python iterates over a set of callbacks and over
    the items of a dictionary of data points.  Python fixes neither from
    the contents alone (hash order, insertion order), so both orders are
    arbitrary enumerations. *)
Variable set_iter : gset positive → list positive.
Variable dict_items : dict → list (string * SmartDeviceDataPoint).

Section Codec.

(** [int(s)] and [float(s)] of a string parse it; the parsers stay
    abstract. *)
Variable int_of_str : string → result Z.
Variable float_of_str : string → result float.

(** [int(v)] *)
Definition py_int (v : pyval) : result Z :=
match v with
| PNone => Raise TypeError
| PBool b => Ok (if b then 1 else 0)
| PInt z => Ok z
| PFloat x => int_of_float x
| PStr s => int_of_str s
end.

(** [float(v)] *)
Definition py_float (v : pyval) : result float :=
match v with
| PNone => Raise TypeError
| PBool b => float_of_int (if b then 1 else 0)
| PInt z => float_of_int z
| PFloat x => Ok x
| PStr s => float_of_str s
end.

(** [v * 10]: a product of numbers, the ten-fold repetition of a string. *)
Definition py_mul10 (v : pyval) : result pyval :=
match v with
| PNone => Raise TypeError
| PBool b => Ok (PInt ((if b then 1 else 0) * 10))
| PInt z => Ok (PInt (z * 10))
| PFloat x => Ok (PFloat (PrimFloat.mul x ten))
| PStr s => Ok (PStr (str_repeat 10 s))
end.

(** [x / 10] on the float [x] *)
Definition div10 (x : float) : float := PrimFloat.div x ten.

(** [get_value]: decode the stored wire value by [point_type]. *)
Definition get_value (self : SmartDeviceDataPoint) : result pyval :=
match point_type self with
| 1 => match py_int (value self) with Ok z => Ok (PInt z) | Raise e => Raise e end
| 2 => match py_float (value self) with Ok x => Ok (PFloat (div10 x)) | Raise e => Raise e end
| 7 => match py_int (value self) with Ok z => Ok (PInt z) | Raise e => Raise e end
| 8 => Ok (value self)
| _ => Ok (value self)
end.

(** [set_value]: encode [value] by [point_type], store it, and emit the
    command envelope.  A conversion that raises leaves the point as it
    was and emits nothing. *)
Definition set_value (value : pyval) : M SmartDeviceDataPoint Command :=
do self <- get;
(match point_type self with
 | 1 => do z <- lift (py_int value); modify (with_value (PInt z))
 | 2 => do x <- lift (py_mul10 value); do z <- lift (py_int x); modify (with_value (PInt z))
 | 7 => do z <- lift (py_int value); modify (with_value (PInt z))
 | 8 => modify (with_value value)
 | _ => modify (with_value value)
 end) ;;
do self <- get;
ret (send_data_point_update self).

(** C4 as the specification states it: [set_value] of [x], then
    [get_value], gives a float within 0.1 of [x]. *)
Definition round_trips (dp : SmartDeviceDataPoint) (x : float) : Prop :=
point_type dp = 2 →
∃ c dp' y qx qy,
  set_value (PFloat x) dp = (Ok c, dp')
  ∧ get_value dp' = Ok (PFloat y)
  ∧ Q_of_float x = Some qx ∧ Q_of_float y = Some qy
  ∧ (Qabs (qy - qx) <= 1 # 10)%Q.

(** C5 as the specification states it: the stored wire value is
    [round(v * 10)], the product [v * 10] rounded to the nearest
    integer. *)
Definition stores_rounded (dp : SmartDeviceDataPoint) (v : float) : Prop :=
point_type dp = 2 →
∃ c dp' p,
  set_value (PFloat v) dp = (Ok c, dp')
  ∧ Q_of_float (PrimFloat.mul v ten) = Some p
  ∧ value dp' = PInt (py_round p).

End Codec.

(** ** Observer fan-out

    The second component of the state is the log of the callbacks invoked
    so far, oldest first. *)

(** [c()] *)
Definition call {X} (c : positive) : M (X * list positive) unit :=
λ '(x, calls), (callback c, (x, calls ++ [c])).

(** [update_value] *)
Definition update_value (data : pyval) : M (SmartDeviceDataPoint * list positive) unit :=
modify (λ '(self, calls), (with_value data self, calls)) ;;
do st <- get;
for_each (set_iter (_listener (fst st))) call.

(** ** The classifier

    Every pass works on the dictionary it is given, [self.unknown_points],
    and returns the descriptors it built. *)

Definition ch_keys : list string :=
[ "PARAM_ID_BOILER_CH_CUR_TEMP";
  "PARAM_ID_BOILER_CH_SET_RANGE_DOWN";
  "PARAM_ID_BOILER_CH_SET_RANGE_UP";
  "PARAM_ID_BOILER_CH_MAX_SETPOINT";
  "PARAM_ID_BOILER_CH_TRG_TEMP" ].

Definition dhw_keys : list string :=
[ "PARAM_ID_BOILER_DHW_CUR_TEMP";
  "PARAM_ID_BOILER_DHW_SET_RANGE_DOWN";
  "PARAM_ID_BOILER_DHW_SET_RANGE_UP";
  "PARAM_ID_BOILER_DHW_TRG_TEMP" ].

Definition get_water_heaters : M dict (list WaterHeaterData.t) :=
let water_heaters := [] in
do data_points <- get;
do water_heaters <-
  (if forallb (λ k, contains k data_points) ch_keys then
     do min_temp <- pop "PARAM_ID_BOILER_CH_SET_RANGE_DOWN";
     do max_temp <- pop "PARAM_ID_BOILER_CH_SET_RANGE_UP";
     do current_temp <- pop "PARAM_ID_BOILER_CH_CUR_TEMP";
     do target_temp <- pop "PARAM_ID_BOILER_CH_MAX_SETPOINT";
     ret (water_heaters ++
          [WaterHeaterData.mk "Heating Water Heater" (Some "mdi:radiator")
             min_temp max_temp current_temp target_temp 1 CELSIUS])
   else ret water_heaters);
do data_points <- get;
do water_heaters <-
  (if forallb (λ k, contains k data_points) dhw_keys then
     do min_temp <- pop "PARAM_ID_BOILER_DHW_SET_RANGE_DOWN";
     do max_temp <- pop "PARAM_ID_BOILER_DHW_SET_RANGE_UP";
     do current_temp <- pop "PARAM_ID_BOILER_DHW_CUR_TEMP";
     do target_temp <- pop "PARAM_ID_BOILER_DHW_TRG_TEMP";
     ret (water_heaters ++
          [WaterHeaterData.mk "Sanitary Water Heater" (Some "mdi:faucet")
             min_temp max_temp current_temp target_temp 1 CELSIUS])
   else ret water_heaters);
ret water_heaters.

Definition thermostat_keys : list string :=
[ "PARAM_ID_TH_CUR_ROOM_TEMP";
  "PARAM_ID_TH_TRG_ROOM_TEMP";
  "PARAM_ID_TH_WORK_MODE" ].

Definition get_climate_data : M dict (list ClimateData.t) :=
let climate := [] in
do data_points <- get;
do climate <-
  (if forallb (λ k, contains k data_points) thermostat_keys then
     do current_temp <- pop "PARAM_ID_TH_CUR_ROOM_TEMP";
     do target_temp <- pop "PARAM_ID_TH_TRG_ROOM_TEMP";
     do hvac_mode <- pop "PARAM_ID_TH_WORK_MODE";
     ret (climate ++
          [ClimateData.mk "Thermostat" (Some "mdi:thermostat")
             current_temp target_temp [(0, AUTO); (1, HEAT); (4, OFF)] hvac_mode
             (1 # 2) CELSIUS None None])
   else ret climate);
ret climate.

Definition get_switches_data : M dict (list SwitchData.t) :=
let switches_data := [] in
do data_points <- get;
do switches_data <-
  (if contains "PARAM_ID_BOILER_DHW_PRO_EN" data_points then
     do data_point <- pop "PARAM_ID_BOILER_DHW_PRO_EN";
     ret (switches_data ++
          [SwitchData.mk data_point "Domestic Water Heating Program"
             (Some "mdi:home-clock") (Some SwitchDeviceClass_SWITCH)])
   else ret switches_data);
do data_points <- get;
do switches_data <-
  (if contains "PARAM_ID_SYS_DST_ENABLE" data_points then
     do data_point <- pop "PARAM_ID_SYS_DST_ENABLE";
     ret (switches_data ++
          [SwitchData.mk data_point "Auto Time Sync"
             (Some "mdi:clock") (Some SwitchDeviceClass_SWITCH)])
   else ret switches_data);
ret switches_data.

Definition get_select_data : M dict (list SelectData.t) :=
let select := [] in
do data_points <- get;
do select <-
  (if contains "SYS_WORK_MODE" data_points then
     do data_point <- pop "SYS_WORK_MODE";
     ret (select ++
          [SelectData.mk data_point "Work Mode" (Some "mdi:auto-mode")
             [(0, "Standby"); (2, "Sanitary"); (3, "Heating"); (10, "Heating & Sanitary")]])
   else ret select);
ret select.

Definition get_numbers_data : M dict (list NumberData.t) :=
let numbers := [] in
do data_points <- get;
do numbers <-
  (if contains "PARAM_ID_TH_POWEROFF_FROZE_TEMP" data_points then
     do data_point <- pop "PARAM_ID_TH_POWEROFF_FROZE_TEMP";
     ret (numbers ++
          [NumberData.mk data_point "Poweroff Froze Temperature"
             (Some "mdi:snowflake-thermometer") (Some NumberDeviceClass_TEMPERATURE)
             (Some CELSIUS) NumberMode_BOX (Some 5%Q) (Some 15%Q) (Some (1 # 2))])
   else ret numbers);
ret numbers.

Definition get_sensors_data : M dict (list SensorData.t) :=
let sensors_data := [] in
do data_points <- get;
do sensors_data <-
  (if contains "PARAM_ID_BOILER_CH_TRG_TEMP" data_points then
     do data_point <- pop "PARAM_ID_BOILER_CH_TRG_TEMP";
     ret (sensors_data ++
          [SensorData.mk data_point "Heating Target Temperature" (Some "mdi:thermometer")
             (Some SensorDeviceClass_TEMPERATURE) (Some MEASUREMENT) (Some CELSIUS) None None])
   else ret sensors_data);
do data_points <- get;
for_fold (dict_items data_points) sensors_data (λ sensors_data '(k, d),
  do sensors_data <-
    (if String.eqb k "PARAM_ID_BOILER_OUTDOOR_TEMP" then
       do data_point <- pop k;
       ret (sensors_data ++
            [SensorData.mk data_point "Outdoor Temperature" (Some "mdi:thermometer")
               (Some SensorDeviceClass_TEMPERATURE) (Some MEASUREMENT) (Some CELSIUS) None None])
     else if endswith "_TEMP" k then
       do data_point <- pop k;
       ret (sensors_data ++
            [SensorData.mk data_point (title (name d)) (Some "mdi:thermometer")
               (Some SensorDeviceClass_TEMPERATURE) (Some MEASUREMENT) (Some CELSIUS) None None])
     else ret sensors_data);
  do sensors_data <-
    (if endswith "_RATE" k then
       do data_point <- pop k;
       ret (sensors_data ++
            [SensorData.mk data_point (title (name d)) (Some "mdi:waves")
               (Some SensorDeviceClass_VOLUME_FLOW_RATE) (Some MEASUREMENT)
               (Some LITERS_PER_SECOND) None None])
     else ret sensors_data);
  do sensors_data <-
    (if endswith "_PRESSURE" k then
       do data_point <- pop k;
       ret (sensors_data ++
            [SensorData.mk data_point (title (name d)) (Some "mdi:gauge")
               (Some SensorDeviceClass_PRESSURE) (Some MEASUREMENT) (Some BAR) None None])
     else ret sensors_data);
  do sensors_data <-
    (if endswith_any ["WIFI_SIGNAL"; "WIFI__SIGNAL"] k then
       do data_point <- pop k;
       ret (sensors_data ++
            [SensorData.mk data_point "WiFi Signal" (Some "mdi:signal-variant")
               None (Some MEASUREMENT) None None (Some DIAGNOSTIC)])
     else ret sensors_data);
  do sensors_data <-
    (if endswith "_FAULT_CODE" k then
       do data_point <- pop k;
       ret (sensors_data ++
            [SensorData.mk data_point (title (name d)) (Some "mdi:alert")
               None None None None (Some DIAGNOSTIC)])
     else ret sensors_data);
  do sensors_data <-
    (if String.eqb k "PARAM_ID_BOILER_OT_SLAVE_STATUS" then
       do data_point <- pop k;
       ret (sensors_data ++
            [SensorData.mk data_point "Status" (Some "mdi:state-machine")
               (Some SensorDeviceClass_ENUM) None None
               (Some [(0, "Standby"); (2, "Radiators"); (4, "Domestic Water");
                      (10, "Flame + Radiators"); (12, "Flame + Domestic Water")])
               None])
     else ret sensors_data);
  do sensors_data <-
    (if String.eqb k "PARAM_ID_SYS_SOFT_VER" then
       do data_point <- pop k;
       ret (sensors_data ++
            [SensorData.mk data_point "Software Version" (Some "mdi:numeric")
               None None None None (Some DIAGNOSTIC)])
     else ret sensors_data);
  ret sensors_data).

Definition get_binary_sensors_data : M dict (list SensorData.t) :=
let binary_sensors_data := [] in
do data_points <- get;
for_fold (dict_items data_points) binary_sensors_data (λ binary_sensors_data '(k, d),
  if String.eqb k "PARAM_ID_BOILER_IS_ROOM_SENSOR_ENABL" then
    do data_point <- pop k;
    ret (binary_sensors_data ++
         [SensorData.mk data_point "External Temperature Sensor" (Some "mdi:thermometer-probe")
            (Some BinarySensorDeviceClass_PLUG) None None None None])
  else if String.eqb k "PARAM_ID_BOILER_IS_OT_CONNECTED" then
    do data_point <- pop k;
    ret (binary_sensors_data ++
         [SensorData.mk data_point "Thermostat Connection" (Some "mdi:thermostat-box")
            (Some BinarySensorDeviceClass_CONNECTIVITY) None None None None])
  else if String.eqb k "PARAM_ID_BOILER_OTC_ENABLE" then
    do data_point <- pop k;
    ret (binary_sensors_data ++
         [SensorData.mk data_point "Outdoor Temperature Compensation" None
            None None None None None])
  else if endswith_any ["_ENABLE"; "_ENABL"; "_CONNECTED"] k then
    do data_point <- pop k;
    ret (binary_sensors_data ++
         [SensorData.mk data_point (title (name d)) None None None None None None])
  else ret binary_sensors_data).

(** The local list [keys] of [remove_unsupported_data]. *)
Definition unsupported_keys : list string :=
[ "PARAM_ID_SYS_DEVICE_MODULE";
  "PARAM_ID_TH_DELETE_TH_ADDR" ].

Definition unsupported_prefixes : list string :=
[ "PARAM_ID_BOILER_DHW_PRO_";
  "PARAM_ID_TH_ROOM_PROG_DAY_" ].

Definition remove_unsupported_data : M dict unit :=
for_each unsupported_keys (λ k, pop k ;; ret tt) ;;
do data_points <- get;
for_each (map fst (dict_items data_points)) (λ k,
  if startswith_any unsupported_prefixes k then pop k ;; ret tt else ret tt).

(** Run a pass on [self.unknown_points]. *)
Definition on_unknown_points {A} (m : M dict A) : M SmartDevice A :=
λ self, let '(r, unknown) := m (unknown_points self) in (r, set_unknown_points unknown self).

(** The statements of [parse_data_points] after the copy, in the order of
    the source: the seven capability-group rules, then
    [remove_unsupported_data]. *)
Inductive pass : Type :=
| WaterHeaters
| Climate
| Select
| Switches
| Numbers
| Sensors
| BinarySensors
| RemoveUnsupported.

Definition pass_eqb (p q : pass) : bool :=
match p, q with
| WaterHeaters, WaterHeaters | Climate, Climate | Select, Select | Switches, Switches
| Numbers, Numbers | Sensors, Sensors | BinarySensors, BinarySensors
| RemoveUnsupported, RemoveUnsupported => true
| _, _ => false
end.

Definition passes : list pass :=
[WaterHeaters; Climate; Select; Switches; Numbers; Sensors; BinarySensors; RemoveUnsupported].

Definition is_group_rule (p : pass) : bool :=
match p with RemoveUnsupported => false | _ => true end.

Definition run_pass (p : pass) : M SmartDevice unit :=
match p with
| WaterHeaters => do l <- on_unknown_points get_water_heaters; modify (set_water_heaters l)
| Climate => do l <- on_unknown_points get_climate_data; modify (set_climate_data l)
| Select => do l <- on_unknown_points get_select_data; modify (set_select_data l)
| Switches => do l <- on_unknown_points get_switches_data; modify (set_switches_data l)
| Numbers => do l <- on_unknown_points get_numbers_data; modify (set_numbers_data l)
| Sensors => do l <- on_unknown_points get_sensors_data; modify (set_sensors_data l)
| BinarySensors =>
    do l <- on_unknown_points get_binary_sensors_data; modify (set_binary_sensors_data l)
| RemoveUnsupported => on_unknown_points remove_unsupported_data
end.

(** [self.unknown_points = self.data_points.copy()] *)
Definition copy_data_points : M SmartDevice unit :=
modify (λ self, set_unknown_points (data_points self) self).

Definition parse_data_points : M SmartDevice unit :=
copy_data_points ;; for_each passes run_pass.

(** The passes that come before [p] in [l]. *)
Fixpoint before (p : pass) (l : list pass) : list pass :=
match l with
| [] => []
| p' :: l' => if pass_eqb p' p then [] else p' :: before p l'
end.

(** The device as it stands when control reaches the pass [p]: the copy
    and the passes before [p] have run. *)
Definition run_until (p : pass) : M SmartDevice unit :=
copy_data_points ;; for_each (before p passes) run_pass.

(** [SmartDevice.__init__]: the constructor builds the data points,
    classifies them, and yields the device when [parse_data_points]
    returns, nothing when it raises.  (The two subscriptions that follow
    belong to the transport.) *)
Definition SmartDevice_init (device_type : Z) (name id product_id model : string)
  (gateway : Gateway) (mac_address : string) (online : bool)
  (data_points : gmap string PointData) : result SmartDevice :=
match parse_data_points
        (mkSmartDevice device_type name id product_id model gateway mac_address online
           (new_data_point <$> data_points) ∅ [] [] [] [] [] [] []) with
| (Ok _, self) => Ok self
| (Raise e, _) => Raise e
end.

(** The keys of the data points that the descriptors of the seven groups
    refer to. *)
Definition group_keys (self : SmartDevice) : list string :=
concat (map WaterHeaterData.keys (water_heaters self))
  ++ concat (map ClimateData.keys (climate_data self))
  ++ map (λ x, fst (SelectData.data_point x)) (select_data self)
  ++ map (λ x, fst (SwitchData.data_point x)) (switches_data self)
  ++ map (λ x, fst (NumberData.data_point x)) (numbers_data self)
  ++ map (λ x, fst (SensorData.data_point x)) (sensors_data self)
  ++ map (λ x, fst (SensorData.data_point x)) (binary_sensors_data self).

(** The residual points, as [sensor.py] ([async_setup_entry]) surfaces
    them: one plain sensor for every value of [unknown_points]. *)
Definition residual_sensors (device : SmartDevice) : list SensorData.t :=
map (λ '(k, point), SensorData.mk (k, point) (name point) None None None None None None)
    (dict_items (unknown_points device)).

(** ** The inbound router *)

(** One [{"cmd": ..., "mac": ..., "command": {key: {"v": ...}, ...}}] entry
    of a decoded message; an absent member is [None].  [payload_v] is the
    member ["v"] of a payload. *)
Record Payload : Type := mkPayload { payload_v : option pyval }.

Record Entry : Type := mkEntry {
  cmd : option Z;
  mac : option string;
  command : option (list (string * Payload))
}.

(** The decoded message [{"method": ..., "data": [...]}]. *)
Record Message : Type := mkMessage {
  method : option string;
  msg_data : option (list Entry)
}.

(** [TopbandCloudApi]: the devices by hardware address. *)
Record TopbandCloudApi : Type := mkApi {
  devices : gmap string SmartDevice
}.

(** Run a data-point method on the object [self.data_points] holds under
    [k], storing the state it leaves. *)
Definition on_data_point {A} (k : string) (dp : SmartDeviceDataPoint)
  (m : M (SmartDeviceDataPoint * list positive) A) : M (SmartDevice * list positive) A :=
λ '(self, calls),
  let '(r, (dp', calls')) := m (dp, calls) in
  (r, (set_data_points (<[k := dp']> (data_points self)) self, calls')).

(** Run a device method on the device [self.devices] holds under [a]. *)
Definition on_device {A} (a : string) (device : SmartDevice)
  (m : M (SmartDevice * list positive) A) : M (TopbandCloudApi * list positive) A :=
λ '(self, calls),
  let '(r, (device', calls')) := m (device, calls) in
  (r, (mkApi (<[a := device']> (devices self)), calls')).

(** [SmartDevice.handle_mqtt_command] *)
Definition handle_mqtt_command (data : list (string * Payload))
  : M (SmartDevice * list positive) unit :=
for_each data (λ '(k, cmd),
  do st <- get;
  match data_points (fst st) !! k with
  | Some dp => on_data_point k dp (update_value (default PNone (payload_v cmd)))
  | None => ret tt
  end).

(** [TopbandCloudApi.on_mqtt_message], on the decoded payload.  Calling
    [handle_mqtt_command] on the [None] that [self.devices.get] returns
    for an unknown address raises [AttributeError]; the [else] branch
    reads the loop variable [d], which is unbound there. *)
Definition on_mqtt_message (data : Message) : M (TopbandCloudApi * list positive) unit :=
if bool_decide (method data = Some "command") then
  for_each (default [] (msg_data data)) (λ d,
    match cmd d with
    | Some 98 =>
        do st <- get;
        let a := default "" (mac d) in
        match devices (fst st) !! a with
        | Some device => on_device a device (handle_mqtt_command (default [] (command d)))
        | None => raise AttributeError
        end
    | _ => ret tt
    end)
else raise UnboundLocalError.

(** ** The outbound transport

    [TopbandCloudApi.send_mqtt_command], [publish_mqtt_message] and
    [mqtt_subscribe].  The MQTT client is what the integration asks of
    it: the messages to publish and the topics to subscribe to, oldest
    first. *)

(** The payload of [send_mqtt_command], as handed to [json.dumps]. *)
Record CommandPayload : Type := mkCommandPayload {
  common_productId : string;
  common_serial : Z;
  common_timestamp : Z;
  common_uid : string;
  data_cmd : Z;
  data_command : list Command;
  data_mac : string;
  payload_method : string
}.

Record MqttClient : Type := mkMqttClient {
  published : list (string * CommandPayload);
  subscribed : list string
}.

(** The attributes [_mqtt] and [_mqtt_serial] of [TopbandCloudApi]. *)
Record Transport : Type := mkTransport {
  _mqtt : option MqttClient;
  _mqtt_serial : Z
}.

(** [publish_mqtt_message]: [self._mqtt.publish(topic, payload)] *)
Definition publish_mqtt_message (topic : string) (payload : CommandPayload)
  : M Transport unit :=
λ self,
  match _mqtt self with
  | Some client =>
      (Ok tt,
       mkTransport
         (Some (mkMqttClient (published client ++ [(topic, payload)]) (subscribed client)))
         (_mqtt_serial self))
  | None => (Raise AttributeError, self)
  end.

(** [mqtt_subscribe] *)
Definition mqtt_subscribe (topic : string) : M Transport unit :=
λ self,
  match _mqtt self with
  | None => (Ok tt, self)
  | Some client =>
      (Ok tt,
       mkTransport (Some (mkMqttClient (published client) (subscribed client ++ [topic])))
         (_mqtt_serial self))
  end.

(** The topic and the payload of [send_mqtt_command]. *)
Definition download_topic (device : SmartDevice) : string :=
gateway_product_id (gateway device) +:+ "/" +:+ uid (gateway device)
  +:+ "/download/point/data".

Definition command_payload (serial now : Z) (device : SmartDevice) (command : Command)
  : CommandPayload :=
mkCommandPayload (gateway_product_id (gateway device)) serial now (uid (gateway device))
  99 [command] (mac_address device) "command".

(** [send_mqtt_command]; [now] is what [int(time() * 1000)] gives at the
    call. *)
Definition send_mqtt_command (now : Z) (device : SmartDevice) (command : Command)
  : M Transport unit :=
do self <- get;
match _mqtt self with
| None => ret tt
| Some _ =>
    modify (λ self, mkTransport (_mqtt self) (_mqtt_serial self + 1)) ;;
    do self <- get;
    let topic := download_topic device in
    let payload_str := command_payload (_mqtt_serial self) now device command in
    publish_mqtt_message topic payload_str
end.

(** The two subscriptions at the end of [SmartDevice.__init__]. *)
Definition business_topic (self : SmartDevice) : string :=
product_id self +:+ "/" +:+ uid (gateway self) +:+ "/business".

Definition upload_topic (self : SmartDevice) : string :=
gateway_product_id (gateway self) +:+ "/" +:+ uid (gateway self) +:+ "/upload/point/data".

(** [SmartDevice.__init__] with its subscriptions: the data points are
    built and classified, then the two topics are subscribed to. *)
Definition SmartDevice_new (device_type : Z) (name id product_id model : string)
  (gateway : Gateway) (mac_address : string) (online : bool)
  (data_points : gmap string PointData) : M Transport SmartDevice :=
do self <- lift (SmartDevice_init device_type name id product_id model gateway
                   mac_address online data_points);
mqtt_subscribe (business_topic self) ;;
mqtt_subscribe (upload_topic self) ;;
ret self.

(** ** The device table *)

(** One row of the device list of the cloud, with the members that
    [async_get_devices] reads; [pointDataMap] may be absent. *)
Record DeviceRow : Type := mkDeviceRow {
  deviceType : Z;
  deviceName : string;
  row_id : string;
  productId : string;
  row_model : string;
  row_gateway : Gateway;
  extAddr : string;
  row_online : bool;
  pointDataMap : option (gmap string PointData)
}.

(** Run a method of the transport in the state of the whole client. *)
Definition on_transport {A} (m : M Transport A) : M (TopbandCloudApi * Transport) A :=
λ '(self, t), let '(r, t') := m t in (r, (self, t')).

(** [SmartDevice(...)] on the members of the row [d]. *)
Definition device_of_row (d : DeviceRow) : M Transport SmartDevice :=
SmartDevice_new (deviceType d) (deviceName d) (row_id d) (productId d) (row_model d)
  (row_gateway d) (extAddr d) (row_online d) (default ∅ (pointDataMap d)).

(** The body of the loop of [async_get_devices]: the device of the row
    is built and entered under its address. *)
Definition add_device (d : DeviceRow) : M (TopbandCloudApi * Transport) unit :=
do device <- on_transport (device_of_row d);
modify (λ '(self, t), (mkApi (<[mac_address device := device]> (devices self)), t)).

(** [async_get_devices], from the rows that the request returned: the
    table is emptied, then one device after the other is built and
    entered. *)
Definition async_get_devices (data : list DeviceRow)
  : M (TopbandCloudApi * Transport) (gmap string SmartDevice) :=
modify (λ '(self, t), (mkApi ∅, t)) ;;
for_each data add_device ;;
do st <- get;
ret (devices (fst st)).

(** ** The entities

    The methods of the entity classes that read or write a data point.
    An entity reaches its data point through its descriptor; [dp] is that
    data point in its current state. *)

Section Entities.

Variable int_of_str : string → result Z.
Variable float_of_str : string → result float.

(** [bool(v)] *)
Definition py_bool (v : pyval) : bool :=
match v with
| PNone => false
| PBool b => b
| PInt z => negb (Z.eqb z 0)
| PFloat x => negb (PrimFloat.eqb x PrimFloat.zero)
| PStr s => negb (String.eqb s "")
end.

(** The int that the value equals, if any ([1 == 1.0 == True]): a dict
    with int keys finds the value under that key. *)
Definition int_key (v : pyval) : option Z :=
match v with
| PInt z => Some z
| PBool b => Some (if b then 1 else 0)
| PFloat x =>
    match int_of_float x with
    | Ok k => if PrimFloat.eqb x (nearest_float k) then Some k else None
    | Raise _ => None
    end
| PNone | PStr _ => None
end.

(** [d.get(v)] on a dict with int keys, given by its items. *)
Fixpoint dict_get {A} (d : list (Z * A)) (k : Z) : option A :=
match d with
| [] => None
| (k', a) :: d' => if Z.eqb k' k then Some a else dict_get d' k
end.

Definition py_dict_get {A} (d : list (Z * A)) (v : pyval) : option A :=
match int_key v with
| Some k => dict_get d k
| None => None
end.

(** [SmartDeviceDataPoint.set_value] down to the transport: the envelope
    of [send_data_point_update] goes to [send_mqtt_command]. *)
Definition set_value_and_send (now : Z) (device : SmartDevice) (value : pyval)
  : M (SmartDeviceDataPoint * Transport) unit :=
λ '(dp, t),
  match set_value int_of_str value dp with
  | (Ok command, dp') =>
      let '(r, t') := send_mqtt_command now device command t in (r, (dp', t'))
  | (Raise e, dp') => (Raise e, (dp', t))
  end.

(** [RadiantSmartSwitch].  The entity keeps the flag [_attr_is_on]; its
    state here is the data point of its descriptor, in its current state,
    with that flag.  [__init__] and [_handle_update] set the flag to
    [bool(self._data.data_point.get_value())], [is_on] returns it, and
    [turn_on] and [turn_off] write the data point.
    [schedule_update_ha_state], of the host framework, changes neither. *)
Definition RadiantSmartSwitch : Type := SmartDeviceDataPoint * bool.

Definition RadiantSmartSwitch_init (dp : SmartDeviceDataPoint) : result RadiantSmartSwitch :=
match get_value int_of_str float_of_str dp with
| Ok v => Ok (dp, py_bool v)
| Raise e => Raise e
end.

Definition RadiantSmartSwitch_handle_update : M RadiantSmartSwitch unit :=
λ '(dp, _attr_is_on),
  match get_value int_of_str float_of_str dp with
  | Ok v => (Ok tt, (dp, py_bool v))
  | Raise e => (Raise e, (dp, _attr_is_on))
  end.

Definition RadiantSmartSwitch_is_on (self : RadiantSmartSwitch) : bool := snd self.

Definition RadiantSmartSwitch_turn_on : M RadiantSmartSwitch Command :=
λ '(dp, _attr_is_on),
  let '(r, dp') := set_value int_of_str (PInt 1) dp in (r, (dp', _attr_is_on)).

Definition RadiantSmartSwitch_turn_off : M RadiantSmartSwitch Command :=
λ '(dp, _attr_is_on),
  let '(r, dp') := set_value int_of_str (PInt 0) dp in (r, (dp', _attr_is_on)).

(** [RadiantSmartThermostat]: the mode that [__init__] and
    [_handle_update] look up,
    [self._data.hvac_modes.get(self._data.hvac_mode.get_value())], and
    [set_hvac_mode], which yields the commands it sent. *)
Definition RadiantSmartThermostat_hvac_mode (data : ClimateData.t) (dp : SmartDeviceDataPoint)
  : result (option HVACMode) :=
match get_value int_of_str float_of_str dp with
| Ok v => Ok (py_dict_get (ClimateData.hvac_modes data) v)
| Raise e => Raise e
end.

Definition HVACMode_eqb (a b : HVACMode) : bool :=
match a, b with
| AUTO, AUTO | HEAT, HEAT | OFF, OFF => true
| _, _ => false
end.

Definition RadiantSmartThermostat_set_hvac_mode (data : ClimateData.t) (hvac_mode : HVACMode)
  : M SmartDeviceDataPoint (list Command) :=
for_fold (ClimateData.hvac_modes data) [] (λ sent '(v, m),
  if HVACMode_eqb hvac_mode m
  then do command <- set_value int_of_str (PInt v); ret (sent ++ [command])
  else ret sent).

(** [RadiantSmartSensor]: the entity keeps its descriptor and
    [_attr_native_value], which [__init__] computes as [_handle_update]
    does: the option under [get_value()], if the descriptor has options
    and one of them is under that value, else [get_value()] itself.  [dp]
    is the data point of the descriptor in its current state.  The names
    and identifiers that [__init__] formats from strings are left out. *)
Record RadiantSmartSensor : Type := mkSensor {
  RadiantSmartSensor_data : SensorData.t;
  _attr_native_value : pyval
}.

Definition native_value (data : SensorData.t) (dp : SmartDeviceDataPoint) : result pyval :=
match get_value int_of_str float_of_str dp with
| Ok v =>
    Ok match SensorData.options data with
       | Some options =>
           match py_dict_get options v with
           | Some o => PStr o
           | None => v
           end
       | None => v
       end
| Raise e => Raise e
end.

Definition RadiantSmartSensor_init (data : SensorData.t) (dp : SmartDeviceDataPoint)
  : result RadiantSmartSensor :=
match native_value data dp with
| Ok v => Ok (mkSensor data v)
| Raise e => Raise e
end.

(** ** The sensor platform *)

(** The data point that the reference [r] of a descriptor of [device]
    refers to, in its current state. *)
Definition deref (device : SmartDevice) (r : dp_ref) : SmartDeviceDataPoint :=
default (snd r) (data_points device !! fst r).

(** [entities.append(RadiantSmartSensor(data))] *)
Definition append_sensor (device : SmartDevice) (data : SensorData.t)
  : M (list RadiantSmartSensor) unit :=
do entity <- lift (RadiantSmartSensor_init data (deref device (SensorData.data_point data)));
modify (λ entities, entities ++ [entity]).

(** [async_setup_entry] of [sensor.py] on the devices of the hub, in the
    order in which [hub.devices.values()] gives them: for every device a
    sensor for every descriptor of [sensors_data], then one for every
    residual point.  The result is the list handed to
    [async_add_entities]; when a constructor raises, nothing is handed
    over. *)
Definition sensor_async_setup_entry (devices : list SmartDevice)
  : result (list RadiantSmartSensor) :=
fst ((for_each devices (λ device,
        for_each (sensors_data device) (append_sensor device) ;;
        for_each (residual_sensors device) (append_sensor device)) ;;
      get) []).

End Entities.

(** * Specification vocabulary *)

(** ** What a pass claims *)

(** [f] returns [a] from the state [s], leaving a state [s'], with
    [Q a s']. *)
Definition returns {S A} (f : M S A) (s : S) (Q : A → S → Prop) : Prop :=
∃ a s', f s = (Ok a, s') ∧ Q a s'.

(** The dictionary [m'] is [m] without the keys [ks], which were all in
    [m], each once in [ks]. *)
Definition claimed (m : dict) (ks : list string) (m' : dict) : Prop :=
NoDup ks ∧ (∀ k, k ∈ ks → is_Some (m !! k))
  ∧ ∀ k, m' !! k = if bool_decide (k ∈ ks) then None else m !! k.

(** The keys that one of the tests in the loop of [get_sensors_data]
    accepts. *)
Definition sensor_key (k : string) : bool :=
String.eqb k "PARAM_ID_BOILER_OUTDOOR_TEMP" || endswith "_TEMP" k
  || endswith "_RATE" k || endswith "_PRESSURE" k
  || endswith_any ["WIFI_SIGNAL"; "WIFI__SIGNAL"] k || endswith "_FAULT_CODE" k
  || String.eqb k "PARAM_ID_BOILER_OT_SLAVE_STATUS" || String.eqb k "PARAM_ID_SYS_SOFT_VER".

(** The keys that one branch of the if/elif chain in the loop of
    [get_binary_sensors_data] accepts. *)
Definition binary_sensor_key (k : string) : bool :=
String.eqb k "PARAM_ID_BOILER_IS_ROOM_SENSOR_ENABL"
  || String.eqb k "PARAM_ID_BOILER_IS_OT_CONNECTED"
  || String.eqb k "PARAM_ID_BOILER_OTC_ENABLE"
  || endswith_any ["_ENABLE"; "_ENABL"; "_CONNECTED"] k.

(** The keys of the descriptors in the attribute that the pass [p]
    assigns. *)
Definition pass_keys (p : pass) (self : SmartDevice) : list string :=
match p with
| WaterHeaters => concat (map WaterHeaterData.keys (water_heaters self))
| Climate => concat (map ClimateData.keys (climate_data self))
| Select => map (λ x, fst (SelectData.data_point x)) (select_data self)
| Switches => map (λ x, fst (SwitchData.data_point x)) (switches_data self)
| Numbers => map (λ x, fst (NumberData.data_point x)) (numbers_data self)
| Sensors => map (λ x, fst (SensorData.data_point x)) (sensors_data self)
| BinarySensors => map (λ x, fst (SensorData.data_point x)) (binary_sensors_data self)
| RemoveUnsupported => []
end.

(** The keys that the rule [p] can claim. *)
Definition rule_keys (p : pass) (k : string) : bool :=
match p with
| WaterHeaters =>
    bool_decide (k ∈ [ "PARAM_ID_BOILER_CH_SET_RANGE_DOWN"; "PARAM_ID_BOILER_CH_SET_RANGE_UP";
                       "PARAM_ID_BOILER_CH_CUR_TEMP"; "PARAM_ID_BOILER_CH_MAX_SETPOINT";
                       "PARAM_ID_BOILER_DHW_SET_RANGE_DOWN"; "PARAM_ID_BOILER_DHW_SET_RANGE_UP";
                       "PARAM_ID_BOILER_DHW_CUR_TEMP"; "PARAM_ID_BOILER_DHW_TRG_TEMP" ])
| Climate => bool_decide (k ∈ thermostat_keys)
| Select => String.eqb k "SYS_WORK_MODE"
| Switches => bool_decide (k ∈ ["PARAM_ID_BOILER_DHW_PRO_EN"; "PARAM_ID_SYS_DST_ENABLE"])
| Numbers => String.eqb k "PARAM_ID_TH_POWEROFF_FROZE_TEMP"
| Sensors => String.eqb k "PARAM_ID_BOILER_CH_TRG_TEMP" || sensor_key k
| BinarySensors => binary_sensor_key k
| RemoveUnsupported => false
end.

(** The seven capability-group rules, in the order of [passes]. *)
Definition group_rules : list pass :=
[WaterHeaters; Climate; Select; Switches; Numbers; Sensors; BinarySensors].

(** The keys that some capability-group rule can claim. *)
Definition group_key (k : string) : bool :=
existsb (λ p, rule_keys p k) group_rules.

(** What a capability-group rule does to the device: it takes the keys of
    its descriptors, all among [rule_keys], out of [unknown_points],
    assigns its own attribute and leaves the others. *)
Definition group_rule_effect (p : pass) (self self' : SmartDevice) : Prop :=
claimed (unknown_points self) (pass_keys p self') (unknown_points self')
∧ Forall (λ k, rule_keys p k = true) (pass_keys p self')
∧ data_points self' = data_points self
∧ ∀ q, q ≠ p → pass_keys q self' = pass_keys q self.

(** The local list of a loop: what it held at the start, then one
    descriptor for each key claimed since. *)
Definition grown {X} (key_of : X → string) (acc0 acc : list X) (ks : list string) : Prop :=
∃ new, acc = acc0 ++ new ∧ map key_of new = ks.

(** The descriptor that the exact rule of the sensor pass builds. *)
Definition heating_target_temperature (d : SmartDeviceDataPoint) : SensorData.t :=
SensorData.mk ("PARAM_ID_BOILER_CH_TRG_TEMP", d) "Heating Target Temperature"
  (Some "mdi:thermometer") (Some SensorDeviceClass_TEMPERATURE) (Some MEASUREMENT)
  (Some CELSIUS) None None.

(** The keys that [remove_unsupported_data] drops for their prefix: the
    keys of the input that start with one of [unsupported_prefixes] and
    that no rule claimed. *)
Definition prefix_pruned (self self' : SmartDevice) : gset string :=
filter (λ k, startswith_any unsupported_prefixes k = true ∧ k ∉ group_keys self')
       (dom (data_points self)).

(** The callbacks that one [update_value] on [dp] invokes, in order. *)
Definition invoked (data : pyval) (dp : SmartDeviceDataPoint) : list positive :=
snd (snd (update_value data (dp, []))).

(** The message [{"method": "command", "data": [{"cmd": 98, "mac": a,
    "command": data}]}]. *)
Definition command_message (a : string) (data : list (string * Payload)) : Message :=
mkMessage (Some "command") (Some [mkEntry (Some 98) (Some a) (Some data)]).

(** ** What a pass leaves alone *)

(** The attributes that identify the device. *)
Definition identity (self : SmartDevice)
  : Z * string * string * string * string * Gateway * string * bool :=
(device_type self, device_name self, device_id self, product_id self, model self,
 gateway self, mac_address self, online self).

(** The passes that come after [p] in [l]. *)
Fixpoint after (p : pass) (l : list pass) : list pass :=
match l with
| [] => []
| p' :: l' => if pass_eqb p' p then l' else after p l'
end.

(** The attribute that the pass [q] assigns is the same in [self] and
    [self']. *)
Definition same_attribute (q : pass) (self self' : SmartDevice) : Prop :=
match q with
| WaterHeaters => water_heaters self' = water_heaters self
| Climate => climate_data self' = climate_data self
| Select => select_data self' = select_data self
| Switches => switches_data self' = switches_data self
| Numbers => numbers_data self' = numbers_data self
| Sensors => sensors_data self' = sensors_data self
| BinarySensors => binary_sensors_data self' = binary_sensors_data self
| RemoveUnsupported => True
end.

(** [self'] differs from [self] at most in [unknown_points] and in the
    attributes that the passes of [l] assign. *)
Definition frame (l : list pass) (self self' : SmartDevice) : Prop :=
data_points self' = data_points self
∧ identity self' = identity self
∧ ∀ q, q ∉ l → same_attribute q self self'.

(** ** What the sensor loop gives a key *)

(** The descriptor [x] refers to the data point that [m] holds under its
    key, and has the device class, the unit and the state class of the
    suffix of that key; its name is the title-cased name of the point,
    unless the rule that built it names it itself. *)
Definition sensor_by_suffix (m : dict) (x : SensorData.t) : Prop :=
let k := fst (SensorData.data_point x) in
let d := snd (SensorData.data_point x) in
let measured := endswith "_TEMP" k || endswith "_RATE" k || endswith "_PRESSURE" k in
m !! k = Some d
∧ (endswith "_TEMP" k = true →
     SensorData.device_class x = Some SensorDeviceClass_TEMPERATURE
     ∧ SensorData.unit_of_measurement x = Some CELSIUS)
∧ (endswith "_RATE" k = true →
     SensorData.device_class x = Some SensorDeviceClass_VOLUME_FLOW_RATE
     ∧ SensorData.unit_of_measurement x = Some LITERS_PER_SECOND)
∧ (endswith "_PRESSURE" k = true →
     SensorData.device_class x = Some SensorDeviceClass_PRESSURE
     ∧ SensorData.unit_of_measurement x = Some BAR)
∧ (measured = true → SensorData.state_class x = Some MEASUREMENT)
∧ (measured = false → SensorData.unit_of_measurement x = None)
∧ (SensorData.name x = title (name d)
   ∨ k ∈ [ "PARAM_ID_BOILER_CH_TRG_TEMP"; "PARAM_ID_BOILER_OUTDOOR_TEMP";
           "PARAM_ID_BOILER_OT_SLAVE_STATUS"; "PARAM_ID_SYS_SOFT_VER" ]
   ∨ endswith_any ["WIFI_SIGNAL"; "WIFI__SIGNAL"] k = true).

(** ** The descriptors of the water-heater rule *)

Definition heating_water_heater (min_temp max_temp current_temp target_temp : SmartDeviceDataPoint)
  : WaterHeaterData.t :=
WaterHeaterData.mk "Heating Water Heater" (Some "mdi:radiator")
  ("PARAM_ID_BOILER_CH_SET_RANGE_DOWN", min_temp) ("PARAM_ID_BOILER_CH_SET_RANGE_UP", max_temp)
  ("PARAM_ID_BOILER_CH_CUR_TEMP", current_temp) ("PARAM_ID_BOILER_CH_MAX_SETPOINT", target_temp)
  1 CELSIUS.

Definition sanitary_water_heater (min_temp max_temp current_temp target_temp : SmartDeviceDataPoint)
  : WaterHeaterData.t :=
WaterHeaterData.mk "Sanitary Water Heater" (Some "mdi:faucet")
  ("PARAM_ID_BOILER_DHW_SET_RANGE_DOWN", min_temp) ("PARAM_ID_BOILER_DHW_SET_RANGE_UP", max_temp)
  ("PARAM_ID_BOILER_DHW_CUR_TEMP", current_temp) ("PARAM_ID_BOILER_DHW_TRG_TEMP", target_temp)
  1 CELSIUS.

(** The water heaters that the snapshot [m] calls for: the heating one
    when [m] has the five heating keys, the sanitary one when it has the
    four sanitary keys, each on the points of its four keys. *)
Definition water_heaters_of (m : dict) (l : list WaterHeaterData.t) : Prop :=
((∀ k, k ∈ ch_keys → is_Some (m !! k)) →
   ∃ d1 d2 d3 d4,
     m !! "PARAM_ID_BOILER_CH_SET_RANGE_DOWN" = Some d1
     ∧ m !! "PARAM_ID_BOILER_CH_SET_RANGE_UP" = Some d2
     ∧ m !! "PARAM_ID_BOILER_CH_CUR_TEMP" = Some d3
     ∧ m !! "PARAM_ID_BOILER_CH_MAX_SETPOINT" = Some d4
     ∧ heating_water_heater d1 d2 d3 d4 ∈ l)
∧ ((∀ k, k ∈ dhw_keys → is_Some (m !! k)) →
     ∃ d1 d2 d3 d4,
       m !! "PARAM_ID_BOILER_DHW_SET_RANGE_DOWN" = Some d1
       ∧ m !! "PARAM_ID_BOILER_DHW_SET_RANGE_UP" = Some d2
       ∧ m !! "PARAM_ID_BOILER_DHW_CUR_TEMP" = Some d3
       ∧ m !! "PARAM_ID_BOILER_DHW_TRG_TEMP" = Some d4
       ∧ sanitary_water_heater d1 d2 d3 d4 ∈ l)
∧ (∀ w, w ∈ l →
     (∃ d1 d2 d3 d4, w = heating_water_heater d1 d2 d3 d4
                     ∧ ∀ k, k ∈ ch_keys → is_Some (m !! k))
     ∨ (∃ d1 d2 d3 d4, w = sanitary_water_heater d1 d2 d3 d4
                       ∧ ∀ k, k ∈ dhw_keys → is_Some (m !! k)))
∧ (length l ≤ 2)%nat.

(** ** The descriptor of the thermostat rule *)

Definition thermostat (current_temp target_temp hvac_mode : SmartDeviceDataPoint)
  : ClimateData.t :=
ClimateData.mk "Thermostat" (Some "mdi:thermostat")
  ("PARAM_ID_TH_CUR_ROOM_TEMP", current_temp) ("PARAM_ID_TH_TRG_ROOM_TEMP", target_temp)
  [(0, AUTO); (1, HEAT); (4, OFF)] ("PARAM_ID_TH_WORK_MODE", hvac_mode)
  (1 # 2) CELSIUS None None.

(** The thermostats that the snapshot [m] calls for: one, on the points
    of the three thermostat keys, when [m] has all three, else none. *)
Definition thermostat_of (m : dict) (l : list ClimateData.t) : Prop :=
((∀ k, k ∈ thermostat_keys → is_Some (m !! k)) →
   ∃ d1 d2 d3,
     m !! "PARAM_ID_TH_CUR_ROOM_TEMP" = Some d1
     ∧ m !! "PARAM_ID_TH_TRG_ROOM_TEMP" = Some d2
     ∧ m !! "PARAM_ID_TH_WORK_MODE" = Some d3
     ∧ l = [thermostat d1 d2 d3])
∧ ((¬ ∀ k, k ∈ thermostat_keys → is_Some (m !! k)) → l = []).

(** ** Where a key of the snapshot goes *)

(** [all(k in data_points for k in ks)] *)
Definition complete (ks : list string) (m : dict) : bool :=
forallb (λ k, contains k m) ks.

(** The water heaters that the snapshot [m] calls for, in their order:
    first the heating one, when [m] has the five heating keys, then the
    sanitary one, when [m] has the four sanitary keys, each on the points
    that [m] holds under its own four keys. *)
Definition water_heaters_for (m : dict) : list WaterHeaterData.t :=
(if complete ch_keys m then
   match m !! "PARAM_ID_BOILER_CH_SET_RANGE_DOWN", m !! "PARAM_ID_BOILER_CH_SET_RANGE_UP",
         m !! "PARAM_ID_BOILER_CH_CUR_TEMP", m !! "PARAM_ID_BOILER_CH_MAX_SETPOINT" with
   | Some d1, Some d2, Some d3, Some d4 => [heating_water_heater d1 d2 d3 d4]
   | _, _, _, _ => []
   end
 else [])
++ (if complete dhw_keys m then
      match m !! "PARAM_ID_BOILER_DHW_SET_RANGE_DOWN", m !! "PARAM_ID_BOILER_DHW_SET_RANGE_UP",
            m !! "PARAM_ID_BOILER_DHW_CUR_TEMP", m !! "PARAM_ID_BOILER_DHW_TRG_TEMP" with
      | Some d1, Some d2, Some d3, Some d4 => [sanitary_water_heater d1 d2 d3 d4]
      | _, _, _, _ => []
      end
    else []).

(** The keys of the snapshot [m] that a capability group takes: the keys
    that pass a test of the sensor or of the binary-sensor loop, the four
    keys that a rule tests by name, and the keys of the water heaters and
    of the thermostat when [m] has the whole set that their rule asks
    for. *)
Definition grouped (m : dict) (k : string) : bool :=
sensor_key k || binary_sensor_key k
|| bool_decide (k ∈ [ "SYS_WORK_MODE"; "PARAM_ID_BOILER_DHW_PRO_EN";
                      "PARAM_ID_SYS_DST_ENABLE"; "PARAM_ID_TH_POWEROFF_FROZE_TEMP" ])
|| bool_decide (k ∈ [ "PARAM_ID_BOILER_CH_SET_RANGE_DOWN"; "PARAM_ID_BOILER_CH_SET_RANGE_UP";
                      "PARAM_ID_BOILER_CH_CUR_TEMP"; "PARAM_ID_BOILER_CH_MAX_SETPOINT" ])
   && complete ch_keys m
|| bool_decide (k ∈ dhw_keys) && complete dhw_keys m
|| bool_decide (k ∈ thermostat_keys) && complete thermostat_keys m.

(** ** What the router changes *)

(** [dp'] is [dp] with another value, at most. *)
Definition same_point (dp dp' : SmartDeviceDataPoint) : Prop :=
with_value (value dp) dp' = dp.

(** [device'] is [device] with other values in its data points, at
    most: the same keys, and every other attribute as it was. *)
Definition values_only (device device' : SmartDevice) : Prop :=
set_data_points (data_points device) device' = device
∧ ∀ k, match data_points device !! k, data_points device' !! k with
       | Some dp, Some dp' => same_point dp dp'
       | None, None => True
       | _, _ => False
       end.

(** The same devices, with other values in their data points at most. *)
Definition devices_values_only (api api' : TopbandCloudApi) : Prop :=
∀ a, match devices api !! a, devices api' !! a with
     | Some device, Some device' => values_only device device'
     | None, None => True
     | _, _ => False
     end.

(** The message [{"method": "command", "data": entries}]. *)
Definition command_entries (entries : list Entry) : Message :=
mkMessage (Some "command") (Some entries).

(** The callbacks registered on the data point that [device] holds under
    [k], in the order of their invocation. *)
Definition listeners_at (device : SmartDevice) (k : string) : list positive :=
match data_points device !! k with
| Some dp => set_iter (_listener dp)
| None => []
end.

(** ** The transport and the device table *)

(** [send_mqtt_command] for one request after the other. *)
Definition send_all (requests : list (Z * SmartDevice * Command)) : M Transport unit :=
for_each requests (λ '(now, device, command), send_mqtt_command now device command).

(** The transport after subscriptions to [topics]: the client has them,
    in order, after the ones it had; without a client nothing changes. *)
Definition subscribed_to (topics : list string) (t : Transport) : Transport :=
match _mqtt t with
| None => t
| Some client =>
    mkTransport (Some (mkMqttClient (published client) (subscribed client ++ topics)))
      (_mqtt_serial t)
end.

(** The device that [SmartDevice.__init__] makes of the row [d], when
    classification returns. *)
Definition classified_row (d : DeviceRow) : result SmartDevice :=
SmartDevice_init (deviceType d) (deviceName d) (row_id d) (productId d) (row_model d)
  (row_gateway d) (extAddr d) (row_online d) (default ∅ (pointDataMap d)).

(** The topics of the devices of [rows], in order; a row whose device
    cannot be classified has none. *)
Definition topics_of (rows : list DeviceRow) : list string :=
concat (map (λ d, match classified_row d with
                  | Ok device => [business_topic device; upload_topic device]
                  | Raise _ => []
                  end) rows).

(** The snapshot of the row [d] has the two keys that classification
    pops by name. *)
Definition row_complete (d : DeviceRow) : Prop :=
∀ k, k ∈ unsupported_keys → is_Some (default ∅ (pointDataMap d) !! k).

(** ** The thermostat entity *)

(** The code of a mode in the table of the thermostat rule. *)
Definition mode_code (m : HVACMode) : Z :=
match m with AUTO => 0 | HEAT => 1 | OFF => 4 end.

(** ** The sensor platform *)

(** The descriptors that the loops of [async_setup_entry] go through,
    each with its device: for every device those of [sensors_data], then
    one for every residual point. *)
Definition platform_descriptors (devices : list SmartDevice)
  : list (SmartDevice * SensorData.t) :=
concat (map (λ device, map (pair device) (sensors_data device ++ residual_sensors device))
          devices).

Section SensorVocabulary.

Variable int_of_str : string → result Z.
Variable float_of_str : string → result float.

(** What [get_value] gives on the data point of the descriptor [x], in
    the current state of its device. *)
Definition reading (x : SmartDevice * SensorData.t) : result pyval :=
get_value int_of_str float_of_str (deref (fst x) (SensorData.data_point (snd x))).

(** [entity] is the sensor of the descriptor [x]: it keeps the descriptor
    and the native value of the data point in its current state. *)
Definition sensor_for (entity : RadiantSmartSensor) (x : SmartDevice * SensorData.t) : Prop :=
RadiantSmartSensor_data entity = snd x
∧ native_value int_of_str float_of_str (snd x)
    (deref (fst x) (SensorData.data_point (snd x)))
  = Ok (_attr_native_value entity).

End SensorVocabulary.

#[local] Instance pass_eq_dec : EqDecision pass.
Proof. solve_decision. Defined.

(** ** The claims that the code does not meet, as the specification
    states them *)

(** C2 as the specification states it: three kinds of keys make up the
    input. *)
Definition partition_as_stated (self : SmartDevice) : Prop :=
∀ self', parse_data_points self = (Ok tt, self') →
  NoDup (group_keys self')
  ∧ dom (data_points self)
    = list_to_set (group_keys self') ∪ dom (unknown_points self')
        ∪ list_to_set unsupported_keys.

(** C3 as the specification states it: when a capability-group rule
    starts, the working map no longer has the two keys. *)
Definition pruned_before_group_rules (self : SmartDevice) : Prop :=
∀ p, is_group_rule p = true →
  ∀ self_p, run_until p self = (Ok tt, self_p) →
    ∀ k, k ∈ unsupported_keys → unknown_points self_p !! k = None.

(** C6 as the specification states it: a callback that raises keeps no
    other registered callback from running. *)
Definition fan_out_isolated (data : pyval) (dp : SmartDeviceDataPoint) : Prop :=
(2 ≤ size (_listener dp))%nat →
∀ c e, c ∈ _listener dp → callback c = Raise e →
  ∀ c', c' ∈ _listener dp → c' ≠ c → c' ∈ invoked data dp.

(** ** Sample inputs *)

Definition sample_point (k : string) : SmartDeviceDataPoint :=
new_data_point (mkPointData 1 (Some k) 2 (PInt 215)).

Definition sample_dict (ks : list string) : dict :=
list_to_map (map (λ k, (k, sample_point k)) ks).

Definition sample_device (ks : list string) : SmartDevice :=
mkSmartDevice 1 "Boiler" "id-1" "product-1" "model-1" (mkGateway "uid-1" "gw-1") "AA:BB" true
  (sample_dict ks) ∅ [] [] [] [] [] [] [].

(** A device with the two keys pruned by name, a day-program key, the
    heating target temperature, a plain temperature, an enable flag and a
    key that no rule knows. *)
Definition pruned_keys : list string :=
[ "PARAM_ID_SYS_DEVICE_MODULE"; "PARAM_ID_TH_DELETE_TH_ADDR";
  "PARAM_ID_TH_ROOM_PROG_DAY_1"; "PARAM_ID_BOILER_CH_TRG_TEMP";
  "PARAM_ID_BOILER_FLOW_TEMP"; "PARAM_ID_SYS_NTP_ENABLE"; "PARAM_ID_SYS_TIME_ZONE" ].

Definition pruned_device : SmartDevice := sample_device pruned_keys.

Definition pruned_device_sensors : list SensorData.t :=
[ heating_target_temperature (sample_point "PARAM_ID_BOILER_CH_TRG_TEMP");
  SensorData.mk ("PARAM_ID_BOILER_FLOW_TEMP", sample_point "PARAM_ID_BOILER_FLOW_TEMP")
    "Boiler_Flow_Temp" (Some "mdi:thermometer") (Some SensorDeviceClass_TEMPERATURE)
    (Some MEASUREMENT) (Some CELSIUS) None None ].

Definition pruned_device_binary_sensors : list SensorData.t :=
[ SensorData.mk ("PARAM_ID_SYS_NTP_ENABLE", sample_point "PARAM_ID_SYS_NTP_ENABLE")
    "Sys_Ntp_Enable" None None None None None None ].

(** [pruned_device] when control reaches [remove_unsupported_data], and
    when [parse_data_points] returns. *)
Definition pruned_device_before_removal : SmartDevice :=
mkSmartDevice 1 "Boiler" "id-1" "product-1" "model-1" (mkGateway "uid-1" "gw-1") "AA:BB" true
  (sample_dict pruned_keys)
  (sample_dict [ "PARAM_ID_SYS_DEVICE_MODULE"; "PARAM_ID_TH_DELETE_TH_ADDR";
                 "PARAM_ID_TH_ROOM_PROG_DAY_1"; "PARAM_ID_SYS_TIME_ZONE" ])
  [] [] [] [] [] pruned_device_sensors pruned_device_binary_sensors.

Definition pruned_device_parsed : SmartDevice :=
mkSmartDevice 1 "Boiler" "id-1" "product-1" "model-1" (mkGateway "uid-1" "gw-1") "AA:BB" true
  (sample_dict pruned_keys)
  (sample_dict ["PARAM_ID_SYS_TIME_ZONE"])
  [] [] [] [] [] pruned_device_sensors pruned_device_binary_sensors.

(** A device without the device-module key. *)
Definition incomplete_device : SmartDevice :=
sample_device
  [ "PARAM_ID_TH_DELETE_TH_ADDR"; "PARAM_ID_TH_ROOM_PROG_DAY_1";
    "PARAM_ID_BOILER_CH_TRG_TEMP" ].

(** A point of type 2 with the two listeners 1 and 2. *)
Definition room_temperature : SmartDeviceDataPoint :=
mkDataPoint 12 "TH_TRG_ROOM_TEMP" 2 (PInt 200) {[1%positive; 2%positive]}.

(** String parsers that accept nothing. *)
Definition no_parser {A} (s : string) : result A := Raise ValueError.

(** Callbacks: all raise; only the callback 2 raises. *)
Definition all_raise (c : positive) : result unit := Raise (CallbackError c).

Definition second_raises (c : positive) : result unit :=
if Pos.eqb c 2 then Raise (CallbackError c) else Ok tt.

(** The router state with one device, under the address "AA:BB". *)
Definition one_device_api : TopbandCloudApi :=
mkApi {[ "AA:BB" := pruned_device ]}.

(** A boiler with heating, a thermostat, the four keys that a rule tests
    by name, a pressure, the current temperature of the sanitary water
    without the rest of its set, a key that no rule knows and a key with
    a pruned prefix. *)
Definition boiler_keys : list string :=
[ "PARAM_ID_SYS_DEVICE_MODULE"; "PARAM_ID_TH_DELETE_TH_ADDR";
  "PARAM_ID_BOILER_CH_CUR_TEMP"; "PARAM_ID_BOILER_CH_SET_RANGE_DOWN";
  "PARAM_ID_BOILER_CH_SET_RANGE_UP"; "PARAM_ID_BOILER_CH_MAX_SETPOINT";
  "PARAM_ID_BOILER_CH_TRG_TEMP";
  "PARAM_ID_TH_CUR_ROOM_TEMP"; "PARAM_ID_TH_TRG_ROOM_TEMP"; "PARAM_ID_TH_WORK_MODE";
  "SYS_WORK_MODE"; "PARAM_ID_BOILER_DHW_PRO_EN"; "PARAM_ID_SYS_DST_ENABLE";
  "PARAM_ID_TH_POWEROFF_FROZE_TEMP"; "PARAM_ID_BOILER_WATER_PRESSURE";
  "PARAM_ID_BOILER_DHW_CUR_TEMP"; "PARAM_ID_SYS_TIME_ZONE"; "PARAM_ID_BOILER_DHW_PRO_1" ].

Definition boiler : SmartDevice := sample_device boiler_keys.

(** [boiler] when [parse_data_points] returns. *)
Definition boiler_parsed : SmartDevice :=
mkSmartDevice 1 "Boiler" "id-1" "product-1" "model-1" (mkGateway "uid-1" "gw-1") "AA:BB" true
  (sample_dict boiler_keys)
  (sample_dict ["PARAM_ID_SYS_TIME_ZONE"])
  [ heating_water_heater
      (sample_point "PARAM_ID_BOILER_CH_SET_RANGE_DOWN")
      (sample_point "PARAM_ID_BOILER_CH_SET_RANGE_UP")
      (sample_point "PARAM_ID_BOILER_CH_CUR_TEMP")
      (sample_point "PARAM_ID_BOILER_CH_MAX_SETPOINT") ]
  [ thermostat (sample_point "PARAM_ID_TH_CUR_ROOM_TEMP")
      (sample_point "PARAM_ID_TH_TRG_ROOM_TEMP") (sample_point "PARAM_ID_TH_WORK_MODE") ]
  [ SelectData.mk ("SYS_WORK_MODE", sample_point "SYS_WORK_MODE") "Work Mode"
      (Some "mdi:auto-mode")
      [(0, "Standby"); (2, "Sanitary"); (3, "Heating"); (10, "Heating & Sanitary")] ]
  [ SwitchData.mk ("PARAM_ID_BOILER_DHW_PRO_EN", sample_point "PARAM_ID_BOILER_DHW_PRO_EN")
      "Domestic Water Heating Program" (Some "mdi:home-clock") (Some SwitchDeviceClass_SWITCH);
    SwitchData.mk ("PARAM_ID_SYS_DST_ENABLE", sample_point "PARAM_ID_SYS_DST_ENABLE")
      "Auto Time Sync" (Some "mdi:clock") (Some SwitchDeviceClass_SWITCH) ]
  [ NumberData.mk
      ("PARAM_ID_TH_POWEROFF_FROZE_TEMP", sample_point "PARAM_ID_TH_POWEROFF_FROZE_TEMP")
      "Poweroff Froze Temperature" (Some "mdi:snowflake-thermometer")
      (Some NumberDeviceClass_TEMPERATURE) (Some CELSIUS) NumberMode_BOX
      (Some 5%Q) (Some 15%Q) (Some (1 # 2)%Q) ]
  [ heating_target_temperature (sample_point "PARAM_ID_BOILER_CH_TRG_TEMP");
    SensorData.mk
      ("PARAM_ID_BOILER_WATER_PRESSURE", sample_point "PARAM_ID_BOILER_WATER_PRESSURE")
      "Boiler_Water_Pressure" (Some "mdi:gauge") (Some SensorDeviceClass_PRESSURE)
      (Some MEASUREMENT) (Some BAR) None None;
    SensorData.mk
      ("PARAM_ID_BOILER_DHW_CUR_TEMP", sample_point "PARAM_ID_BOILER_DHW_CUR_TEMP")
      "Boiler_Dhw_Cur_Temp" (Some "mdi:thermometer") (Some SensorDeviceClass_TEMPERATURE)
      (Some MEASUREMENT) (Some CELSIUS) None None ]
  [].

(** Callbacks that all return. *)
Definition all_return (c : positive) : result unit := Ok tt.

(** A point of type 1 with the listener 1. *)
Definition work_mode : SmartDeviceDataPoint :=
mkDataPoint 3 "TH_WORK_MODE" 1 (PInt 1) {[1%positive]}.

(** A transport with a client that has published and subscribed to
    nothing yet, and one without a client. *)
Definition connected : Transport := mkTransport (Some (mkMqttClient [] [])) 0.

Definition disconnected : Transport := mkTransport None 0.

(** The rows of two devices; the snapshot of the second one lacks the
    device-module key. *)
Definition sample_points (ks : list string) : gmap string PointData :=
list_to_map (map (λ k, (k, mkPointData 1 (Some k) 2 (PInt 215))) ks).

Definition sample_row (a : string) (ks : list string) : DeviceRow :=
mkDeviceRow 1 "Boiler" "id-1" "product-1" "model-1" (mkGateway "uid-1" "gw-1") a true
  (Some (sample_points ks)).

Definition pruned_row : DeviceRow := sample_row "AA:BB" pruned_keys.

Definition incomplete_row : DeviceRow :=
sample_row "CC:DD"
  [ "PARAM_ID_TH_DELETE_TH_ADDR"; "PARAM_ID_TH_ROOM_PROG_DAY_1";
    "PARAM_ID_BOILER_CH_TRG_TEMP" ].

(** A command message of three entries: one with another [cmd], one for
    the device "AA:BB", one for an address that no device has. *)
Definition other_entry : Entry :=
mkEntry (Some 97) (Some "AA:BB")
  (Some [("PARAM_ID_BOILER_FLOW_TEMP", mkPayload (Some (PInt 1)))]).

Definition flow_entry : Entry :=
mkEntry (Some 98) (Some "AA:BB")
  (Some [("PARAM_ID_BOILER_FLOW_TEMP", mkPayload (Some (PInt 420)))]).

Definition stray_entry : Entry :=
mkEntry (Some 98) (Some "ZZ:ZZ")
  (Some [("PARAM_ID_BOILER_FLOW_TEMP", mkPayload (Some (PInt 7)))]).

(** [pruned_device] after the command of [flow_entry]. *)
Definition pruned_device_updated : SmartDevice :=
set_data_points
  (<["PARAM_ID_BOILER_FLOW_TEMP" :=
       with_value (PInt 420) (sample_point "PARAM_ID_BOILER_FLOW_TEMP")]>
     (data_points pruned_device))
  pruned_device.

(** The data of a command: a new flow temperature and a key that the
    device does not have. *)
Definition flow_commands : list (string * Payload) :=
[ ("PARAM_ID_BOILER_FLOW_TEMP", mkPayload (Some (PInt 420)));
  ("PARAM_ID_NOT_THERE", mkPayload (Some (PInt 1))) ].

(** * Proofs *)

(** Every enumeration of the items of a dictionary lists each item once,
    and so does every enumeration of a set of callbacks. *)
Hypothesis dict_items_perm : ∀ m : dict, dict_items m ≡ₚ map_to_list m.
Hypothesis set_iter_perm : ∀ s : gset positive, set_iter s ≡ₚ elements s.

(** ** Monad and string lemmas *)

#[local] Arguments String.eqb : simpl never.
#[local] Set Default Proof Using "Type*".

Lemma returns_ret {S A} (a : A) (s : S) Q : Q a s → returns (ret a) s Q.
Proof. intros HQ. exists a, s. done. Qed.

Lemma returns_bind {S A B} (f : M S A) (g : A → M S B) s Q :
  returns f s (λ a s', returns (g a) s' Q) → returns (bind f g) s Q.
Proof.
  intros (a & s' & Hf & b & s'' & Hg & HQ).
  exists b, s''. split; [|done]. unfold bind. by rewrite Hf.
Qed.

Lemma returns_get {S} (s : S) Q : Q s s → returns get s Q.
Proof. intros HQ. exists s, s. done. Qed.

Lemma returns_weaken {S A} (f : M S A) s (P Q : A → S → Prop) :
  returns f s P → (∀ a s', P a s' → Q a s') → returns f s Q.
Proof. intros (a & s' & Hf & HP) HPQ. exists a, s'. auto. Qed.

Lemma returns_pop (m : dict) k d Q :
  m !! k = Some d → Q (k, d) (delete k m) → returns (pop k) m Q.
Proof. intros Hk HQ. exists (k, d), (delete k m). unfold pop. by rewrite Hk. Qed.

Lemma pop_None (m : dict) k : m !! k = None → pop k m = (Raise (KeyError k), m).
Proof. intros Hk. unfold pop. by rewrite Hk. Qed.

Lemma contains_true k (m : dict) : contains k m = true ↔ is_Some (m !! k).
Proof. unfold contains. by rewrite bool_decide_eq_true. Qed.

Lemma contains_false k (m : dict) : contains k m = false ↔ m !! k = None.
Proof. unfold contains. by rewrite bool_decide_eq_false, eq_None_not_Some. Qed.

Lemma endswith_refl s : endswith s s = true.
Proof. destruct s; simpl; [done|]. by rewrite String.eqb_refl. Qed.

Lemma endswith_empty s : endswith "" s = true.
Proof. induction s as [|c s IH]; simpl; [done|]. by rewrite IH. Qed.

(** Two suffixes of one string: one is a suffix of the other. *)
Lemma endswith_comparable a b s :
  endswith a s = true → endswith b s = true →
  endswith a b = true ∨ endswith b a = true.
Proof.
  induction s as [|c s IH]; simpl.
  - intros Ha Hb. apply String.eqb_eq in Ha, Hb. subst. by left.
  - intros Ha Hb.
    destruct (String.eqb a (String c s)) eqn:Ea.
    + apply String.eqb_eq in Ea. subst a. right. simpl. exact Hb.
    + destruct (String.eqb b (String c s)) eqn:Eb.
      * apply String.eqb_eq in Eb. subst b. left. simpl. by rewrite Ea in *.
      * simpl in *. auto.
Qed.

Lemma endswith_exclusive a b s :
  endswith a s = true → endswith a b || endswith b a = false → endswith b s = false.
Proof.
  intros Ha Hab. destruct (endswith b s) eqn:Hb; [|done].
  destruct (endswith_comparable a b s Ha Hb) as [H|H]; rewrite H in Hab;
    [done | by rewrite orb_true_r in Hab].
Qed.

(** ** Lemmas on [claimed] *)

Lemma claimed_nil (m : dict) : claimed m [] m.
Proof.
  split; [constructor|]. split; [intros k Hk; by apply elem_of_nil in Hk|].
  intros k. rewrite bool_decide_eq_false_2; [done|]. apply not_elem_of_nil.
Qed.

Lemma claimed_pop (m : dict) k d : m !! k = Some d → claimed m [k] (delete k m).
Proof.
  intros Hk. split; [apply NoDup_singleton|]. split.
  - intros k' ->%list_elem_of_singleton. by rewrite Hk.
  - intros k'. case_bool_decide as Hin.
    + apply list_elem_of_singleton in Hin. subst. apply lookup_delete_eq.
    + rewrite list_elem_of_singleton in Hin. by apply lookup_delete_ne.
Qed.

Lemma claimed_app (m m1 m2 : dict) ks1 ks2 :
  claimed m ks1 m1 → claimed m1 ks2 m2 → claimed m (ks1 ++ ks2) m2.
Proof.
  intros (Hnd1 & Hin1 & Hl1) (Hnd2 & Hin2 & Hl2). split; [|split].
  - apply NoDup_app. split; [done|]. split; [|done].
    intros k Hk1 Hk2. apply Hin2 in Hk2. rewrite Hl1 in Hk2.
    rewrite bool_decide_eq_true_2 in Hk2 by done. by destruct Hk2.
  - intros k [Hk|Hk]%elem_of_app; [by apply Hin1|].
    apply Hin2 in Hk. rewrite Hl1 in Hk. by case_bool_decide; [destruct Hk|].
  - intros k. rewrite Hl2, Hl1.
    rewrite (bool_decide_ext _ _ (elem_of_app ks1 ks2 k)), bool_decide_or.
    by destruct (bool_decide (k ∈ ks1)), (bool_decide (k ∈ ks2)).
Qed.

Lemma claimed_lookup (m m' : dict) ks k :
  claimed m ks m' → k ∉ ks → m' !! k = m !! k.
Proof. intros (_ & _ & Hl) Hk. rewrite Hl. by rewrite bool_decide_eq_false_2. Qed.

Lemma claimed_lookup_in (m m' : dict) ks k :
  claimed m ks m' → k ∈ ks → m' !! k = None.
Proof. intros (_ & _ & Hl) Hk. rewrite Hl. by rewrite bool_decide_eq_true_2. Qed.

Lemma claimed_dom (m m' : dict) ks :
  claimed m ks m' →
  dom m = list_to_set ks ∪ dom m' ∧ list_to_set ks ## dom m'.
Proof.
  intros (_ & Hin & Hl). split.
  - apply set_eq. intros k. rewrite elem_of_union, elem_of_list_to_set, !elem_of_dom.
    rewrite Hl. case_bool_decide as Hk.
    + split; [auto|]. intros _. auto.
    + split; [auto|]. intros [?|?]; done.
  - intros k Hk1 Hk2. apply elem_of_list_to_set in Hk1. apply elem_of_dom in Hk2.
    rewrite Hl, bool_decide_eq_true_2 in Hk2 by done. by destruct Hk2.
Qed.

Lemma pop_Some (m : dict) k d : m !! k = Some d → pop k m = (Ok (k, d), delete k m).
Proof. intros Hk. unfold pop. by rewrite Hk. Qed.

Lemma endswith_trans a b s :
  endswith a b = true → endswith b s = true → endswith a s = true.
Proof.
  intros Hab. induction s as [|c s IH]; simpl.
  - intros Hb. apply String.eqb_eq in Hb. by subst b.
  - intros [Hb|Hb]%orb_true_iff.
    + apply String.eqb_eq in Hb. by subst b.
    + rewrite (IH Hb). apply orb_true_r.
Qed.

Lemma eqb_endswith k a : String.eqb k a = true → endswith a k = true.
Proof. intros ->%String.eqb_eq. apply endswith_refl. Qed.

(** A loop over a snapshot [l] of the items of the dictionary, whose body
    pops the key [k] exactly when [c k] holds: it claims the keys of [l]
    that satisfy [c].  [I acc ks] relates the local variable to the keys
    claimed so far. *)
Lemma for_fold_claims {B} (c : string → bool) (I : B → list string → Prop)
    (body : B → string * SmartDeviceDataPoint → M dict B) :
  (∀ acc ks k d (m : dict), I acc ks → m !! k = Some d →
     returns (body acc (k, d)) m (λ acc' m',
       if c k then I acc' (ks ++ [k]) ∧ m' = delete k m else I acc' ks ∧ m' = m)) →
  ∀ l acc ks (m : dict),
    I acc ks → NoDup l.*1 → (∀ k d, (k, d) ∈ l → m !! k = Some d) →
  returns (for_fold l acc body) m (λ acc' m',
    I acc' (ks ++ filter (λ k, c k = true) l.*1)
    ∧ claimed m (filter (λ k, c k = true) l.*1) m').
Proof.
  intros Hbody l. induction l as [|[k d] l IH]; intros acc ks m HI Hnd Hin.
  - simpl. apply returns_ret. rewrite app_nil_r. split; [done|]. apply claimed_nil.
  - simpl in *. apply NoDup_cons in Hnd as [Hk Hnd].
    apply returns_bind.
    eapply returns_weaken; [apply (Hbody acc ks k d m HI); apply Hin; left|].
    intros acc' m' Hstep. simpl in Hstep.
    rewrite filter_cons. destruct (c k) eqn:Hc.
    + destruct Hstep as [HI' ->]. rewrite decide_True by done.
      eapply returns_weaken.
      * apply (IH acc' (ks ++ [k]) (delete k m) HI' Hnd).
        intros k' d' Hin'. rewrite lookup_delete_ne.
        { apply Hin. by right. }
        intros ->. apply Hk. apply list_elem_of_fmap. by exists (k', d').
      * intros acc'' m'' [HI'' Hcl]. simpl in *. split.
        { by rewrite <- app_assoc in HI''. }
        apply (claimed_app m (delete k m) m'' [k]); [|done].
        apply (claimed_pop m k d). apply Hin. left.
    + destruct Hstep as [HI' ->]. rewrite decide_False by done.
      apply (IH acc' ks m HI' Hnd). intros k' d' Hin'. apply Hin. by right.
Qed.

(** ** The passes, one by one *)

(** A [pop] of a key that the pass has not claimed yet and that the
    dictionary had at the start. *)
Lemma returns_pop_claimed (m0 m : dict) ks k d Q :
  claimed m0 ks m → k ∉ ks → m0 !! k = Some d →
  (claimed m0 (ks ++ [k]) (delete k m) → Q (k, d) (delete k m)) →
  returns (pop k) m Q.
Proof.
  intros Hc Hk Hd HQ. assert (m !! k = Some d) as Hm.
  { by rewrite (claimed_lookup m0 m ks k Hc Hk). }
  apply (returns_pop m k d Q Hm). apply HQ.
  apply (claimed_app m0 m (delete k m) ks [k] Hc). exact (claimed_pop m k d Hm).
Qed.

Lemma claimed_contains (m0 m : dict) ks k :
  claimed m0 ks m → k ∉ ks → contains k m = bool_decide (is_Some (m0 !! k)).
Proof. intros Hc Hk. unfold contains. by rewrite (claimed_lookup m0 m ks k Hc Hk). Qed.

Lemma is_Some_lookup k (m : dict) :
  bool_decide (is_Some (m !! k)) = true → ∃ d, m !! k = Some d.
Proof. intros [d Hd]%bool_decide_eq_true. by exists d. Qed.

Ltac pop_claimed Hc :=
  eapply returns_pop_claimed;
  [ exact Hc | compute_done | eassumption | clear Hc; intros Hc ].

Ltac mstep :=
  lazymatch goal with
  | |- returns (bind _ _) _ _ => apply returns_bind
  | |- returns get _ _ => apply returns_get
  | |- returns (ret _) _ _ => apply returns_ret
  end.

(** Case analysis on the test of an [if], the test being the presence of
    keys in the current dictionary. *)
Ltac split_if Hc :=
  lazymatch goal with
  | |- returns (if ?b then _ else _) _ _ =>
      let H := fresh "Hif" in
      destruct b eqn:H;
      [ simpl in H; rewrite ?(claimed_contains _ _ _ _ Hc) in H by compute_done;
        repeat (apply andb_true_iff in H as [?%is_Some_lookup H]);
        try apply is_Some_lookup in H;
        repeat match goal with H' : ∃ _, _ |- _ => destruct H' end
      | ]
  end.

Ltac exact_pass Hc :=
  repeat first [ mstep | split_if Hc | pop_claimed Hc ];
  simpl; (split; [exact Hc | compute_done]).

Lemma get_water_heaters_returns (m : dict) :
  returns get_water_heaters m (λ l m',
    claimed m (concat (map WaterHeaterData.keys l)) m'
    ∧ Forall (λ k, rule_keys WaterHeaters k = true) (concat (map WaterHeaterData.keys l))).
Proof. pose proof (claimed_nil m) as Hc. unfold get_water_heaters. exact_pass Hc. Qed.

Lemma get_climate_data_returns (m : dict) :
  returns get_climate_data m (λ l m',
    claimed m (concat (map ClimateData.keys l)) m'
    ∧ Forall (λ k, rule_keys Climate k = true) (concat (map ClimateData.keys l))).
Proof. pose proof (claimed_nil m) as Hc. unfold get_climate_data. exact_pass Hc. Qed.

Lemma get_select_data_returns (m : dict) :
  returns get_select_data m (λ l m',
    claimed m (map (λ x, fst (SelectData.data_point x)) l) m'
    ∧ Forall (λ k, rule_keys Select k = true) (map (λ x, fst (SelectData.data_point x)) l)).
Proof. pose proof (claimed_nil m) as Hc. unfold get_select_data. exact_pass Hc. Qed.

Lemma get_switches_data_returns (m : dict) :
  returns get_switches_data m (λ l m',
    claimed m (map (λ x, fst (SwitchData.data_point x)) l) m'
    ∧ Forall (λ k, rule_keys Switches k = true) (map (λ x, fst (SwitchData.data_point x)) l)).
Proof. pose proof (claimed_nil m) as Hc. unfold get_switches_data. exact_pass Hc. Qed.

Lemma get_numbers_data_returns (m : dict) :
  returns get_numbers_data m (λ l m',
    claimed m (map (λ x, fst (NumberData.data_point x)) l) m'
    ∧ Forall (λ k, rule_keys Numbers k = true) (map (λ x, fst (NumberData.data_point x)) l)).
Proof. pose proof (claimed_nil m) as Hc. unfold get_numbers_data. exact_pass Hc. Qed.

Lemma endswith_not_eqb a b k :
  endswith a k = true → endswith a b = false → String.eqb k b = false.
Proof.
  intros Hk Hb. apply String.eqb_neq. intros ->. by rewrite Hk in Hb.
Qed.

Lemma grown_snoc {X} (key_of : X → string) acc0 acc ks x :
  grown key_of acc0 acc ks → grown key_of acc0 (acc ++ [x]) (ks ++ [key_of x]).
Proof.
  intros (new & -> & <-). exists (new ++ [x]). by rewrite app_assoc, map_app.
Qed.

(** From one suffix test that holds, the tests of the sensor pass that
    fail. *)
Ltac other_suffixes a H :=
  try rewrite (endswith_exclusive a "_TEMP" _ H eq_refl);
  try rewrite (endswith_exclusive a "_RATE" _ H eq_refl);
  try rewrite (endswith_exclusive a "_PRESSURE" _ H eq_refl);
  try rewrite (endswith_exclusive a "WIFI_SIGNAL" _ H eq_refl);
  try rewrite (endswith_exclusive a "WIFI__SIGNAL" _ H eq_refl);
  try rewrite (endswith_exclusive a "_FAULT_CODE" _ H eq_refl);
  try rewrite (endswith_not_eqb a "PARAM_ID_BOILER_OUTDOOR_TEMP" _ H eq_refl);
  try rewrite (endswith_not_eqb a "PARAM_ID_BOILER_OT_SLAVE_STATUS" _ H eq_refl);
  try rewrite (endswith_not_eqb a "PARAM_ID_SYS_SOFT_VER" _ H eq_refl).

Ltac claim_one Hd :=
  simpl; repeat first [ mstep | eapply returns_pop; [exact Hd|] ];
  simpl; (split; [by apply (grown_snoc (λ x, fst (SensorData.data_point x)))|done]).

Lemma dict_items_NoDup (m : dict) : NoDup (dict_items m).*1.
Proof. rewrite (dict_items_perm m). apply NoDup_fst_map_to_list. Qed.

Lemma dict_items_lookup (m : dict) k d : (k, d) ∈ dict_items m ↔ m !! k = Some d.
Proof. rewrite (dict_items_perm m). apply elem_of_map_to_list. Qed.

Lemma dict_items_keys (m : dict) k : k ∈ (dict_items m).*1 ↔ is_Some (m !! k).
Proof.
  rewrite list_elem_of_fmap. split.
  - intros ([k' d] & -> & Hin). apply dict_items_lookup in Hin. by exists d.
  - intros [d Hd]. exists (k, d). split; [done|]. by apply dict_items_lookup.
Qed.

(** The sensor pass: the exact rule for the heating target temperature,
    then one descriptor for every remaining key that passes [sensor_key],
    and no others. *)
Lemma get_sensors_data_shape (m : dict) :
  returns get_sensors_data m (λ l m',
    ∃ rest,
      l = match m !! "PARAM_ID_BOILER_CH_TRG_TEMP" with
          | Some d => [heating_target_temperature d]
          | None => []
          end ++ rest
      ∧ map (λ x, fst (SensorData.data_point x)) rest
        = filter (λ k, sensor_key k = true)
            (dict_items (delete "PARAM_ID_BOILER_CH_TRG_TEMP" m)).*1
      ∧ claimed (delete "PARAM_ID_BOILER_CH_TRG_TEMP" m)
          (map (λ x, fst (SensorData.data_point x)) rest) m').
Proof.
  unfold get_sensors_data. do 2 mstep. apply returns_bind.
  apply (returns_weaken _ _ (λ l1 m1,
    l1 = match m !! "PARAM_ID_BOILER_CH_TRG_TEMP" with
         | Some d => [heating_target_temperature d]
         | None => []
         end ∧ m1 = delete "PARAM_ID_BOILER_CH_TRG_TEMP" m)).
  { destruct (contains _ m) eqn:Hc.
    - apply contains_true in Hc as [d Hd]. rewrite Hd.
      mstep. eapply returns_pop; [exact Hd|]. by mstep.
    - apply contains_false in Hc. rewrite Hc. mstep. split; [done|].
      symmetry. by apply delete_id. }
  intros l1 m1 [Hl1 ->]. do 2 mstep.
  eapply returns_weaken.
  - apply (for_fold_claims sensor_key
             (grown (λ x, fst (SensorData.data_point x)) l1)).
    + intros acc ks k d m1 Hg Hd. unfold sensor_key, endswith_any. simpl existsb.
      destruct (String.eqb k "PARAM_ID_BOILER_OUTDOOR_TEMP") eqn:E1.
      { pose proof (eqb_endswith _ _ E1) as H. other_suffixes "PARAM_ID_BOILER_OUTDOOR_TEMP" H.
        claim_one Hd. }
      destruct (endswith "_TEMP" k) eqn:E2.
      { other_suffixes "_TEMP" E2. claim_one Hd. }
      destruct (endswith "_RATE" k) eqn:E3.
      { other_suffixes "_RATE" E3. claim_one Hd. }
      destruct (endswith "_PRESSURE" k) eqn:E4.
      { other_suffixes "_PRESSURE" E4. claim_one Hd. }
      destruct (endswith "WIFI_SIGNAL" k) eqn:E5.
      { other_suffixes "WIFI_SIGNAL" E5. claim_one Hd. }
      destruct (endswith "WIFI__SIGNAL" k) eqn:E6.
      { other_suffixes "WIFI__SIGNAL" E6. claim_one Hd. }
      destruct (endswith "_FAULT_CODE" k) eqn:E7.
      { other_suffixes "_FAULT_CODE" E7. claim_one Hd. }
      destruct (String.eqb k "PARAM_ID_BOILER_OT_SLAVE_STATUS") eqn:E8.
      { pose proof (eqb_endswith _ _ E8) as H.
        other_suffixes "PARAM_ID_BOILER_OT_SLAVE_STATUS" H. claim_one Hd. }
      destruct (String.eqb k "PARAM_ID_SYS_SOFT_VER") eqn:E9.
      { claim_one Hd. }
      simpl. repeat mstep. done.
    + exists []. by rewrite app_nil_r.
    + apply dict_items_NoDup.
    + intros k d. apply dict_items_lookup.
  - intros l m' [(rest & -> & Hrest) Hcl]. simpl in *. exists rest.
    rewrite <- Hl1, Hrest. done.
Qed.

(** The binary-sensor pass: one descriptor for every key that passes
    [binary_sensor_key], and no others. *)
Lemma get_binary_sensors_data_shape (m : dict) :
  returns get_binary_sensors_data m (λ l m',
    map (λ x, fst (SensorData.data_point x)) l
      = filter (λ k, binary_sensor_key k = true) (dict_items m).*1
    ∧ claimed m (map (λ x, fst (SensorData.data_point x)) l) m').
Proof.
  unfold get_binary_sensors_data. do 2 mstep.
  eapply returns_weaken.
  - apply (for_fold_claims binary_sensor_key
             (grown (λ x, fst (SensorData.data_point x)) [])).
    + intros acc ks k d m1 Hg Hd. unfold binary_sensor_key.
      destruct (String.eqb k "PARAM_ID_BOILER_IS_ROOM_SENSOR_ENABL"); [claim_one Hd|].
      destruct (String.eqb k "PARAM_ID_BOILER_IS_OT_CONNECTED"); [claim_one Hd|].
      destruct (String.eqb k "PARAM_ID_BOILER_OTC_ENABLE"); [claim_one Hd|].
      destruct (endswith_any _ k); [claim_one Hd|].
      simpl. repeat mstep. done.
    + by exists [].
    + apply dict_items_NoDup.
    + intros k d. apply dict_items_lookup.
  - intros l m' [(rest & -> & Hrest) Hcl]. simpl in *.
    split; [done | by rewrite Hrest].
Qed.

Lemma Forall_filter_true (c : string → bool) l :
  Forall (λ k, c k = true) (filter (λ k, c k = true) l).
Proof. apply Forall_forall. intros k Hk. by apply list_elem_of_filter in Hk as [? _]. Qed.

Lemma get_sensors_data_returns (m : dict) :
  returns get_sensors_data m (λ l m',
    claimed m (map (λ x, fst (SensorData.data_point x)) l) m'
    ∧ Forall (λ k, rule_keys Sensors k = true) (map (λ x, fst (SensorData.data_point x)) l)).
Proof.
  eapply returns_weaken; [apply get_sensors_data_shape|].
  intros l m' (rest & -> & Hrest & Hcl). rewrite map_app.
  assert (Forall (λ k, rule_keys Sensors k = true)
            (map (λ x, fst (SensorData.data_point x)) rest)) as Hsup.
  { rewrite Hrest. eapply Forall_impl; [apply Forall_filter_true|].
    intros k Hk. simpl. by rewrite Hk, orb_true_r. }
  destruct (m !! "PARAM_ID_BOILER_CH_TRG_TEMP") as [d|] eqn:Hd; simpl.
  - split.
    + apply (claimed_app m (delete "PARAM_ID_BOILER_CH_TRG_TEMP" m) m'
               ["PARAM_ID_BOILER_CH_TRG_TEMP"]); [|done].
      by apply (claimed_pop m _ d).
    + apply Forall_cons. split; [compute_done|done].
  - by rewrite delete_id in Hcl.
Qed.

Lemma get_binary_sensors_data_returns (m : dict) :
  returns get_binary_sensors_data m (λ l m',
    claimed m (map (λ x, fst (SensorData.data_point x)) l) m'
    ∧ Forall (λ k, rule_keys BinarySensors k = true)
        (map (λ x, fst (SensorData.data_point x)) l)).
Proof.
  eapply returns_weaken; [apply get_binary_sensors_data_shape|].
  intros l m' [Hl Hcl]. split; [done|].
  rewrite Hl. apply Forall_filter_true.
Qed.

(** ** [remove_unsupported_data] *)

Lemma for_fold_map {S A A' B} (f : A → A') (l : list A) (acc : B)
    (body : B → A' → M S B) (s : S) :
  for_fold (map f l) acc body s = for_fold l acc (λ a x, body a (f x)) s.
Proof.
  revert acc s. induction l as [|x l IH]; intros acc s; simpl; [done|].
  unfold bind. destruct (body acc (f x) s) as [[a|e] s']; [apply IH|done].
Qed.

Lemma remove_unsupported_data_returns (m : dict) :
  (∀ k, k ∈ unsupported_keys → is_Some (m !! k)) →
  returns remove_unsupported_data m (λ _ m',
    ∀ k, m' !! k =
         if bool_decide (k ∈ unsupported_keys) || startswith_any unsupported_prefixes k
         then None else m !! k).
Proof.
  intros Hin. pose proof (claimed_nil m) as Hc.
  destruct (Hin "PARAM_ID_SYS_DEVICE_MODULE") as [d1 Hd1]; [compute_done|].
  destruct (Hin "PARAM_ID_TH_DELETE_TH_ADDR") as [d2 Hd2]; [compute_done|].
  unfold remove_unsupported_data, for_each at 1. simpl for_fold.
  do 2 (repeat mstep; pop_claimed Hc). repeat mstep. simpl in Hc.
  set (m1 := delete _ (delete _ m)) in *.
  assert (returns
            (for_fold (dict_items m1) tt
               (λ _ x, if startswith_any unsupported_prefixes (fst x)
                       then pop (fst x) ;; ret tt else ret tt)) m1
            (λ _ m', True ∧
               claimed m1 (filter (λ k, startswith_any unsupported_prefixes k = true)
                             (dict_items m1).*1) m')) as Hloop.
  { apply (for_fold_claims (startswith_any unsupported_prefixes) (λ _ _, True))
      with (ks := []);
      [|done|apply dict_items_NoDup|intros k d; apply dict_items_lookup].
    intros [] ks k d m2 _ Hd. cbn [fst].
    destruct (startswith_any unsupported_prefixes k).
    - mstep. eapply returns_pop; [exact Hd|]. by mstep.
    - by mstep. }
  destruct Hloop as ([] & m' & Heq & _ & Hcl).
  exists tt, m'. split.
  { unfold for_each. by rewrite for_fold_map. }
  intros k. destruct Hcl as (_ & _ & Hl'). rewrite Hl'. clear Hl'.
  destruct Hc as (_ & _ & Hl). rewrite Hl. clear Hl.
  destruct (startswith_any unsupported_prefixes k) eqn:Hp.
  - rewrite orb_true_r. case_bool_decide as Hk; [done|].
    case_bool_decide as Hk'; [done|]. simpl.
    destruct (m !! k) as [d|] eqn:Hmk; [|done]. exfalso. apply Hk.
    apply list_elem_of_filter. split; [done|]. apply dict_items_keys.
    exists d. unfold m1. rewrite !lookup_delete_ne; [done| |];
      intros <-; apply Hk'; compute_done.
  - rewrite orb_false_r. rewrite (bool_decide_eq_false_2 (k ∈ filter _ _)); [done|].
    intros [Hf _]%list_elem_of_filter. by rewrite Hp in Hf.
Qed.

Lemma remove_unsupported_data_raises (m : dict) k :
  k ∈ unsupported_keys → m !! k = None →
  ∃ k' m', k' ∈ unsupported_keys ∧ m !! k' = None
           ∧ remove_unsupported_data m = (Raise (KeyError k'), m').
Proof.
  intros Hk Hnone. unfold remove_unsupported_data, for_each at 1. simpl for_fold.
  destruct (m !! "PARAM_ID_SYS_DEVICE_MODULE") as [d1|] eqn:Hd1.
  - exists "PARAM_ID_TH_DELETE_TH_ADDR", (delete "PARAM_ID_SYS_DEVICE_MODULE" m).
    assert (m !! "PARAM_ID_TH_DELETE_TH_ADDR" = None) as Hd2.
    { unfold unsupported_keys in Hk.
      apply elem_of_cons in Hk as [->|Hk]; [congruence|].
      apply list_elem_of_singleton in Hk. by subst k. }
    split; [compute_done|]. split; [done|].
    unfold bind, ret. rewrite (pop_Some m _ d1 Hd1).
    rewrite pop_None; [done|]. by rewrite lookup_delete_ne.
  - exists "PARAM_ID_SYS_DEVICE_MODULE", m.
    split; [compute_done|]. split; [done|].
    unfold bind. by rewrite (pop_None m _ Hd1).
Qed.

(** ** Passes on the device *)

Lemma returns_on_unknown_points {A} (f : M dict A) (self : SmartDevice) Q R :
  returns f (unknown_points self) Q →
  (∀ a m', Q a m' → R a (set_unknown_points m' self)) →
  returns (on_unknown_points f) self R.
Proof.
  intros (a & m' & Hf & HQ) HR. exists a, (set_unknown_points m' self).
  split; [|by apply HR]. unfold on_unknown_points. by rewrite Hf.
Qed.

Lemma returns_modify {S} (f : S → S) (s : S) Q : Q tt (f s) → returns (modify f) s Q.
Proof. intros HQ. by exists tt, (f s). Qed.

Ltac group_rule lem :=
  apply returns_bind;
  eapply returns_on_unknown_points; [apply lem|];
  intros l m' [Hcl Hsup]; apply returns_modify;
  split; [|split; [|split]];
  [ exact Hcl | exact Hsup | done | by intros [] ].

Lemma run_pass_group_rule p (self : SmartDevice) :
  is_group_rule p = true →
  returns (run_pass p) self (λ _ self', group_rule_effect p self self').
Proof.
  intros Hp. destruct self. destruct p; try discriminate Hp; unfold run_pass.
  - group_rule get_water_heaters_returns.
  - group_rule get_climate_data_returns.
  - group_rule get_select_data_returns.
  - group_rule get_switches_data_returns.
  - group_rule get_numbers_data_returns.
  - group_rule get_sensors_data_returns.
  - group_rule get_binary_sensors_data_returns.
Qed.

Lemma for_each_cons {S A} (x : A) (l : list A) (body : A → M S unit) (s : S) :
  for_each (x :: l) body s = (body x ;; for_each l body) s.
Proof.
  unfold for_each. simpl. unfold bind. by destruct (body x s) as [[[]|e] s'].
Qed.

Lemma for_each_app {S A} (l1 l2 : list A) (body : A → M S unit) (s : S) :
  for_each (l1 ++ l2) body s = (for_each l1 body ;; for_each l2 body) s.
Proof.
  revert s. induction l1 as [|x l1 IH]; intros s; [done|].
  rewrite <- app_comm_cons, for_each_cons. unfold bind.
  rewrite for_each_cons. unfold bind.
  destruct (body x s) as [[[]|e] s']; [|done]. by rewrite IH.
Qed.

(** Capability-group rules run one after the other: together they take
    the keys of their descriptors out of [unknown_points]. *)
Lemma run_group_rules l (self : SmartDevice) :
  Forall (λ p, is_group_rule p = true) l → NoDup l →
  returns (for_each l run_pass) self (λ _ self',
    claimed (unknown_points self) (concat (map (λ p, pass_keys p self') l))
      (unknown_points self')
    ∧ Forall (λ k, existsb (λ p, rule_keys p k) l = true)
        (concat (map (λ p, pass_keys p self') l))
    ∧ data_points self' = data_points self
    ∧ ∀ q, q ∉ l → pass_keys q self' = pass_keys q self).
Proof.
  revert self. induction l as [|p l IH]; intros self Hg Hnd.
  - apply returns_ret. simpl. split; [apply claimed_nil|]. split; [constructor|done].
  - apply Forall_cons in Hg as [Hp Hg]. apply NoDup_cons in Hnd as [Hpl Hnd].
    destruct (run_pass_group_rule p self Hp) as ([] & self1 & Hrun & Hc1 & Hs1 & Hd1 & Hf1).
    destruct (IH self1 Hg Hnd) as ([] & self2 & Hrest & Hc2 & Hs2 & Hd2 & Hf2).
    exists tt, self2. split.
    { rewrite for_each_cons. unfold bind. by rewrite Hrun. }
    simpl. rewrite (Hf2 p Hpl). split; [|split; [|split]].
    + by apply (claimed_app _ (unknown_points self1)).
    + apply Forall_app. split.
      * eapply Forall_impl; [exact Hs1|]. intros k Hk. simpl. by rewrite Hk.
      * eapply Forall_impl; [exact Hs2|]. intros k Hk. simpl in *.
        by rewrite Hk, orb_true_r.
    + congruence.
    + intros q [Hqp Hql]%not_elem_of_cons. rewrite (Hf2 q Hql). by apply Hf1.
Qed.

Lemma group_key_supported k : group_key k = true → k ∉ unsupported_keys.
Proof.
  intros Hk Hin. unfold unsupported_keys in Hin.
  repeat (apply elem_of_cons in Hin as [->|Hin]; [by vm_compute in Hk|]).
  by apply elem_of_nil in Hin.
Qed.

Lemma group_keys_passes (self : SmartDevice) :
  group_keys self = concat (map (λ p, pass_keys p self) group_rules).
Proof. unfold group_keys. simpl. by rewrite app_nil_r. Qed.

(** The seven rules of [parse_data_points], from the copy on. *)
Lemma run_until_remove_unsupported (self : SmartDevice) :
  returns (run_until RemoveUnsupported) self (λ _ self',
    claimed (data_points self) (group_keys self') (unknown_points self')
    ∧ Forall (λ k, group_key k = true) (group_keys self')
    ∧ data_points self' = data_points self).
Proof.
  unfold run_until. apply returns_bind, returns_modify.
  eapply returns_weaken.
  - apply (run_group_rules group_rules); [by repeat constructor|].
    compute_done.
  - intros [] self' (Hc & Hs & Hd & _). rewrite group_keys_passes.
    destruct self. simpl in *. done.
Qed.

(** ** [parse_data_points] as a whole *)

Lemma parse_data_points_split (self self7 : SmartDevice) :
  run_until RemoveUnsupported self = (Ok tt, self7) →
  parse_data_points self = on_unknown_points remove_unsupported_data self7.
Proof.
  intros Hrun.
  change (for_each group_rules run_pass (set_unknown_points (data_points self) self)
          = (Ok tt, self7)) in Hrun.
  change (for_each (group_rules ++ [RemoveUnsupported]) run_pass
            (set_unknown_points (data_points self) self)
          = on_unknown_points remove_unsupported_data self7).
  rewrite for_each_app. unfold bind. rewrite Hrun.
  rewrite for_each_cons. unfold bind. simpl run_pass.
  by destruct (on_unknown_points remove_unsupported_data self7) as [[[]|e] s'].
Qed.

Lemma unknown_points_before_removal (self self7 : SmartDevice) k :
  run_until RemoveUnsupported self = (Ok tt, self7) → k ∈ unsupported_keys →
  unknown_points self7 !! k = data_points self !! k.
Proof.
  intros Hrun Hk.
  destruct (run_until_remove_unsupported self) as ([] & s & Hrun' & Hc & Hg & _).
  rewrite Hrun in Hrun'. injection Hrun' as <-.
  apply (claimed_lookup _ _ _ _ Hc). intros Hin.
  rewrite Forall_forall in Hg. by apply (group_key_supported k (Hg k Hin)).
Qed.

(** What a successful classification has done. *)
Lemma parse_data_points_inv (self self' : SmartDevice) :
  parse_data_points self = (Ok tt, self') →
  ∃ self7, run_until RemoveUnsupported self = (Ok tt, self7)
    ∧ claimed (data_points self) (group_keys self7) (unknown_points self7)
    ∧ Forall (λ k, group_key k = true) (group_keys self7)
    ∧ group_keys self' = group_keys self7
    ∧ data_points self' = data_points self
    ∧ (∀ k, k ∈ unsupported_keys → is_Some (data_points self !! k))
    ∧ ∀ k, unknown_points self' !! k =
           if bool_decide (k ∈ unsupported_keys) || startswith_any unsupported_prefixes k
           then None else unknown_points self7 !! k.
Proof.
  intros Hparse.
  destruct (run_until_remove_unsupported self) as ([] & self7 & Hrun & Hc & Hg & Hd).
  rewrite (parse_data_points_split self self7 Hrun) in Hparse.
  exists self7. split; [done|]. split; [done|]. split; [done|].
  assert (∀ k, k ∈ unsupported_keys → is_Some (unknown_points self7 !! k)) as Hin.
  { intros k Hk. destruct (unknown_points self7 !! k) eqn:Hnone; [done|]. exfalso.
    destruct (remove_unsupported_data_raises _ k Hk Hnone) as (k' & m' & _ & _ & Hraise).
    unfold on_unknown_points in Hparse. by rewrite Hraise in Hparse. }
  destruct (remove_unsupported_data_returns _ Hin) as ([] & m' & Hrm & Hl).
  unfold on_unknown_points in Hparse. rewrite Hrm in Hparse.
  injection Hparse as <-. destruct self7. simpl in *.
  split; [done|]. split; [done|]. split; [|done].
  intros k Hk. rewrite <- (unknown_points_before_removal self _ k Hrun Hk). by apply Hin.
Qed.

(** Classification returns as soon as the input has both keys that
    [remove_unsupported_data] pops by name. *)
Lemma parse_data_points_returns (self : SmartDevice) :
  (∀ k, k ∈ unsupported_keys → is_Some (data_points self !! k)) →
  ∃ self', parse_data_points self = (Ok tt, self').
Proof.
  intros Hin.
  destruct (run_until_remove_unsupported self) as ([] & self7 & Hrun & _).
  rewrite (parse_data_points_split self self7 Hrun).
  destruct (remove_unsupported_data_returns (unknown_points self7)) as ([] & m' & Hrm & _).
  { intros k Hk. rewrite (unknown_points_before_removal self self7 k Hrun Hk). by apply Hin. }
  exists (set_unknown_points m' self7). unfold on_unknown_points. by rewrite Hrm.
Qed.

(** ** Classification: the claims *)

Lemma unsupported_keys_no_prefix k :
  k ∈ unsupported_keys → startswith_any unsupported_prefixes k = false.
Proof.
  intros Hin. unfold unsupported_keys in Hin.
  repeat (apply elem_of_cons in Hin as [->|Hin]; [by vm_compute|]).
  by apply elem_of_nil in Hin.
Qed.

(** Where each key of the input ends up. *)
Lemma classified_lookup (self self' : SmartDevice) :
  parse_data_points self = (Ok tt, self') →
  NoDup (group_keys self')
  ∧ (∀ k, k ∈ group_keys self' → is_Some (data_points self !! k) ∧ group_key k = true)
  ∧ (∀ k, k ∈ unsupported_keys → is_Some (data_points self !! k))
  ∧ ∀ k, unknown_points self' !! k =
         if bool_decide (k ∈ group_keys self') || bool_decide (k ∈ unsupported_keys)
            || startswith_any unsupported_prefixes k
         then None else data_points self !! k.
Proof.
  intros (self7 & _ & (Hnd & Hin & Hl7) & Hg & Hgk & _ & Hun & Hl)%parse_data_points_inv.
  rewrite Hgk. split; [done|]. split; [|split; [done|]].
  - intros k Hk. split; [by apply Hin|]. rewrite Forall_forall in Hg. by apply Hg.
  - intros k. rewrite Hl, Hl7.
    destruct (bool_decide (k ∈ group_keys self7)); simpl; [|done].
    by destruct (_ || _).
Qed.

(** C2, amended: the keys of the input are those claimed by the seven
    capability groups, the residual keys, the two keys pruned by name and
    the keys pruned for their prefix; the four parts are disjoint and no
    key is claimed twice. *)
Theorem classification_partition (self self' : SmartDevice) :
  parse_data_points self = (Ok tt, self') →
  NoDup (group_keys self')
  ∧ dom (data_points self)
    = list_to_set (group_keys self') ∪ dom (unknown_points self')
        ∪ list_to_set unsupported_keys ∪ prefix_pruned self self'
  ∧ list_to_set (group_keys self') ## dom (unknown_points self')
  ∧ list_to_set (group_keys self') ## (list_to_set unsupported_keys : gset string)
  ∧ list_to_set (group_keys self') ## prefix_pruned self self'
  ∧ dom (unknown_points self') ## (list_to_set unsupported_keys : gset string)
  ∧ dom (unknown_points self') ## prefix_pruned self self'
  ∧ (list_to_set unsupported_keys : gset string) ## prefix_pruned self self'.
Proof.
  intros (Hnd & Hgk & Hun & Hl)%classified_lookup. split; [done|].
  assert (∀ k, k ∈ group_keys self' → k ∉ unsupported_keys) as Hsup.
  { intros k Hk. apply Hgk in Hk as [_ Hk]. by apply group_key_supported. }
  assert (∀ k, k ∈ dom (unknown_points self') ↔
               is_Some (data_points self !! k) ∧ (k ∉ group_keys self')
               ∧ (k ∉ unsupported_keys)
               ∧ startswith_any unsupported_prefixes k = false) as Hres.
  { intros k. rewrite elem_of_dom, Hl.
    do 2 case_bool_decide; destruct (startswith_any unsupported_prefixes k); simpl;
      (split; [intros Hs; try (by destruct Hs); tauto | intros (? & ? & ? & ?); done]). }
  assert (∀ k, k ∈ prefix_pruned self self' ↔
               is_Some (data_points self !! k) ∧ (k ∉ group_keys self')
               ∧ startswith_any unsupported_prefixes k = true) as Hpre.
  { intros k. unfold prefix_pruned. rewrite elem_of_filter, elem_of_dom. tauto. }
  split; [|repeat split].
  - apply set_eq. intros k.
    rewrite !elem_of_union, !elem_of_list_to_set, Hres, Hpre, elem_of_dom.
    split.
    + intros Hk. destruct (decide (k ∈ group_keys self')); [tauto|].
      destruct (decide (k ∈ unsupported_keys)); [tauto|].
      destruct (startswith_any unsupported_prefixes k); tauto.
    + intros [[[Hk|Hk]|Hk]|Hk]; [by apply Hgk|tauto|by apply Hun|tauto].
  - intros k Hk1 Hk2. apply elem_of_list_to_set in Hk1. apply Hres in Hk2. tauto.
  - intros k Hk1 Hk2. apply elem_of_list_to_set in Hk1, Hk2. by apply (Hsup k).
  - intros k Hk1 Hk2. apply elem_of_list_to_set in Hk1. apply Hpre in Hk2. tauto.
  - intros k Hk1 Hk2. apply Hres in Hk1. apply elem_of_list_to_set in Hk2. tauto.
  - intros k Hk1 Hk2. apply Hres in Hk1 as (_ & _ & _ & Hk1).
    apply Hpre in Hk2 as (_ & _ & Hk2). congruence.
  - intros k Hk1 Hk2. apply elem_of_list_to_set, unsupported_keys_no_prefix in Hk1.
    apply Hpre in Hk2 as (_ & _ & Hk2). congruence.
Qed.

(** Control reaches every pass, and finds the two keys as the input has
    them. *)
Lemma run_until_returns p (self : SmartDevice) k :
  k ∈ unsupported_keys →
  ∃ self_p, run_until p self = (Ok tt, self_p)
            ∧ unknown_points self_p !! k = data_points self !! k.
Proof.
  intros Hk. unfold run_until.
  destruct (run_group_rules (before p passes) (set_unknown_points (data_points self) self))
    as ([] & self_p & Hrun & Hc & Hg & _).
  { destruct p; compute_done. }
  { destruct p; compute_done. }
  exists self_p. split.
  { unfold bind, copy_data_points, modify. exact Hrun. }
  rewrite (claimed_lookup _ _ _ k Hc); [by destruct self|].
  intros Hin. rewrite Forall_forall in Hg. specialize (Hg k Hin).
  unfold unsupported_keys in Hk.
  repeat (apply elem_of_cons in Hk as [->|Hk]; [by destruct p; vm_compute in Hg|]).
  by apply elem_of_nil in Hk.
Qed.

(** C3, amended: no capability-group rule touches the two keys, so every
    rule, and then [remove_unsupported_data], finds each of them in the
    working map exactly if the input has it; [remove_unsupported_data],
    which runs after the seven rules, pops both, so that after a
    classification that returns neither is in the working map or in a
    group. *)
Theorem unsupported_keys_pruned_last (self : SmartDevice) k :
  k ∈ unsupported_keys →
  (∀ p, ∃ self_p, run_until p self = (Ok tt, self_p)
                  ∧ unknown_points self_p !! k = data_points self !! k)
  ∧ (∀ self', parse_data_points self = (Ok tt, self') →
       is_Some (data_points self !! k)
       ∧ unknown_points self' !! k = None
       ∧ k ∉ group_keys self').
Proof.
  intros Hk. split; [intros p; by apply run_until_returns|].
  intros self' (_ & Hgk & Hun & Hl)%classified_lookup.
  split; [by apply Hun|]. split.
  - rewrite Hl, (bool_decide_eq_true_2 (k ∈ unsupported_keys)) by done.
    by rewrite orb_true_r.
  - intros Hin. apply Hgk in Hin as [_ Hin]. by apply (group_key_supported k).
Qed.

(** C7: when the input lacks one of the two keys that
    [remove_unsupported_data] pops by name, classification raises
    [KeyError] for an absent one of the two. *)
Theorem parse_data_points_missing_key (self : SmartDevice) k :
  k ∈ unsupported_keys → data_points self !! k = None →
  ∃ k' self', k' ∈ unsupported_keys ∧ data_points self !! k' = None
              ∧ parse_data_points self = (Raise (KeyError k'), self').
Proof.
  intros Hk Hnone.
  destruct (run_until_remove_unsupported self) as ([] & self7 & Hrun & _).
  rewrite (parse_data_points_split self self7 Hrun).
  destruct (remove_unsupported_data_raises (unknown_points self7) k Hk)
    as (k' & m' & Hk' & Hnone' & Hraise).
  { by rewrite (unknown_points_before_removal self self7 k Hrun Hk). }
  exists k', (set_unknown_points m' self7). split; [done|]. split.
  - by rewrite <- (unknown_points_before_removal self self7 k' Hrun Hk').
  - unfold on_unknown_points. by rewrite Hraise.
Qed.

(** C10: a key that is still in the working map after the seven rules and
    starts with one of [unsupported_prefixes] is not one of the two keys
    pruned by name, and classification drops it: it is in no group, not
    among the residual points, and no residual sensor is made for it. *)
Theorem unsupported_prefixes_dropped (self self7 self' : SmartDevice) k :
  run_until RemoveUnsupported self = (Ok tt, self7) →
  parse_data_points self = (Ok tt, self') →
  is_Some (unknown_points self7 !! k) →
  startswith_any unsupported_prefixes k = true →
  (k ∉ unsupported_keys)
  ∧ (k ∉ group_keys self')
  ∧ unknown_points self' !! k = None
  ∧ ∀ x, x ∈ residual_sensors self' → fst (SensorData.data_point x) ≠ k.
Proof.
  intros Hrun (s7 & Hrun' & Hc & _ & Hgk & _ & _ & Hl)%parse_data_points_inv Hin Hp.
  rewrite Hrun in Hrun'. injection Hrun' as <-.
  assert (unknown_points self' !! k = None) as Hnone.
  { by rewrite Hl, Hp, orb_true_r. }
  split; [|split; [|split; [done|]]].
  - intros Hk. apply unsupported_keys_no_prefix in Hk. congruence.
  - rewrite Hgk. intros Hk. rewrite (claimed_lookup_in _ _ _ k Hc Hk) in Hin.
    by destruct Hin.
  - intros x Hx <-. unfold residual_sensors in Hx.
    apply list_elem_of_fmap in Hx as ([k' point] & -> & Hx).
    apply dict_items_lookup in Hx. simpl in Hnone. congruence.
Qed.

(** ** Water heaters and the heating target temperature *)

Lemma forallb_contains (m : dict) ks :
  (∀ k, k ∈ ks → is_Some (m !! k)) → forallb (λ k, contains k m) ks = true.
Proof.
  intros Hin. apply forallb_forall. intros k Hk. apply contains_true, Hin.
  by apply list_elem_of_In.
Qed.

Lemma get_water_heaters_heating (m : dict) :
  (∀ k, k ∈ ch_keys → is_Some (m !! k)) →
  returns get_water_heaters m (λ l m',
    ∃ w rest, l = w :: rest ∧ WaterHeaterData.name w = "Heating Water Heater"
      ∧ (rest = [] ∨ ∃ w', rest = [w']
                           ∧ WaterHeaterData.name w' = "Sanitary Water Heater")
      ∧ (rest = [] ↔ ¬ ∀ k, k ∈ dhw_keys → is_Some (m !! k))).
Proof.
  intros Hch. pose proof (claimed_nil m) as Hc. unfold get_water_heaters.
  do 3 mstep. rewrite (forallb_contains m ch_keys Hch).
  destruct (Hch "PARAM_ID_BOILER_CH_SET_RANGE_DOWN") as [d1 Hd1]; [compute_done|].
  destruct (Hch "PARAM_ID_BOILER_CH_SET_RANGE_UP") as [d2 Hd2]; [compute_done|].
  destruct (Hch "PARAM_ID_BOILER_CH_CUR_TEMP") as [d3 Hd3]; [compute_done|].
  destruct (Hch "PARAM_ID_BOILER_CH_MAX_SETPOINT") as [d4 Hd4]; [compute_done|].
  do 4 (mstep; pop_claimed Hc). simpl in Hc. repeat mstep.
  destruct (forallb _ dhw_keys) eqn:Hdhw.
  - simpl in Hdhw. rewrite !(claimed_contains m _ _ _ Hc) in Hdhw by compute_done.
    repeat (apply andb_true_iff in Hdhw as [?%is_Some_lookup Hdhw]).
    repeat match goal with H : ∃ _, _ |- _ => destruct H end.
    do 4 (mstep; pop_claimed Hc). repeat mstep. simpl.
    eexists _, _. split; [done|]. split; [done|]. split; [right; eauto|].
    split; [done|]. intros Hnot. exfalso. apply Hnot. intros k Hk.
    unfold dhw_keys in Hk.
    repeat (apply elem_of_cons in Hk as [->|Hk]; [eauto|]). by apply elem_of_nil in Hk.
  - repeat mstep. simpl. eexists _, _. split; [done|]. split; [done|]. split; [by left|].
    split; [|done]. intros _ Hall. apply (forallb_contains m) in Hall.
    simpl in Hall, Hdhw. rewrite !(claimed_contains m _ _ _ Hc) in Hdhw by compute_done.
    unfold contains in Hall. congruence.
Qed.

(** C8: with the five heating keys and none of the sanitary keys, the
    water-heater pass yields one entry, named "Heating Water Heater"; with
    all nine keys it yields two entries. *)
Theorem water_heaters_count (m : dict) :
  ((∀ k, k ∈ ch_keys → is_Some (m !! k)) → (∀ k, k ∈ dhw_keys → m !! k = None) →
   ∃ w m', get_water_heaters m = (Ok [w], m')
           ∧ WaterHeaterData.name w = "Heating Water Heater")
  ∧ ((∀ k, k ∈ ch_keys ++ dhw_keys → is_Some (m !! k)) →
     ∃ w1 w2 m', get_water_heaters m = (Ok [w1; w2], m')).
Proof.
  split.
  - intros Hch Hdhw.
    destruct (get_water_heaters_heating m Hch)
      as (l & m' & Heq & w & rest & -> & Hname & _ & Hrest).
    exists w, m'. split; [|done]. rewrite Heq. f_equal. f_equal. f_equal.
    apply Hrest. intros Hall.
    destruct (Hall "PARAM_ID_BOILER_DHW_CUR_TEMP") as [d Hd]; [compute_done|].
    rewrite Hdhw in Hd; [done|compute_done].
  - intros Hall.
    destruct (get_water_heaters_heating m)
      as (l & m' & Heq & w & rest & -> & _ & [->|(w' & -> & _)] & Hrest).
    { intros k Hk. apply Hall, elem_of_app. by left. }
    + exfalso. destruct Hrest as [Hrest _]. apply Hrest; [done|].
      intros k Hk. apply Hall, elem_of_app. by right.
    + by exists w, w', m'.
Qed.

(** C9: when the sensor pass finds the key of the heating target
    temperature, the exact rule claims it, as the first sensor; no other
    sensor of the pass refers to that key, and the pass leaves the working
    map without it. *)
Theorem heating_target_temperature_claimed_once (m : dict) d :
  m !! "PARAM_ID_BOILER_CH_TRG_TEMP" = Some d →
  ∃ rest m',
    get_sensors_data m = (Ok (heating_target_temperature d :: rest), m')
    ∧ SensorData.name (heating_target_temperature d) = "Heating Target Temperature"
    ∧ SensorData.data_point (heating_target_temperature d)
      = ("PARAM_ID_BOILER_CH_TRG_TEMP", d)
    ∧ (∀ x, x ∈ rest → fst (SensorData.data_point x) ≠ "PARAM_ID_BOILER_CH_TRG_TEMP")
    ∧ m' !! "PARAM_ID_BOILER_CH_TRG_TEMP" = None.
Proof.
  intros Hd.
  destruct (get_sensors_data_shape m) as (l & m' & Heq & rest & -> & Hrest & Hc).
  rewrite Hd in Heq. exists rest, m'. split; [done|]. split; [done|]. split; [done|].
  assert ("PARAM_ID_BOILER_CH_TRG_TEMP"
            ∉ map (λ x, fst (SensorData.data_point x)) rest) as Hnot.
  { intros Hin. destruct Hc as (_ & Hdom & _). apply Hdom in Hin.
    rewrite lookup_delete_eq in Hin. by destruct Hin. }
  split.
  - intros x Hx Hk. apply Hnot. apply list_elem_of_fmap. by exists x.
  - rewrite (claimed_lookup _ _ _ _ Hc Hnot). apply lookup_delete_eq.
Qed.

(** ** The codec of one-decimal fixed point *)

Section CodecProofs.

Variable int_of_str : string → result Z.
Variable float_of_str : string → result float.

(** Truncation toward zero: the result is within one of the argument and
    no larger in magnitude. *)
Lemma truncate_bounds (q : Q) :
  (Qabs (q - inject_Z (truncate q)) < 1)%Q
  ∧ (Qabs (inject_Z (truncate q)) <= Qabs q)%Q.
Proof.
  destruct q as [n d]. unfold truncate. simpl Qnum. simpl Qden.
  pose proof (Z.quot_rem' n (Z.pos d)) as Hqr.
  pose proof (Z.rem_bound_abs n (Z.pos d) ltac:(lia)) as Hb.
  assert (0 <= n → 0 <= Z.pos d * Z.quot n (Z.pos d) <= n) as Hpos.
  { intros Hn. split; [|apply Z.mul_quot_le; lia].
    apply Z.mul_nonneg_nonneg; [lia|]. apply Z.quot_pos; lia. }
  assert (n <= 0 → n <= Z.pos d * Z.quot n (Z.pos d) <= 0) as Hneg.
  { intros Hn. apply Z.mul_quot_ge; lia. }
  generalize dependent (Z.quot n (Z.pos d)). generalize dependent (Z.rem n (Z.pos d)).
  intros r Hb z Hqr Hpos Hneg. split.
  - unfold Qlt, Qabs, Qminus, Qplus, Qopp, inject_Z. simpl. rewrite Pos.mul_1_r.
    replace (n * 1 + - z * Z.pos d) with r by lia. lia.
  - unfold Qle, Qabs, inject_Z. simpl. lia.
Qed.

(** [int] of a finite float is the truncation of the number that the
    float stands for. *)
Lemma int_of_float_truncates (x : float) (q : Q) :
  Q_of_float x = Some q → int_of_float x = Ok (truncate q).
Proof.
  unfold Q_of_float, int_of_float, truncate.
  destruct (FloatOps.Prim2SF x) as [s|s| |s m e]; try discriminate.
  - by intros [= <-].
  - destruct e as [|p|p]; simpl Z.leb; cbv iota.
    + rewrite Z.shiftl_0_r.
      destruct s; intros [= <-]; simpl; by rewrite ?Z.quot_1_r.
    + rewrite Z.shiftl_mul_pow2 by lia. change (2 ^ Z.pos p) with (Z.pow_pos 2 p).
      destruct s; intros [= <-]; simpl Qnum; simpl Qden; rewrite Z.quot_1_r; f_equal; lia.
    + change (- Z.neg p) with (Z.pos p). rewrite Z.shiftr_div_pow2 by lia.
      assert (Z.pos (2 ^ p) = 2 ^ Z.pos p) as Hpow by apply Pos2Z.inj_pow.
      destruct s; intros [= <-]; simpl Qnum; simpl Qden; rewrite Hpow.
      * change (Z.neg m) with (- Z.pos m). rewrite Z.quot_opp_l by lia.
        by rewrite Z.quot_div_nonneg by lia.
      * by rewrite Z.quot_div_nonneg by lia.
Qed.

(** [int] of an infinity or a NaN raises. *)
Lemma int_of_float_raises (x : float) :
  Q_of_float x = None →
  ∃ e, int_of_float x = Raise e ∧ (e = OverflowError ∨ e = ValueError).
Proof.
  unfold Q_of_float, int_of_float.
  destruct (FloatOps.Prim2SF x) as [s|s| |s m e]; try discriminate; intros _.
  - exists OverflowError. by split; [|left].
  - exists ValueError. by split; [|right].
Qed.

Lemma set_value_float (dp : SmartDeviceDataPoint) (v : float) :
  point_type dp = 2 →
  set_value int_of_str (PFloat v) dp
  = match int_of_float (PrimFloat.mul v ten) with
    | Ok z => (Ok (mkCommand (index dp) 2 0 (PInt z)), with_value (PInt z) dp)
    | Raise e => (Raise e, dp)
    end.
Proof.
  intros Ht. unfold set_value, bind, get, modify, lift, ret. rewrite Ht. simpl.
  destruct (int_of_float (PrimFloat.mul v ten)) as [z|e]; [|done].
  unfold send_data_point_update. simpl. by rewrite Ht.
Qed.

Lemma float_of_int_nearest (k : Z) :
  match SpecFloat.binary_normalize FloatOps.prec FloatOps.emax k 0 false with
  | SpecFloat.S754_infinity _ => false
  | _ => true
  end = true →
  float_of_int k = Ok (nearest_float k).
Proof.
  unfold float_of_int, nearest_float.
  by destruct (SpecFloat.binary_normalize _ _ _ _ _).
Qed.

(** What the conversions do on the one-decimal number [k / 10], checked
    on every [k] from -1000 to 1000, that is from -100.0 to 100.0. *)
Lemma one_decimal_codec (k : Z) :
  (-1000 ≤ k ≤ 1000)%Z →
  int_of_float (PrimFloat.mul (one_decimal k) ten) = Ok k
  ∧ float_of_int k = Ok (nearest_float k)
  ∧ ∃ p, Q_of_float (PrimFloat.mul (one_decimal k) ten) = Some p ∧ py_round p = k.
Proof.
  intros Hk.
  assert (forallb one_decimal_exact (seqZ (-1000) 2001) = true) as Hall
    by (vm_compute; reflexivity).
  rewrite List.forallb_forall in Hall. specialize (Hall k).
  assert (one_decimal_exact k = true) as Hex.
  { apply Hall, list_elem_of_In, elem_of_seqZ. lia. }
  clear Hall. unfold one_decimal_exact in Hex.
  destruct (int_of_float _) as [z|e];
    destruct (Q_of_float _) as [p|];
    pose proof (float_of_int_nearest k) as Hf;
    destruct (SpecFloat.binary_normalize _ _ _ _ _); try discriminate;
    apply andb_true_iff in Hex as [->%Z.eqb_eq Hp%Z.eqb_eq];
    (split_and!; [done|by apply Hf|by exists p]).
Qed.

(** C4, amended: for a point of type 2 and a one-decimal value [x] from
    -100.0 to 100.0, the float of [k / 10], [set_value] stores the wire
    value [k] and [get_value] then gives [x] back, exactly. *)
Theorem fixed_point_round_trip (dp : SmartDeviceDataPoint) (k : Z) :
  point_type dp = 2 → (-1000 ≤ k ≤ 1000)%Z →
  ∃ c dp' y,
    set_value int_of_str (PFloat (one_decimal k)) dp = (Ok c, dp')
    ∧ value dp' = PInt k
    ∧ get_value int_of_str float_of_str dp' = Ok (PFloat y)
    ∧ y = one_decimal k.
Proof.
  intros Ht Hk. destruct (one_decimal_codec k Hk) as (Hint & Hfloat & _).
  rewrite (set_value_float dp _ Ht), Hint.
  eexists _, _, (one_decimal k). split; [done|]. split; [done|].
  split; [|done]. unfold get_value. simpl. by rewrite Ht, Hfloat.
Qed.

(** C5, amended: for a point of type 2, [set_value] of a float [v] stores
    [int(v * 10)]: the product [v * 10], a float, truncated toward zero,
    not rounded; when the product is an infinity or a NaN it raises and
    stores nothing.  On the one-decimal values from -100.0 to 100.0 the
    truncation is [round(v * 10)]. *)
Theorem set_value_truncates (dp : SmartDeviceDataPoint) (v : float) :
  point_type dp = 2 →
  match Q_of_float (PrimFloat.mul v ten) with
  | Some p =>
      ∃ z, set_value int_of_str (PFloat v) dp
           = (Ok (mkCommand (index dp) 2 0 (PInt z)), with_value (PInt z) dp)
        ∧ z = truncate p
        ∧ (Qabs (p - inject_Z z) < 1)%Q
        ∧ (Qabs (inject_Z z) <= Qabs p)%Q
        ∧ ∀ k, (-1000 ≤ k ≤ 1000)%Z → v = one_decimal k → z = k ∧ py_round p = k
  | None =>
      ∃ e, set_value int_of_str (PFloat v) dp = (Raise e, dp)
           ∧ (e = OverflowError ∨ e = ValueError)
  end.
Proof.
  intros Ht. rewrite (set_value_float dp v Ht).
  destruct (Q_of_float (PrimFloat.mul v ten)) as [p|] eqn:Hp.
  - exists (truncate p). rewrite (int_of_float_truncates _ _ Hp).
    split; [done|]. split; [done|].
    destruct (truncate_bounds p) as [H1 H2].
    split; [done|]. split; [done|].
    intros k Hk ->. destruct (one_decimal_codec k Hk) as (Hint & _ & p' & Hp' & Hr).
    rewrite Hp in Hp'. injection Hp' as <-.
    rewrite (int_of_float_truncates _ _ Hp) in Hint. by injection Hint as ->.
  - destruct (int_of_float_raises _ Hp) as (e & -> & He). by exists e.
Qed.

End CodecProofs.

(** ** Observer fan-out *)

Lemma for_each_call_returns {X} (l : list positive) (x : X) calls :
  (∀ c, c ∈ l → callback c = Ok tt) →
  for_each l call (x, calls) = (Ok tt, (x, calls ++ l)).
Proof.
  revert calls. induction l as [|c l IH]; intros calls Hok.
  - by rewrite app_nil_r.
  - rewrite for_each_cons. unfold bind, call at 1.
    rewrite (Hok c) by left. rewrite IH.
    + by rewrite <- app_assoc.
    + intros c' Hc'. apply Hok. by right.
Qed.

Lemma for_each_call_raises {X} (l1 l2 : list positive) c e (x : X) calls :
  (∀ c', c' ∈ l1 → callback c' = Ok tt) → callback c = Raise e →
  for_each (l1 ++ c :: l2) call (x, calls) = (Raise e, (x, calls ++ l1 ++ [c])).
Proof.
  intros Hok Hraise. rewrite for_each_app. unfold bind.
  rewrite (for_each_call_returns l1 x calls Hok).
  rewrite for_each_cons. unfold bind, call at 1. rewrite Hraise.
  by rewrite app_assoc.
Qed.

Lemma update_value_eq (data : pyval) (dp : SmartDeviceDataPoint) calls :
  update_value data (dp, calls)
  = for_each (set_iter (_listener dp)) call (with_value data dp, calls).
Proof using Type. done. Qed.

(** When no callback raises, [update_value] invokes every registered
    callback once. *)
Lemma update_value_returns (data : pyval) (dp : SmartDeviceDataPoint) calls :
  (∀ c, c ∈ _listener dp → callback c = Ok tt) →
  update_value data (dp, calls)
  = (Ok tt, (with_value data dp, calls ++ set_iter (_listener dp))).
Proof.
  intros Hok. rewrite update_value_eq. apply for_each_call_returns.
  intros c Hc. apply Hok. rewrite (set_iter_perm (_listener dp)) in Hc.
  by apply elem_of_elements in Hc.
Qed.

(** C6, amended: [update_value] calls the registered callbacks one after
    the other; when one raises, the ones before it have run, its exception
    leaves [update_value] with the new value stored, and the registered
    callbacks after it are not invoked. *)
Theorem update_value_stops_at_raise (data : pyval) (dp : SmartDeviceDataPoint)
    calls l1 c l2 e :
  set_iter (_listener dp) = l1 ++ c :: l2 →
  (∀ c', c' ∈ l1 → callback c' = Ok tt) →
  callback c = Raise e →
  update_value data (dp, calls)
  = (Raise e, (with_value data dp, calls ++ l1 ++ [c]))
  ∧ ∀ c', c' ∈ l2 → c' ∈ _listener dp ∧ c' ∉ l1 ++ [c].
Proof.
  intros Hl Hok Hraise. split.
  - rewrite update_value_eq, Hl. by apply for_each_call_raises.
  - intros c' Hc'. pose proof (set_iter_perm (_listener dp)) as Hperm.
    assert (NoDup (l1 ++ c :: l2)) as Hnd.
    { rewrite <- Hl, Hperm. apply NoDup_elements. }
    split.
    + apply elem_of_elements. rewrite <- Hperm, Hl, elem_of_app. right. by right.
    + apply NoDup_app in Hnd as (_ & Hdisj & Hnd2). apply NoDup_cons in Hnd2 as [Hc _].
      intros [Hin|Hin]%elem_of_app.
      * apply (Hdisj c' Hin). by right.
      * apply list_elem_of_singleton in Hin. by subst c'.
Qed.

(** ** The inbound router *)

(** A command whose keys the device does not have changes nothing and
    invokes no callback. *)
Lemma handle_mqtt_command_unknown_keys (device : SmartDevice) calls data :
  (∀ k cmd, (k, cmd) ∈ data → data_points device !! k = None) →
  handle_mqtt_command data (device, calls) = (Ok tt, (device, calls)).
Proof using Type.
  unfold handle_mqtt_command. induction data as [|[k cmd] data IH]; intros Hnone; [done|].
  rewrite for_each_cons. unfold bind at 1. unfold bind at 1. unfold get. simpl.
  rewrite (Hnone k cmd) by left. unfold ret. apply IH.
  intros k' cmd' Hin. apply (Hnone k' cmd'). by right.
Qed.

(** For a known device, a command with unknown keys is ignored. *)
Lemma on_mqtt_message_unknown_keys (api : TopbandCloudApi) calls a device data :
  devices api !! a = Some device →
  (∀ k cmd, (k, cmd) ∈ data → data_points device !! k = None) →
  on_mqtt_message (command_message a data) (api, calls) = (Ok tt, (api, calls)).
Proof using Type.
  intros Ha Hnone. unfold on_mqtt_message, command_message. simpl.
  rewrite for_each_cons. unfold bind at 1. unfold bind at 1. unfold get. simpl.
  rewrite Ha. unfold on_device.
  rewrite (handle_mqtt_command_unknown_keys device calls data Hnone).
  unfold for_each, ret. simpl. rewrite insert_id by done. by destruct api.
Qed.

(** For an address that no device has, the router raises
    [AttributeError]; nothing is changed and no callback is invoked. *)
Lemma on_mqtt_message_unknown_mac (api : TopbandCloudApi) calls a data :
  devices api !! a = None →
  on_mqtt_message (command_message a data) (api, calls)
  = (Raise AttributeError, (api, calls)).
Proof using Type.
  intros Ha. unfold on_mqtt_message, command_message. simpl.
  rewrite for_each_cons. unfold bind at 1. unfold bind at 1. unfold get. simpl.
  by rewrite Ha.
Qed.

(** A command for a known device and a known key stores the value and
    invokes the listeners of the point. *)
Lemma on_mqtt_message_known (api : TopbandCloudApi) calls a device k dp v :
  devices api !! a = Some device → data_points device !! k = Some dp →
  (∀ c, c ∈ _listener dp → callback c = Ok tt) →
  on_mqtt_message (command_message a [(k, mkPayload (Some v))]) (api, calls)
  = (Ok tt,
     (mkApi (<[a := set_data_points (<[k := with_value v dp]> (data_points device)) device]>
               (devices api)),
      calls ++ set_iter (_listener dp))).
Proof.
  intros Ha Hk Hok. unfold on_mqtt_message, command_message. simpl.
  rewrite for_each_cons. unfold bind at 1. unfold bind at 1. unfold get. simpl.
  rewrite Ha. unfold on_device, handle_mqtt_command.
  rewrite for_each_cons. unfold bind at 1. unfold bind at 1. unfold get. simpl.
  rewrite Hk. unfold on_data_point. simpl.
  by rewrite (update_value_returns v dp calls Hok).
Qed.

(** * Further properties of the classifier *)

(** ** What the passes leave alone *)

Lemma frame_refl l (self : SmartDevice) : frame l self self.
Proof using Type. split; [done|]. split; [done|]. by intros []. Qed.

Lemma frame_cons p l (a b c : SmartDevice) :
  frame [p] a b → frame l b c → frame (p :: l) a c.
Proof using Type.
  intros (Hd1 & Hi1 & Hq1) (Hd2 & Hi2 & Hq2).
  split; [congruence|]. split; [congruence|].
  intros q [Hqp Hql]%not_elem_of_cons.
  assert (q ∉ [p]) as Hq by (by intros ->%list_elem_of_singleton).
  specialize (Hq1 q Hq). specialize (Hq2 q Hql).
  destruct q; simpl in *; congruence.
Qed.

Lemma frame_weaken p l (a b : SmartDevice) : frame [p] a b → frame (p :: l) a b.
Proof using Type. intros H. apply (frame_cons p l a b b H), frame_refl. Qed.

(** A pass assigns its own attribute and works on [unknown_points]; it
    leaves every other attribute, whatever its outcome. *)
Lemma run_pass_frame p (self : SmartDevice) : frame [p] self (snd (run_pass p self)).
Proof using Type.
  destruct self.
  destruct p; unfold run_pass, bind, on_unknown_points, modify; cbn [unknown_points];
    match goal with
    | |- context [?f ?m] =>
        lazymatch type of (f m) with
        | (result _ * dict)%type => destruct (f m) as [[l|e] m']
        end
    end;
    (split; [done|]; split; [done|]; intros q Hq; destruct q; try done;
     exfalso; apply Hq; apply list_elem_of_here).
Qed.

Lemma for_each_run_pass_frame l (self : SmartDevice) :
  frame l self (snd (for_each l run_pass self)).
Proof using Type.
  revert self. induction l as [|p l IH]; intros self; [apply frame_refl|].
  rewrite for_each_cons. unfold bind.
  pose proof (run_pass_frame p self) as H1.
  destruct (run_pass p self) as [[[]|e] s1]; simpl in H1.
  - by apply (frame_cons p l self s1).
  - by apply frame_weaken.
Qed.

Lemma passes_split p : passes = before p passes ++ p :: after p passes.
Proof using Type. by destruct p. Qed.

Lemma pass_keys_frame q l (a b : SmartDevice) :
  frame l a b → q ∉ l → pass_keys q b = pass_keys q a.
Proof using Type.
  intros (_ & _ & Hq) Hql. specialize (Hq q Hql).
  destruct q; simpl in *; congruence.
Qed.

Lemma elem_of_concat {A} (x : A) (ls : list (list A)) :
  x ∈ concat ls ↔ ∃ l, l ∈ ls ∧ x ∈ l.
Proof using Type.
  induction ls as [|l ls IH]; simpl.
  - split; [by intros ?%elem_of_nil | by intros (l & ?%elem_of_nil & _)].
  - rewrite elem_of_app, IH. split.
    + intros [Hx|(l' & Hl' & Hx)];
        [exists l; split; [left|done] | exists l'; split; [by right|done]].
    + intros (l' & [->|Hl']%elem_of_cons & Hx); [by left | right; by exists l'].
Qed.

Lemma pass_keys_group_keys q (self : SmartDevice) k :
  k ∈ pass_keys q self → k ∈ group_keys self.
Proof using Type.
  intros Hk. rewrite group_keys_passes. apply elem_of_concat.
  destruct q; try (by apply elem_of_nil in Hk);
    eexists; (split; [|exact Hk]); apply list_elem_of_fmap; eexists; (split; [reflexivity|]);
    compute_done.
Qed.

(** The device when control reaches the pass [p]: the rules before [p]
    have claimed the keys of their descriptors, and nothing else is
    gone. *)
Lemma run_until_claimed p (self : SmartDevice) :
  returns (run_until p) self (λ _ self1,
    claimed (data_points self)
      (concat (map (λ q, pass_keys q self1) (before p passes))) (unknown_points self1)
    ∧ Forall (λ k, existsb (λ q, rule_keys q k) (before p passes) = true)
        (concat (map (λ q, pass_keys q self1) (before p passes)))
    ∧ frame (before p passes) self self1).
Proof.
  destruct (run_group_rules (before p passes) (set_unknown_points (data_points self) self))
    as ([] & self1 & Hrun & Hc & Hg & _).
  { destruct p; compute_done. }
  { destruct p; compute_done. }
  exists tt, self1. split; [exact Hrun|].
  split; [by destruct self|]. split; [done|].
  pose proof (for_each_run_pass_frame (before p passes)
                (set_unknown_points (data_points self) self)) as Hf.
  rewrite Hrun in Hf. by destruct self.
Qed.

(** A classification that returns, cut at the pass [p]. *)
Lemma parse_data_points_at p (self self' : SmartDevice) :
  parse_data_points self = (Ok tt, self') →
  ∃ self1 self2,
    run_until p self = (Ok tt, self1) ∧ run_pass p self1 = (Ok tt, self2)
    ∧ frame (after p passes) self2 self'.
Proof using Type.
  intros Hparse. unfold parse_data_points, run_until, bind in *.
  destruct (copy_data_points self) as [[[]|e] s0]; [|done].
  rewrite (passes_split p), for_each_app in Hparse. unfold bind in Hparse.
  destruct (for_each (before p passes) run_pass s0) as [[[]|e] self1] eqn:E1; [|done].
  rewrite for_each_cons in Hparse. unfold bind in Hparse.
  destruct (run_pass p self1) as [[[]|e] self2] eqn:E2; [|done].
  exists self1, self2. split; [done|]. split; [done|].
  pose proof (for_each_run_pass_frame (after p passes) self2) as Hf.
  by rewrite Hparse in Hf.
Qed.

(** Where a key stands when control reaches [p]: an earlier rule has
    claimed it, or it is in the working map as the input has it. *)
Lemma run_until_key p (self self1 self2 self' : SmartDevice) k :
  run_until p self = (Ok tt, self1) → run_pass p self1 = (Ok tt, self2) →
  frame (after p passes) self2 self' →
  (∃ q, q ∈ before p passes ∧ k ∈ pass_keys q self'
        ∧ existsb (λ q, rule_keys q k) (before p passes) = true)
  ∨ unknown_points self1 !! k = data_points self !! k.
Proof.
  intros Hrun Hpass Hf.
  destruct (run_until_claimed p self) as ([] & s & Hrun' & Hc & Hg & _).
  rewrite Hrun in Hrun'. injection Hrun' as <-.
  destruct (decide (k ∈ concat (map (λ q, pass_keys q self1) (before p passes))))
    as [Hin|Hnot]; [left|right; by apply (claimed_lookup _ _ _ _ Hc)].
  rewrite Forall_forall in Hg. pose proof (Hg k Hin) as Hk.
  apply elem_of_concat in Hin as (l & Hl & Hkl).
  apply list_elem_of_fmap in Hl as (q & -> & Hq).
  exists q. split; [done|]. split; [|done].
  pose proof (run_pass_frame p self1) as Hf1. rewrite Hpass in Hf1. simpl in Hf1.
  rewrite (pass_keys_frame q _ _ _ Hf), (pass_keys_frame q _ _ _ Hf1); [done| |].
  - intros ->%list_elem_of_singleton. revert Hq. destruct p; compute_done.
  - revert Hq. destruct p, q; compute_done.
Qed.

(** The descriptors that a pass assigns are the ones its rule returned. *)
Lemma run_pass_inv p (self1 self2 : SmartDevice) :
  run_pass p self1 = (Ok tt, self2) →
  match p with
  | WaterHeaters =>
      ∃ m', get_water_heaters (unknown_points self1) = (Ok (water_heaters self2), m')
  | Climate => ∃ m', get_climate_data (unknown_points self1) = (Ok (climate_data self2), m')
  | Select => ∃ m', get_select_data (unknown_points self1) = (Ok (select_data self2), m')
  | Switches => ∃ m', get_switches_data (unknown_points self1) = (Ok (switches_data self2), m')
  | Numbers => ∃ m', get_numbers_data (unknown_points self1) = (Ok (numbers_data self2), m')
  | Sensors => ∃ m', get_sensors_data (unknown_points self1) = (Ok (sensors_data self2), m')
  | BinarySensors =>
      ∃ m', get_binary_sensors_data (unknown_points self1)
            = (Ok (binary_sensors_data self2), m')
  | RemoveUnsupported => True
  end.
Proof using Type.
  destruct self1.
  destruct p; [| | | | | | |done];
    unfold run_pass, bind, on_unknown_points, modify; cbn [unknown_points];
    match goal with
    | |- context [?f ?m] =>
        lazymatch type of (f m) with
        | (result _ * dict)%type => destruct (f m) as [[l|e] m']
        end
    end; intros [= <-]; by exists m'.
Qed.

(** ** The outcome of classification *)

Lemma parse_data_points_frame (self : SmartDevice) :
  frame passes self (snd (parse_data_points self)).
Proof using Type.
  unfold parse_data_points, bind, copy_data_points, modify.
  pose proof (for_each_run_pass_frame passes
                (set_unknown_points (data_points self) self)) as (Hd & Hi & Hq).
  destruct (for_each passes run_pass _) as [[[]|e] s']; by destruct self.
Qed.

Lemma parse_data_points_raises (self : SmartDevice) e self' :
  parse_data_points self = (Raise e, self') →
  ∃ k, e = KeyError k ∧ k ∈ unsupported_keys ∧ data_points self !! k = None.
Proof.
  intros Hraise.
  destruct (run_until_remove_unsupported self) as ([] & self7 & Hrun & _).
  rewrite (parse_data_points_split self self7 Hrun) in Hraise.
  destruct (decide (Forall (λ k, is_Some (unknown_points self7 !! k)) unsupported_keys))
    as [Hall|Hnot].
  - rewrite Forall_forall in Hall.
    destruct (remove_unsupported_data_returns _ Hall) as ([] & m' & Hrm & _).
    unfold on_unknown_points in Hraise. by rewrite Hrm in Hraise.
  - apply not_Forall_Exists in Hnot; [|apply _].
    apply Exists_exists in Hnot as (k & Hk & Hnone).
    apply eq_None_not_Some in Hnone.
    destruct (remove_unsupported_data_raises _ k Hk Hnone) as (k' & m' & Hk' & Hnone' & Hr).
    unfold on_unknown_points in Hraise. rewrite Hr in Hraise. injection Hraise as <- _.
    exists k'. split; [done|]. split; [done|].
    by rewrite <- (unknown_points_before_removal self self7 k' Hrun Hk').
Qed.

(** Classification returns exactly when the snapshot has both keys that
    [remove_unsupported_data] pops by name, and the only exception it
    raises is the [KeyError] of one of the two, absent from the
    snapshot. *)
Theorem parse_data_points_outcome (self : SmartDevice) :
  ((∃ self', parse_data_points self = (Ok tt, self'))
   ↔ ∀ k, k ∈ unsupported_keys → is_Some (data_points self !! k))
  ∧ ∀ e self', parse_data_points self = (Raise e, self') →
      ∃ k, e = KeyError k ∧ k ∈ unsupported_keys ∧ data_points self !! k = None.
Proof.
  split; [split|].
  - intros [self' Hparse].
    by apply parse_data_points_inv in Hparse as (_ & _ & _ & _ & _ & _ & H & _).
  - apply parse_data_points_returns.
  - apply parse_data_points_raises.
Qed.

(** Classification works on the copy: whatever its outcome, it leaves
    [data_points] and the attributes that identify the device as they
    were. *)
Theorem parse_data_points_keeps_data_points (self : SmartDevice) r self' :
  parse_data_points self = (r, self') →
  data_points self' = data_points self ∧ identity self' = identity self.
Proof using Type.
  intros Hparse. pose proof (parse_data_points_frame self) as (Hd & Hi & _).
  rewrite Hparse in Hd, Hi. done.
Qed.

(** ** Where the keys of the suffix rules end up *)

Lemma get_sensors_data_complete (m : dict) k :
  sensor_key k = true → is_Some (m !! k) →
  returns get_sensors_data m (λ l _, k ∈ map (λ x, fst (SensorData.data_point x)) l).
Proof.
  intros Hk [d Hd]. eapply returns_weaken; [apply get_sensors_data_shape|].
  intros l m' (rest & -> & Hrest & _). rewrite map_app, elem_of_app.
  destruct (decide (k = "PARAM_ID_BOILER_CH_TRG_TEMP")) as [->|Hne].
  - left. rewrite Hd. apply list_elem_of_here.
  - right. rewrite Hrest. apply list_elem_of_filter. split; [done|].
    apply dict_items_keys. exists d. by rewrite lookup_delete_ne.
Qed.

Lemma get_binary_sensors_data_complete (m : dict) k :
  binary_sensor_key k = true → is_Some (m !! k) →
  returns get_binary_sensors_data m (λ l _, k ∈ map (λ x, fst (SensorData.data_point x)) l).
Proof.
  intros Hk Hd. eapply returns_weaken; [apply get_binary_sensors_data_shape|].
  intros l m' (Hl & _). rewrite Hl. apply list_elem_of_filter. split; [done|].
  by apply dict_items_keys.
Qed.

(** A key that passes a test of the sensor loop is claimed by the sensor
    group, unless one of the groups before it claimed it. *)
Lemma sensor_key_claimed (self self' : SmartDevice) k :
  parse_data_points self = (Ok tt, self') → is_Some (data_points self !! k) →
  sensor_key k = true →
  k ∈ pass_keys Sensors self' ∨ ∃ q, q ∈ before Sensors passes ∧ k ∈ pass_keys q self'.
Proof.
  intros Hparse Hin Hk.
  destruct (parse_data_points_at Sensors self self' Hparse)
    as (self1 & self2 & Hrun & Hpass & Hf).
  destruct (run_until_key Sensors self self1 self2 self' k Hrun Hpass Hf)
    as [(q & Hq & Hkq & _)|Hl]; [right; by exists q|left].
  rewrite (pass_keys_frame Sensors _ _ _ Hf) by compute_done.
  apply run_pass_inv in Hpass as [m' Hget].
  destruct (get_sensors_data_complete (unknown_points self1) k Hk)
    as (l & m'' & Hget' & Hkl); [by rewrite Hl|].
  rewrite Hget in Hget'. by injection Hget' as <- _.
Qed.

Lemma binary_sensor_key_claimed (self self' : SmartDevice) k :
  parse_data_points self = (Ok tt, self') → is_Some (data_points self !! k) →
  binary_sensor_key k = true →
  k ∈ pass_keys BinarySensors self'
  ∨ ∃ q, q ∈ before BinarySensors passes ∧ k ∈ pass_keys q self'.
Proof.
  intros Hparse Hin Hk.
  destruct (parse_data_points_at BinarySensors self self' Hparse)
    as (self1 & self2 & Hrun & Hpass & Hf).
  destruct (run_until_key BinarySensors self self1 self2 self' k Hrun Hpass Hf)
    as [(q & Hq & Hkq & _)|Hl]; [right; by exists q|left].
  rewrite (pass_keys_frame BinarySensors _ _ _ Hf) by compute_done.
  apply run_pass_inv in Hpass as [m' Hget].
  destruct (get_binary_sensors_data_complete (unknown_points self1) k Hk)
    as (l & m'' & Hget' & Hkl); [by rewrite Hl|].
  rewrite Hget in Hget'. by injection Hget' as <- _.
Qed.

(** ** The rules for single keys *)

Lemma get_select_data_work_mode (m : dict) d :
  m !! "SYS_WORK_MODE" = Some d →
  returns get_select_data m (λ l _,
    ∃ x, x ∈ l ∧ SelectData.data_point x = ("SYS_WORK_MODE", d)
         ∧ SelectData.name x = "Work Mode").
Proof using Type.
  intros Hd. unfold get_select_data. do 2 mstep.
  rewrite (proj2 (contains_true _ m)) by (by exists d).
  repeat mstep. eapply returns_pop; [exact Hd|]. repeat mstep.
  eexists. split; [apply list_elem_of_here|done].
Qed.

Lemma get_switches_data_program (m : dict) d :
  m !! "PARAM_ID_BOILER_DHW_PRO_EN" = Some d →
  returns get_switches_data m (λ l _,
    ∃ x, x ∈ l ∧ SwitchData.data_point x = ("PARAM_ID_BOILER_DHW_PRO_EN", d)
         ∧ SwitchData.name x = "Domestic Water Heating Program").
Proof using Type.
  intros Hd. unfold get_switches_data. do 2 mstep.
  rewrite (proj2 (contains_true _ m)) by (by exists d).
  repeat mstep. eapply returns_pop; [exact Hd|]. repeat mstep.
  destruct (contains _ _) eqn:Hc.
  - apply contains_true in Hc as [d' Hd'].
    repeat mstep. eapply returns_pop; [exact Hd'|]. repeat mstep.
    eexists. split; [apply list_elem_of_here|done].
  - repeat mstep. eexists. split; [apply list_elem_of_here|done].
Qed.

Lemma get_switches_data_time_sync (m : dict) d :
  m !! "PARAM_ID_SYS_DST_ENABLE" = Some d →
  returns get_switches_data m (λ l _,
    ∃ x, x ∈ l ∧ SwitchData.data_point x = ("PARAM_ID_SYS_DST_ENABLE", d)
         ∧ SwitchData.name x = "Auto Time Sync").
Proof using Type.
  intros Hd. unfold get_switches_data. do 2 mstep.
  destruct (contains _ m) eqn:Hc.
  - apply contains_true in Hc as [d' Hd'].
    repeat mstep. eapply returns_pop; [exact Hd'|]. repeat mstep.
    assert (delete "PARAM_ID_BOILER_DHW_PRO_EN" m !! "PARAM_ID_SYS_DST_ENABLE" = Some d)
      as Hd2 by (by rewrite lookup_delete_ne).
    rewrite (proj2 (contains_true _ _)) by (by exists d).
    repeat mstep. eapply returns_pop; [exact Hd2|]. repeat mstep.
    eexists. split; [apply list_elem_of_further, list_elem_of_here|done].
  - repeat mstep. rewrite (proj2 (contains_true _ m)) by (by exists d).
    repeat mstep. eapply returns_pop; [exact Hd|]. repeat mstep.
    eexists. split; [apply list_elem_of_here|done].
Qed.

Lemma get_numbers_data_froze (m : dict) d :
  m !! "PARAM_ID_TH_POWEROFF_FROZE_TEMP" = Some d →
  returns get_numbers_data m (λ l _,
    ∃ x, x ∈ l ∧ NumberData.data_point x = ("PARAM_ID_TH_POWEROFF_FROZE_TEMP", d)
         ∧ NumberData.name x = "Poweroff Froze Temperature"
         ∧ NumberData.min_value x = Some 5%Q ∧ NumberData.max_value x = Some 15%Q
         ∧ NumberData.step_value x = Some (1 # 2)%Q
         ∧ NumberData.unit_of_measurement x = Some CELSIUS).
Proof using Type.
  intros Hd. unfold get_numbers_data. do 2 mstep.
  rewrite (proj2 (contains_true _ m)) by (by exists d).
  repeat mstep. eapply returns_pop; [exact Hd|]. repeat mstep.
  eexists. split; [apply list_elem_of_here|done].
Qed.

Lemma pass_keys_unique (self : SmartDevice) (l : list pass) p q k :
  NoDup (concat (map (λ p, pass_keys p self) l)) → p ∈ l → q ∈ l →
  k ∈ pass_keys p self → k ∈ pass_keys q self → p = q.
Proof using Type.
  induction l as [|a l IH]; simpl; [by intros _ ?%elem_of_nil|].
  intros (_ & Hdisj & Hnd)%NoDup_app Hp Hq Hkp Hkq.
  assert (∀ r, r ∈ l → k ∈ pass_keys a self → k ∈ pass_keys r self → False) as Hno.
  { intros r Hr Hka Hkr. apply (Hdisj k Hka). apply elem_of_concat.
    exists (pass_keys r self). split; [|done]. apply list_elem_of_fmap. by exists r. }
  apply elem_of_cons in Hp as [->|Hp]; apply elem_of_cons in Hq as [->|Hq].
  - done.
  - by destruct (Hno q Hq).
  - by destruct (Hno p Hp).
  - by apply IH.
Qed.

(** A key is claimed by one group at most. *)
Lemma group_keys_unique (self : SmartDevice) p q k :
  NoDup (group_keys self) → k ∈ pass_keys p self → k ∈ pass_keys q self → p = q.
Proof using Type.
  rewrite group_keys_passes. intros Hnd Hp Hq.
  apply (pass_keys_unique self group_rules p q k Hnd); [| |done|done].
  - destruct p; try compute_done. by apply elem_of_nil in Hp.
  - destruct q; try compute_done. by apply elem_of_nil in Hq.
Qed.

(** A key that no rule before [p] can claim reaches [p] as the snapshot
    has it, and what [p] assigns is what the device ends up with. *)
Lemma parse_data_points_reaches p (self self' : SmartDevice) k :
  parse_data_points self = (Ok tt, self') →
  existsb (λ q, rule_keys q k) (before p passes) = false →
  ∃ self1 self2,
    run_pass p self1 = (Ok tt, self2)
    ∧ unknown_points self1 !! k = data_points self !! k
    ∧ same_attribute p self2 self'.
Proof.
  intros Hparse Hnone.
  destruct (parse_data_points_at p self self' Hparse) as (self1 & self2 & Hrun & Hpass & Hf).
  exists self1, self2. split; [done|]. split.
  - destruct (run_until_key p self self1 self2 self' k Hrun Hpass Hf)
      as [(q & _ & _ & Hex)|Hl]; [congruence|done].
  - destruct Hf as (_ & _ & Hf). apply Hf. destruct p; compute_done.
Qed.

Lemma work_mode_select (self self' : SmartDevice) d :
  parse_data_points self = (Ok tt, self') →
  data_points self !! "SYS_WORK_MODE" = Some d →
  ∃ x, x ∈ select_data self' ∧ SelectData.data_point x = ("SYS_WORK_MODE", d)
       ∧ SelectData.name x = "Work Mode".
Proof.
  intros Hparse Hd.
  destruct (parse_data_points_reaches Select self self' "SYS_WORK_MODE" Hparse eq_refl)
    as (self1 & self2 & Hpass & Hl & Hsame).
  apply run_pass_inv in Hpass as [m' Hget]. rewrite Hd in Hl.
  destruct (get_select_data_work_mode _ d Hl) as (l & m'' & Hget' & Hx).
  simpl in Hsame. rewrite Hsame. rewrite Hget in Hget'. by injection Hget' as <- _.
Qed.

Lemma program_switch (self self' : SmartDevice) d :
  parse_data_points self = (Ok tt, self') →
  data_points self !! "PARAM_ID_BOILER_DHW_PRO_EN" = Some d →
  ∃ x, x ∈ switches_data self'
       ∧ SwitchData.data_point x = ("PARAM_ID_BOILER_DHW_PRO_EN", d)
       ∧ SwitchData.name x = "Domestic Water Heating Program".
Proof.
  intros Hparse Hd.
  destruct (parse_data_points_reaches Switches self self' "PARAM_ID_BOILER_DHW_PRO_EN"
              Hparse eq_refl) as (self1 & self2 & Hpass & Hl & Hsame).
  apply run_pass_inv in Hpass as [m' Hget]. rewrite Hd in Hl.
  destruct (get_switches_data_program _ d Hl) as (l & m'' & Hget' & Hx).
  simpl in Hsame. rewrite Hsame. rewrite Hget in Hget'. by injection Hget' as <- _.
Qed.

Lemma time_sync_switch (self self' : SmartDevice) d :
  parse_data_points self = (Ok tt, self') →
  data_points self !! "PARAM_ID_SYS_DST_ENABLE" = Some d →
  ∃ x, x ∈ switches_data self'
       ∧ SwitchData.data_point x = ("PARAM_ID_SYS_DST_ENABLE", d)
       ∧ SwitchData.name x = "Auto Time Sync".
Proof.
  intros Hparse Hd.
  destruct (parse_data_points_reaches Switches self self' "PARAM_ID_SYS_DST_ENABLE"
              Hparse eq_refl) as (self1 & self2 & Hpass & Hl & Hsame).
  apply run_pass_inv in Hpass as [m' Hget]. rewrite Hd in Hl.
  destruct (get_switches_data_time_sync _ d Hl) as (l & m'' & Hget' & Hx).
  simpl in Hsame. rewrite Hsame. rewrite Hget in Hget'. by injection Hget' as <- _.
Qed.

Lemma froze_number (self self' : SmartDevice) d :
  parse_data_points self = (Ok tt, self') →
  data_points self !! "PARAM_ID_TH_POWEROFF_FROZE_TEMP" = Some d →
  ∃ x, x ∈ numbers_data self'
       ∧ NumberData.data_point x = ("PARAM_ID_TH_POWEROFF_FROZE_TEMP", d)
       ∧ NumberData.name x = "Poweroff Froze Temperature"
       ∧ NumberData.min_value x = Some 5%Q ∧ NumberData.max_value x = Some 15%Q
       ∧ NumberData.step_value x = Some (1 # 2)%Q
       ∧ NumberData.unit_of_measurement x = Some CELSIUS.
Proof.
  intros Hparse Hd.
  destruct (parse_data_points_reaches Numbers self self' "PARAM_ID_TH_POWEROFF_FROZE_TEMP"
              Hparse eq_refl) as (self1 & self2 & Hpass & Hl & Hsame).
  apply run_pass_inv in Hpass as [m' Hget]. rewrite Hd in Hl.
  destruct (get_numbers_data_froze _ d Hl) as (l & m'' & Hget' & Hx).
  simpl in Hsame. rewrite Hsame. rewrite Hget in Hget'. by injection Hget' as <- _.
Qed.

(** The four keys that a rule tests by name are claimed by the select,
    switch and number groups. *)
Lemma single_key_claimed (self self' : SmartDevice) k :
  parse_data_points self = (Ok tt, self') →
  k ∈ [ "SYS_WORK_MODE"; "PARAM_ID_BOILER_DHW_PRO_EN"; "PARAM_ID_SYS_DST_ENABLE";
        "PARAM_ID_TH_POWEROFF_FROZE_TEMP" ] →
  is_Some (data_points self !! k) →
  ∃ p, p ∈ [Select; Switches; Numbers] ∧ k ∈ pass_keys p self'.
Proof.
  intros Hparse Hk [d Hd].
  repeat (apply elem_of_cons in Hk as [->|Hk]); [| | | |by apply elem_of_nil in Hk].
  - destruct (work_mode_select self self' d Hparse Hd) as (x & Hx & Hdp & _).
    exists Select. split; [compute_done|].
    simpl. apply list_elem_of_fmap. exists x. by rewrite Hdp.
  - destruct (program_switch self self' d Hparse Hd) as (x & Hx & Hdp & _).
    exists Switches. split; [compute_done|].
    simpl. apply list_elem_of_fmap. exists x. by rewrite Hdp.
  - destruct (time_sync_switch self self' d Hparse Hd) as (x & Hx & Hdp & _).
    exists Switches. split; [compute_done|].
    simpl. apply list_elem_of_fmap. exists x. by rewrite Hdp.
  - destruct (froze_number self self' d Hparse Hd) as (x & Hx & Hdp & _).
    exists Numbers. split; [compute_done|].
    simpl. apply list_elem_of_fmap. exists x. by rewrite Hdp.
Qed.

(** ** The descriptors of the sensor loop *)

(** [for_fold_claims] with a property [P] of the items of the snapshot at
    hand in the body. *)
Lemma for_fold_claims_items {B} (c : string → bool)
    (P : string → SmartDeviceDataPoint → Prop) (I : B → list string → Prop)
    (body : B → string * SmartDeviceDataPoint → M dict B) :
  (∀ acc ks k d (m : dict), P k d → I acc ks → m !! k = Some d →
     returns (body acc (k, d)) m (λ acc' m',
       if c k then I acc' (ks ++ [k]) ∧ m' = delete k m else I acc' ks ∧ m' = m)) →
  ∀ l acc ks (m : dict),
    I acc ks → NoDup l.*1 → (∀ k d, (k, d) ∈ l → m !! k = Some d ∧ P k d) →
  returns (for_fold l acc body) m (λ acc' m',
    I acc' (ks ++ filter (λ k, c k = true) l.*1)
    ∧ claimed m (filter (λ k, c k = true) l.*1) m').
Proof using Type.
  intros Hbody l. induction l as [|[k d] l IH]; intros acc ks m HI Hnd Hin.
  - simpl. apply returns_ret. rewrite app_nil_r. split; [done|]. apply claimed_nil.
  - simpl in *. apply NoDup_cons in Hnd as [Hk Hnd].
    destruct (Hin k d) as [Hkd HP]; [left|].
    apply returns_bind.
    eapply returns_weaken; [apply (Hbody acc ks k d m HP HI Hkd)|].
    intros acc' m' Hstep. simpl in Hstep.
    rewrite filter_cons. destruct (c k) eqn:Hc.
    + destruct Hstep as [HI' ->]. rewrite decide_True by done.
      eapply returns_weaken.
      * apply (IH acc' (ks ++ [k]) (delete k m) HI' Hnd).
        intros k' d' Hin'. rewrite lookup_delete_ne.
        { apply Hin. by right. }
        intros ->. apply Hk. apply list_elem_of_fmap. by exists (k', d').
      * intros acc'' m'' [HI'' Hcl]. simpl in *. split.
        { by rewrite <- app_assoc in HI''. }
        apply (claimed_app m (delete k m) m'' [k]); [|done].
        by apply (claimed_pop m k d).
    + destruct Hstep as [HI' ->]. rewrite decide_False by done.
      apply (IH acc' ks m HI' Hnd). intros k' d' Hin'. apply Hin. by right.
Qed.

Ltac sensor_one Hd :=
  simpl; repeat first [ mstep | eapply returns_pop; [exact Hd|] ];
  simpl; (split; [|done]); apply Forall_app; (split; [done|]);
  apply Forall_singleton; unfold sensor_by_suffix, endswith_any; simpl.

Lemma get_sensors_data_by_suffix (m : dict) :
  returns get_sensors_data m (λ l _, Forall (sensor_by_suffix m) l).
Proof.
  unfold get_sensors_data. do 2 mstep. apply returns_bind.
  apply (returns_weaken _ _ (λ l1 m1,
    Forall (sensor_by_suffix m) l1 ∧ m1 = delete "PARAM_ID_BOILER_CH_TRG_TEMP" m)).
  { destruct (contains _ m) eqn:Hc.
    - apply contains_true in Hc as [d Hd].
      mstep. eapply returns_pop; [exact Hd|]. mstep. split; [|done].
      apply Forall_singleton. unfold sensor_by_suffix. simpl.
      split_and!; try done. right. left. apply list_elem_of_here.
    - apply contains_false in Hc. mstep. split; [constructor|].
      symmetry. by apply delete_id. }
  intros l1 m1 [Hl1 ->]. do 2 mstep.
  eapply returns_weaken.
  - apply (for_fold_claims_items sensor_key (λ k d, m !! k = Some d)
             (λ acc _, Forall (sensor_by_suffix m) acc)) with (ks := []).
    + intros acc ks k d m1 Hm Hacc Hd. unfold sensor_key, endswith_any. simpl existsb.
      destruct (String.eqb k "PARAM_ID_BOILER_OUTDOOR_TEMP") eqn:E1.
      { pose proof (eqb_endswith _ _ E1) as H. other_suffixes "PARAM_ID_BOILER_OUTDOOR_TEMP" H.
        sensor_one Hd. apply String.eqb_eq in E1. subst k.
        split_and!; try done. right. left. compute_done. }
      destruct (endswith "_TEMP" k) eqn:E2.
      { other_suffixes "_TEMP" E2. sensor_one Hd.
        rewrite ?E2, ?E3, ?E4, ?E5, ?E6, ?E7. other_suffixes "_TEMP" E2. simpl.
        split_and!; try done. by left. }
      destruct (endswith "_RATE" k) eqn:E3.
      { other_suffixes "_RATE" E3. sensor_one Hd.
        rewrite ?E2, ?E3, ?E4, ?E5, ?E6, ?E7. other_suffixes "_RATE" E3. simpl.
        split_and!; try done. by left. }
      destruct (endswith "_PRESSURE" k) eqn:E4.
      { other_suffixes "_PRESSURE" E4. sensor_one Hd.
        rewrite ?E2, ?E3, ?E4, ?E5, ?E6, ?E7. other_suffixes "_PRESSURE" E4. simpl.
        split_and!; try done. by left. }
      destruct (endswith "WIFI_SIGNAL" k) eqn:E5.
      { other_suffixes "WIFI_SIGNAL" E5. sensor_one Hd.
        rewrite ?E2, ?E3, ?E4, ?E5, ?E6, ?E7. other_suffixes "WIFI_SIGNAL" E5. simpl.
        split_and!; try done. by do 2 right. }
      destruct (endswith "WIFI__SIGNAL" k) eqn:E6.
      { other_suffixes "WIFI__SIGNAL" E6. sensor_one Hd.
        rewrite ?E2, ?E3, ?E4, ?E5, ?E6, ?E7. other_suffixes "WIFI__SIGNAL" E6. simpl.
        split_and!; try done. by do 2 right. }
      destruct (endswith "_FAULT_CODE" k) eqn:E7.
      { other_suffixes "_FAULT_CODE" E7. sensor_one Hd.
        rewrite ?E2, ?E3, ?E4, ?E5, ?E6, ?E7. other_suffixes "_FAULT_CODE" E7. simpl.
        split_and!; try done. by left. }
      destruct (String.eqb k "PARAM_ID_BOILER_OT_SLAVE_STATUS") eqn:E8.
      { pose proof (eqb_endswith _ _ E8) as H.
        other_suffixes "PARAM_ID_BOILER_OT_SLAVE_STATUS" H. sensor_one Hd.
        rewrite E2, E3, E4. simpl. apply String.eqb_eq in E8. subst k.
        split_and!; try done. right. left. compute_done. }
      destruct (String.eqb k "PARAM_ID_SYS_SOFT_VER") eqn:E9.
      { sensor_one Hd. rewrite E2, E3, E4. simpl. apply String.eqb_eq in E9. subst k.
        split_and!; try done. right. left. compute_done. }
      simpl. repeat mstep. done.
    + exact Hl1.
    + apply dict_items_NoDup.
    + intros k d Hin. apply dict_items_lookup in Hin. split; [done|].
      apply lookup_delete_Some in Hin as [_ Hin]. done.
  - intros l m' [Hall _]. exact Hall.
Qed.

Lemma claimed_Some (m m' : dict) ks k d : claimed m ks m' → m' !! k = Some d → m !! k = Some d.
Proof using Type.
  intros (_ & _ & Hl) Hk. rewrite Hl in Hk. by destruct (bool_decide (k ∈ ks)).
Qed.

Lemma sensors_data_by_suffix (self self' : SmartDevice) :
  parse_data_points self = (Ok tt, self') →
  Forall (sensor_by_suffix (data_points self)) (sensors_data self').
Proof.
  intros Hparse.
  destruct (parse_data_points_at Sensors self self' Hparse)
    as (self1 & self2 & Hrun & Hpass & Hf).
  destruct (run_until_claimed Sensors self) as ([] & s & Hrun' & Hc & _).
  rewrite Hrun in Hrun'. injection Hrun' as <-.
  apply run_pass_inv in Hpass as [m' Hget].
  destruct (get_sensors_data_by_suffix (unknown_points self1)) as (l & m'' & Hget' & Hall).
  rewrite Hget in Hget'. injection Hget' as <- _.
  destruct Hf as (_ & _ & Hf). rewrite (Hf Sensors) by compute_done.
  eapply Forall_impl; [exact Hall|].
  intros x (Hx & Hrest). split; [|exact Hrest].
  by apply (claimed_Some _ _ _ _ _ Hc).
Qed.

(** ** The water heaters *)

Lemma forallb_contains_false (m : dict) ks :
  forallb (λ k, contains k m) ks = false → ¬ ∀ k, k ∈ ks → is_Some (m !! k).
Proof using Type.
  intros Hf Hall. by rewrite (forallb_contains m ks Hall) in Hf.
Qed.

Lemma get_water_heaters_of (m : dict) :
  returns get_water_heaters m (λ l _, water_heaters_of m l).
Proof using Type.
  pose proof (claimed_nil m) as Hc. unfold get_water_heaters. do 3 mstep.
  destruct (forallb _ ch_keys) eqn:Hch.
  - pose proof Hch as Hch'. simpl in Hch.
    repeat (apply andb_true_iff in Hch as [?%contains_true Hch]).
    repeat match goal with H : is_Some _ |- _ => destruct H end.
    do 4 (mstep; pop_claimed Hc). simpl in Hc. repeat mstep.
    destruct (forallb _ dhw_keys) eqn:Hdhw.
    + simpl in Hdhw. rewrite !(claimed_contains m _ _ _ Hc) in Hdhw by compute_done.
      repeat (apply andb_true_iff in Hdhw as [?%is_Some_lookup Hdhw]).
      repeat match goal with H : ∃ _, _ |- _ => destruct H end.
      do 4 (mstep; pop_claimed Hc). repeat mstep. simpl.
      split_and!; [| | |done].
      * intros _. eexists _, _, _, _. split_and!; [done..|]. apply list_elem_of_here.
      * intros _. eexists _, _, _, _. split_and!; [done..|].
        apply list_elem_of_further, list_elem_of_here.
      * intros w Hw. repeat (apply elem_of_cons in Hw as [->|Hw]);
          [left|right|by apply elem_of_nil in Hw]; eexists _, _, _, _; (split; [done|]);
          intros k Hk; unfold ch_keys, dhw_keys in Hk;
          repeat (apply elem_of_cons in Hk as [->|Hk]; [eauto|]);
          by apply elem_of_nil in Hk.
    + repeat mstep. simpl.
      assert (¬ ∀ k, k ∈ dhw_keys → is_Some (m !! k)) as Hno.
      { intros Hall. apply (forallb_contains m) in Hall. simpl in Hall, Hdhw.
        rewrite !(claimed_contains m _ _ _ Hc) in Hdhw by compute_done.
        unfold contains in Hall. congruence. }
      split_and!; [|by intros ?| |simpl; lia].
      * intros _. eexists _, _, _, _. split_and!; [done..|]. apply list_elem_of_here.
      * intros w Hw. apply list_elem_of_singleton in Hw as ->. left.
        eexists _, _, _, _. split; [done|].
        intros k Hk. unfold ch_keys in Hk.
        repeat (apply elem_of_cons in Hk as [->|Hk]; [eauto|]).
        by apply elem_of_nil in Hk.
  - apply forallb_contains_false in Hch. repeat mstep.
    destruct (forallb _ dhw_keys) eqn:Hdhw.
    + simpl in Hdhw.
      repeat (apply andb_true_iff in Hdhw as [?%contains_true Hdhw]).
      repeat match goal with H : is_Some _ |- _ => destruct H end.
      do 4 (mstep; pop_claimed Hc). repeat mstep. simpl.
      split_and!; [by intros ?| | |simpl; lia].
      * intros _. eexists _, _, _, _. split_and!; [done..|]. apply list_elem_of_here.
      * intros w Hw. apply list_elem_of_singleton in Hw as ->. right.
        eexists _, _, _, _. split; [done|].
        intros k Hk. unfold dhw_keys in Hk.
        repeat (apply elem_of_cons in Hk as [->|Hk]; [eauto|]).
        by apply elem_of_nil in Hk.
    + apply forallb_contains_false in Hdhw. repeat mstep. simpl.
      split_and!; [by intros ?|by intros ?| |simpl; lia]. by intros w ?%elem_of_nil.
Qed.

Lemma water_heaters_at (self self' : SmartDevice) :
  parse_data_points self = (Ok tt, self') →
  water_heaters_of (data_points self) (water_heaters self').
Proof using Type.
  intros Hparse.
  destruct (parse_data_points_at WaterHeaters self self' Hparse)
    as (self1 & self2 & Hrun & Hpass & Hf).
  apply run_pass_inv in Hpass as [m' Hget].
  destruct (get_water_heaters_of (unknown_points self1)) as (l & m'' & Hget' & Hall).
  rewrite Hget in Hget'. injection Hget' as <- _.
  destruct Hf as (_ & _ & Hf). rewrite (Hf WaterHeaters) by compute_done.
  injection Hrun as <-. by destruct self.
Qed.

Lemma get_water_heaters_for (m : dict) :
  returns get_water_heaters m (λ l _, l = water_heaters_for m).
Proof using Type.
  pose proof (claimed_nil m) as Hc. unfold get_water_heaters, water_heaters_for, complete.
  do 3 mstep.
  destruct (forallb _ ch_keys) eqn:Hch.
  - simpl in Hch.
    repeat (apply andb_true_iff in Hch as [?%contains_true Hch]).
    repeat match goal with H : is_Some _ |- _ => destruct H end.
    do 4 (mstep; pop_claimed Hc). simpl in Hc. repeat mstep.
    simpl forallb. rewrite !(claimed_contains m _ _ _ Hc) by compute_done.
    unfold contains.
    destruct (bool_decide _ && _) eqn:Hdhw.
    + repeat (apply andb_true_iff in Hdhw as [?%is_Some_lookup Hdhw]).
      repeat match goal with H : ∃ _, _ |- _ => destruct H end.
      do 4 (mstep; pop_claimed Hc). repeat mstep. simpl.
      repeat match goal with H : m !! _ = Some _ |- _ => rewrite H; clear H end.
      done.
    + repeat mstep. simpl.
      repeat match goal with H : m !! _ = Some _ |- _ => rewrite H; clear H end.
      done.
  - repeat mstep. simpl forallb. unfold contains.
    destruct (bool_decide _ && _) eqn:Hdhw.
    + repeat (apply andb_true_iff in Hdhw as [?%is_Some_lookup Hdhw]).
      repeat match goal with H : ∃ _, _ |- _ => destruct H end.
      do 4 (mstep; pop_claimed Hc). repeat mstep. simpl.
      repeat match goal with H : m !! _ = Some _ |- _ => rewrite H; clear H end.
      done.
    + repeat mstep. done.
Qed.

Lemma water_heaters_exactly (self self' : SmartDevice) :
  parse_data_points self = (Ok tt, self') →
  water_heaters self' = water_heaters_for (data_points self).
Proof using Type.
  intros Hparse.
  destruct (parse_data_points_at WaterHeaters self self' Hparse)
    as (self1 & self2 & Hrun & Hpass & Hf).
  apply run_pass_inv in Hpass as [m' Hget].
  destruct (get_water_heaters_for (unknown_points self1)) as (l & m'' & Hget' & Hall).
  rewrite Hget in Hget'. injection Hget' as <- _.
  destruct Hf as (_ & _ & Hf). rewrite (Hf WaterHeaters) by compute_done.
  injection Hrun as <-. by destruct self.
Qed.

(** ** The thermostat *)

Lemma get_climate_data_of (m : dict) :
  returns get_climate_data m (λ l _, thermostat_of m l).
Proof using Type.
  pose proof (claimed_nil m) as Hc. unfold get_climate_data. do 3 mstep.
  destruct (forallb _ thermostat_keys) eqn:Hth.
  - simpl in Hth.
    repeat (apply andb_true_iff in Hth as [?%contains_true Hth]).
    repeat match goal with H : is_Some _ |- _ => destruct H end.
    do 3 (mstep; pop_claimed Hc). repeat mstep. simpl. split.
    + intros _. eexists _, _, _. by split_and!.
    + intros Hno. exfalso. apply Hno. intros k Hk. unfold thermostat_keys in Hk.
      repeat (apply elem_of_cons in Hk as [->|Hk]; [eauto|]). by apply elem_of_nil in Hk.
  - apply forallb_contains_false in Hth. repeat mstep. simpl. split; [by intros ?|done].
Qed.

Lemma climate_data_at (self self' : SmartDevice) :
  parse_data_points self = (Ok tt, self') →
  thermostat_of (data_points self) (climate_data self').
Proof.
  intros Hparse.
  destruct (parse_data_points_at Climate self self' Hparse)
    as (self1 & self2 & Hrun & Hpass & Hf).
  destruct (run_until_claimed Climate self) as ([] & s & Hrun' & Hc & Hg & _).
  rewrite Hrun in Hrun'. injection Hrun' as <-.
  assert (∀ k, k ∈ thermostat_keys → unknown_points self1 !! k = data_points self !! k)
    as Hsame.
  { intros k Hk. apply (claimed_lookup _ _ _ _ Hc). intros Hin.
    rewrite Forall_forall in Hg. specialize (Hg k Hin). unfold thermostat_keys in Hk.
    repeat (apply elem_of_cons in Hk as [->|Hk]; [by vm_compute in Hg|]).
    by apply elem_of_nil in Hk. }
  apply run_pass_inv in Hpass as [m' Hget].
  destruct (get_climate_data_of (unknown_points self1)) as (l & m'' & Hget' & H1 & H2).
  rewrite Hget in Hget'. injection Hget' as <- _.
  destruct Hf as (_ & _ & Hf). rewrite (Hf Climate) by compute_done.
  split.
  - intros Hall. destruct H1 as (d1 & d2 & d3 & Hd1 & Hd2 & Hd3 & Heq).
    { intros k Hk. rewrite (Hsame k Hk). by apply Hall. }
    exists d1, d2, d3. rewrite <- !Hsame by compute_done. done.
  - intros Hno. apply H2. intros Hall. apply Hno. intros k Hk.
    rewrite <- (Hsame k Hk). by apply Hall.
Qed.

(** ** Every group holds the keys of its rule only *)

Lemma pass_keys_rule p (self self' : SmartDevice) k :
  parse_data_points self = (Ok tt, self') → k ∈ pass_keys p self' → rule_keys p k = true.
Proof.
  intros Hparse Hk.
  destruct (decide (p = RemoveUnsupported)) as [->|Hp]; [by apply elem_of_nil in Hk|].
  destruct (parse_data_points_at p self self' Hparse)
    as (self1 & self2 & Hrun & Hpass & Hf).
  destruct (run_pass_group_rule p self1) as ([] & s & Hpass' & _ & Hrule & _).
  { by destruct p. }
  rewrite Hpass in Hpass'. injection Hpass' as <-.
  rewrite (pass_keys_frame p _ _ _ Hf) in Hk by (destruct p; compute_done).
  rewrite Forall_forall in Hrule. by apply Hrule.
Qed.

Lemma NoDup_concat {A} (ls : list (list A)) :
  NoDup (concat ls) → ∀ l, l ∈ ls → NoDup l.
Proof using Type.
  induction ls as [|l' ls IH]; simpl; intros Hnd l Hl; [by apply elem_of_nil in Hl|].
  apply NoDup_app in Hnd as (Hl' & _ & Hnd).
  apply elem_of_cons in Hl as [->|Hl]; [done|by apply IH].
Qed.

Lemma group_keys_pass (self : SmartDevice) k :
  k ∈ group_keys self → ∃ p, k ∈ pass_keys p self.
Proof using Type.
  rewrite group_keys_passes. intros (l & Hl & Hk)%elem_of_concat.
  apply list_elem_of_fmap in Hl as (p & -> & _). by exists p.
Qed.

Lemma complete_true (ks : list string) (m : dict) :
  complete ks m = true ↔ ∀ k, k ∈ ks → is_Some (m !! k).
Proof using Type.
  split; [|apply forallb_contains].
  intros Hc k Hk. unfold complete in Hc. rewrite forallb_forall in Hc.
  apply contains_true, Hc. by apply list_elem_of_In.
Qed.

(** * The classifier, key by key *)

(** When classification returns, every key of the snapshot that passes a
    test of the sensor loop is claimed by the sensor group, unless one of
    the five groups before it claimed it; every key that passes a test of
    the binary-sensor loop is claimed by the binary-sensor group, unless
    one of the six groups before it claimed it.  Such a key is never
    residual. *)
Theorem suffix_keys_classified (self self' : SmartDevice) k :
  parse_data_points self = (Ok tt, self') → is_Some (data_points self !! k) →
  (sensor_key k = true →
     k ∈ map (λ x, fst (SensorData.data_point x)) (sensors_data self')
     ∨ ∃ q, q ∈ [WaterHeaters; Climate; Select; Switches; Numbers]
            ∧ k ∈ pass_keys q self')
  ∧ (binary_sensor_key k = true →
       k ∈ map (λ x, fst (SensorData.data_point x)) (binary_sensors_data self')
       ∨ ∃ q, q ∈ [WaterHeaters; Climate; Select; Switches; Numbers; Sensors]
              ∧ k ∈ pass_keys q self')
  ∧ (sensor_key k || binary_sensor_key k = true →
       k ∈ group_keys self' ∧ unknown_points self' !! k = None).
Proof.
  intros Hparse Hin.
  pose proof (sensor_key_claimed self self' k Hparse Hin) as Hs.
  pose proof (binary_sensor_key_claimed self self' k Hparse Hin) as Hb.
  split; [exact Hs|]. split; [exact Hb|].
  intros Hk. assert (k ∈ group_keys self') as Hg.
  { apply orb_true_iff in Hk as [Hk|Hk].
    - destruct (Hs Hk) as [H|(q & _ & H)]; by eapply pass_keys_group_keys.
    - destruct (Hb Hk) as [H|(q & _ & H)]; by eapply pass_keys_group_keys. }
  split; [done|].
  apply classified_lookup in Hparse as (_ & _ & _ & Hl).
  by rewrite Hl, (bool_decide_eq_true_2 _ Hg).
Qed.

(** When classification returns, each of the four keys that a rule tests
    by name, if the snapshot has it, gets the descriptor of that rule:
    the select "Work Mode", the switches "Domestic Water Heating Program"
    and "Auto Time Sync", the number "Poweroff Froze Temperature" from 5
    to 15 in steps of 0.5.  None of them becomes a sensor or a binary
    sensor, whatever its suffix, and none stays residual or is dropped
    for its prefix. *)
Theorem single_key_rules (self self' : SmartDevice) :
  parse_data_points self = (Ok tt, self') →
  (∀ d, data_points self !! "SYS_WORK_MODE" = Some d →
     ∃ x, x ∈ select_data self' ∧ SelectData.data_point x = ("SYS_WORK_MODE", d)
          ∧ SelectData.name x = "Work Mode")
  ∧ (∀ d, data_points self !! "PARAM_ID_BOILER_DHW_PRO_EN" = Some d →
       ∃ x, x ∈ switches_data self'
            ∧ SwitchData.data_point x = ("PARAM_ID_BOILER_DHW_PRO_EN", d)
            ∧ SwitchData.name x = "Domestic Water Heating Program")
  ∧ (∀ d, data_points self !! "PARAM_ID_SYS_DST_ENABLE" = Some d →
       ∃ x, x ∈ switches_data self'
            ∧ SwitchData.data_point x = ("PARAM_ID_SYS_DST_ENABLE", d)
            ∧ SwitchData.name x = "Auto Time Sync")
  ∧ (∀ d, data_points self !! "PARAM_ID_TH_POWEROFF_FROZE_TEMP" = Some d →
       ∃ x, x ∈ numbers_data self'
            ∧ NumberData.data_point x = ("PARAM_ID_TH_POWEROFF_FROZE_TEMP", d)
            ∧ NumberData.name x = "Poweroff Froze Temperature"
            ∧ NumberData.min_value x = Some 5%Q ∧ NumberData.max_value x = Some 15%Q
            ∧ NumberData.step_value x = Some (1 # 2)%Q
            ∧ NumberData.unit_of_measurement x = Some CELSIUS)
  ∧ ∀ k, k ∈ [ "SYS_WORK_MODE"; "PARAM_ID_BOILER_DHW_PRO_EN"; "PARAM_ID_SYS_DST_ENABLE";
               "PARAM_ID_TH_POWEROFF_FROZE_TEMP" ] →
         is_Some (data_points self !! k) →
         (k ∉ map (λ x, fst (SensorData.data_point x)) (sensors_data self'))
         ∧ (k ∉ map (λ x, fst (SensorData.data_point x)) (binary_sensors_data self'))
         ∧ unknown_points self' !! k = None.
Proof.
  intros Hparse.
  split; [intros d; by apply work_mode_select|].
  split; [intros d; by apply program_switch|].
  split; [intros d; by apply time_sync_switch|].
  split; [intros d; by apply froze_number|].
  intros k Hk Hin.
  pose proof (classified_lookup self self' Hparse) as (Hnd & _ & _ & Hl).
  destruct (single_key_claimed self self' k Hparse Hk Hin) as (p & Hp & Hkp).
  split; [|split].
  - intros Hs. pose proof (group_keys_unique self' p Sensors k Hnd Hkp Hs) as ->.
    revert Hp. compute_done.
  - intros Hs. pose proof (group_keys_unique self' p BinarySensors k Hnd Hkp Hs) as ->.
    revert Hp. compute_done.
  - rewrite Hl, (bool_decide_eq_true_2 (k ∈ group_keys self')); [done|].
    by apply (pass_keys_group_keys p).
Qed.

(** When classification returns, every descriptor of [sensors_data]
    refers to the data point that the snapshot holds under its key, a key
    that passes a test of the sensor pass, and has the device class, the
    unit and the state class of the suffix of that key: degrees Celsius
    for "_TEMP", litres per second for "_RATE", bar for "_PRESSURE", no
    unit otherwise.  No two descriptors have the same key. *)
Theorem sensors_by_suffix (self self' : SmartDevice) :
  parse_data_points self = (Ok tt, self') →
  Forall (sensor_by_suffix (data_points self)) (sensors_data self')
  ∧ Forall (λ x, sensor_key (fst (SensorData.data_point x)) = true) (sensors_data self')
  ∧ NoDup (map (λ x, fst (SensorData.data_point x)) (sensors_data self')).
Proof.
  intros Hparse. split; [by apply sensors_data_by_suffix|]. split.
  - apply Forall_forall. intros x Hx.
    assert (rule_keys Sensors (fst (SensorData.data_point x)) = true) as Hr.
    { apply (pass_keys_rule Sensors self self' _ Hparse). simpl.
      apply list_elem_of_fmap. by exists x. }
    simpl in Hr. apply orb_true_iff in Hr as [Hr|Hr]; [|done].
    apply String.eqb_eq in Hr. by rewrite Hr.
  - apply classified_lookup in Hparse as (Hnd & _). rewrite group_keys_passes in Hnd.
    apply (NoDup_concat _ Hnd (pass_keys Sensors self')).
    apply list_elem_of_fmap. exists Sensors. split; [done|compute_done].
Qed.

(** When classification returns, [water_heaters] is the list that the
    snapshot calls for and nothing else: the heating water heater, if the
    snapshot has the five heating keys, then the sanitary one, if it has
    the four sanitary keys, each on the points of its own four keys.  The
    heating target temperature is a condition of the heating water heater
    but not one of its points: it goes to the sensor group. *)
Theorem water_heaters_wiring (self self' : SmartDevice) :
  parse_data_points self = (Ok tt, self') →
  water_heaters self' = water_heaters_for (data_points self)
  ∧ (is_Some (data_points self !! "PARAM_ID_BOILER_CH_TRG_TEMP") →
       "PARAM_ID_BOILER_CH_TRG_TEMP"
         ∈ map (λ x, fst (SensorData.data_point x)) (sensors_data self')
       ∧ "PARAM_ID_BOILER_CH_TRG_TEMP"
           ∉ concat (map WaterHeaterData.keys (water_heaters self'))).
Proof.
  intros Hparse. split; [by apply water_heaters_exactly|]. intros Hin. split.
  - destruct (sensor_key_claimed self self' _ Hparse Hin eq_refl)
      as [H|(q & Hq & Hkq)]; [done|].
    apply (pass_keys_rule q self self' _ Hparse) in Hkq.
    revert Hq Hkq. destruct q; compute_done.
  - intros Hk. by apply (pass_keys_rule WaterHeaters self self' _ Hparse) in Hk.
Qed.

(** When classification returns, [climate_data] holds one thermostat, on
    the points of the three thermostat keys, when the snapshot has all
    three, and nothing otherwise; in that case the room temperatures that
    the snapshot has go to the sensor group and the work mode stays
    residual. *)
Theorem thermostat_all_or_nothing (self self' : SmartDevice) :
  parse_data_points self = (Ok tt, self') →
  thermostat_of (data_points self) (climate_data self')
  ∧ ((¬ ∀ k, k ∈ thermostat_keys → is_Some (data_points self !! k)) →
       (∀ k, k ∈ ["PARAM_ID_TH_CUR_ROOM_TEMP"; "PARAM_ID_TH_TRG_ROOM_TEMP"] →
             is_Some (data_points self !! k) →
             k ∈ map (λ x, fst (SensorData.data_point x)) (sensors_data self'))
       ∧ unknown_points self' !! "PARAM_ID_TH_WORK_MODE"
         = data_points self !! "PARAM_ID_TH_WORK_MODE").
Proof.
  intros Hparse. pose proof (climate_data_at self self' Hparse) as Hth.
  split; [done|]. intros Hno. destruct Hth as [_ Hnil]. specialize (Hnil Hno).
  assert (∀ k, k ∈ thermostat_keys → k ∉ group_keys self'
               ∨ k ∈ pass_keys Sensors self') as Hfree.
  { intros k Hk. destruct (decide (k ∈ group_keys self')) as [Hg|]; [|by left].
    apply group_keys_pass in Hg as [p Hp].
    pose proof (pass_keys_rule p self self' k Hparse Hp) as Hr.
    unfold thermostat_keys in Hk.
    repeat (apply elem_of_cons in Hk as [->|Hk]);
      [| | |by apply elem_of_nil in Hk];
      (destruct p; try (by vm_compute in Hr); try (by right));
      simpl in Hp; rewrite Hnil in Hp; by apply elem_of_nil in Hp. }
  split.
  - intros k Hk Hin.
    assert (sensor_key k = true) as Hs.
    { repeat (apply elem_of_cons in Hk as [->|Hk]; [done|]). by apply elem_of_nil in Hk. }
    assert (k ∈ thermostat_keys) as Hk'.
    { repeat (apply elem_of_cons in Hk as [->|Hk]; [compute_done|]).
      by apply elem_of_nil in Hk. }
    destruct (sensor_key_claimed self self' k Hparse Hin Hs) as [H|(q & _ & Hq)]; [done|].
    destruct (Hfree k Hk') as [Hg|H]; [|done].
    destruct Hg. by apply (pass_keys_group_keys q).
  - pose proof (classified_lookup self self' Hparse) as (_ & _ & _ & Hl). rewrite Hl.
    destruct (Hfree "PARAM_ID_TH_WORK_MODE") as [Hg|Hs]; [compute_done| |].
    + by rewrite (bool_decide_eq_false_2 _ Hg).
    + exfalso. simpl in Hs.
      pose proof (pass_keys_rule Sensors self self' _ Hparse Hs) as Hr. by vm_compute in Hr.
Qed.

(** When classification returns, the snapshot alone tells where each of
    its keys went.  The keys in the groups are those that pass a test of
    the sensor or the binary-sensor loop, the four keys that a rule tests
    by name, and the keys of a water heater or of the thermostat whose
    whole key set is in the snapshot.  The residual keys are all the
    others, apart from the two keys popped by name and the keys with a
    pruned prefix. *)
Theorem classification_by_key (self self' : SmartDevice) k :
  parse_data_points self = (Ok tt, self') →
  (k ∈ group_keys self'
   ↔ is_Some (data_points self !! k) ∧ grouped (data_points self) k = true)
  ∧ unknown_points self' !! k
    = if grouped (data_points self) k || bool_decide (k ∈ unsupported_keys)
         || startswith_any unsupported_prefixes k
      then None else data_points self !! k.
Proof.
  intros Hparse.
  pose proof (classified_lookup self self' Hparse) as (Hnd & Hgk & _ & Hl).
  pose proof (water_heaters_at self self' Hparse) as (Hch & Hdhw & Hwh & _).
  pose proof (climate_data_at self self' Hparse) as (Hth & Hnoth).
  assert (k ∈ group_keys self'
          ↔ is_Some (data_points self !! k) ∧ grouped (data_points self) k = true) as Hiff.
  { split.
    - intros Hg. split; [by apply Hgk|].
      apply group_keys_pass in Hg as [p Hp].
      pose proof (pass_keys_rule p self self' k Hparse Hp) as Hr.
      unfold grouped. rewrite !orb_true_iff, !andb_true_iff.
      destruct p; simpl in Hr, Hp.
      + apply elem_of_concat in Hp as (l & Hlw & Hkl).
        apply list_elem_of_fmap in Hlw as (w & -> & Hw).
        destruct (Hwh w Hw) as [(d1 & d2 & d3 & d4 & -> & Hall)|(d1 & d2 & d3 & d4 & -> & Hall)].
        * left. left. right. split; [by apply bool_decide_eq_true|by apply complete_true].
        * left. right. split; [|by apply complete_true]. apply bool_decide_eq_true.
          simpl in Hkl. unfold dhw_keys.
          repeat (apply elem_of_cons in Hkl as [->|Hkl]; [compute_done|]).
          by apply elem_of_nil in Hkl.
      + right. split; [done|]. destruct (complete thermostat_keys _) eqn:Hc; [done|].
        rewrite Hnoth in Hp; [by apply elem_of_nil in Hp|].
        intros Hall. pose proof (proj2 (complete_true _ _) Hall). congruence.
      + apply String.eqb_eq in Hr as ->. do 3 left. right. compute_done.
      + apply bool_decide_eq_true in Hr. do 3 left. right. apply bool_decide_eq_true.
        repeat (apply elem_of_cons in Hr as [->|Hr]; [compute_done|]).
        by apply elem_of_nil in Hr.
      + apply String.eqb_eq in Hr as ->. do 3 left. right. compute_done.
      + do 5 left. apply orb_true_iff in Hr as [Hr|Hr]; [|done].
        by apply String.eqb_eq in Hr as ->.
      + do 4 left. by right.
      + by apply elem_of_nil in Hp.
    - intros [Hin Hg]. unfold grouped in Hg. rewrite !orb_true_iff, !andb_true_iff in Hg.
      destruct Hg as [[[[[Hs|Hb]|H1]|[H4 Hc]]|[H5 Hc]]|[H6 Hc]].
      + destruct (sensor_key_claimed self self' k Hparse Hin Hs) as [H|(q & _ & H)];
          by eapply pass_keys_group_keys.
      + destruct (binary_sensor_key_claimed self self' k Hparse Hin Hb) as [H|(q & _ & H)];
          by eapply pass_keys_group_keys.
      + apply bool_decide_eq_true in H1.
        destruct (single_key_claimed self self' k Hparse H1 Hin) as (p & _ & Hp).
        by eapply pass_keys_group_keys.
      + apply bool_decide_eq_true in H4. pose proof (proj1 (complete_true _ _) Hc) as Hall.
        destruct (Hch Hall) as (d1 & d2 & d3 & d4 & _ & _ & _ & _ & Hw).
        apply (pass_keys_group_keys WaterHeaters). simpl. apply elem_of_concat.
        eexists. split; [apply list_elem_of_fmap; eexists; split; [reflexivity|exact Hw]|].
        exact H4.
      + apply bool_decide_eq_true in H5. pose proof (proj1 (complete_true _ _) Hc) as Hall.
        destruct (Hdhw Hall) as (d1 & d2 & d3 & d4 & _ & _ & _ & _ & Hw).
        apply (pass_keys_group_keys WaterHeaters). simpl. apply elem_of_concat.
        eexists. split; [apply list_elem_of_fmap; eexists; split; [reflexivity|exact Hw]|].
        simpl. unfold dhw_keys in H5.
        repeat (apply elem_of_cons in H5 as [->|H5]; [compute_done|]).
        by apply elem_of_nil in H5.
      + apply bool_decide_eq_true in H6. pose proof (proj1 (complete_true _ _) Hc) as Hall.
        destruct (Hth Hall) as (d1 & d2 & d3 & _ & _ & _ & Heq).
        apply (pass_keys_group_keys Climate). simpl. by rewrite Heq. }
  split; [done|]. rewrite Hl.
  destruct (grouped (data_points self) k) eqn:Hg.
  - destruct (data_points self !! k) as [d|] eqn:Hm.
    + rewrite bool_decide_eq_true_2; [done|]. apply Hiff. split; [by exists d|done].
    + simpl. by destruct (_ || _ || _).
  - rewrite bool_decide_eq_false_2; [done|]. intros Hin%Hiff. destruct Hin; congruence.
Qed.

(** * Further properties of the data points *)

(** ** Registering and removing listeners *)

(** What a loop of calls leaves: the log grows by the calls made, a
    prefix of the list, and nothing else changes. *)
Lemma for_each_call_log {X} (l : list positive) (x : X) calls r x' calls' :
  for_each l call (x, calls) = (r, (x', calls')) →
  x' = x ∧ ∃ l1 l2, l = l1 ++ l2 ∧ calls' = calls ++ l1.
Proof using Type.
  revert calls. induction l as [|c l IH]; intros calls Heq.
  - injection Heq as <- <- <-. split; [done|]. exists [], []. split; [done|by rewrite app_nil_r].
  - rewrite for_each_cons in Heq. unfold bind, call at 1 in Heq.
    destruct (callback c) as [[]|e].
    + apply IH in Heq as (-> & l1 & l2 & -> & ->). split; [done|].
      exists (c :: l1), l2. split; [done|by rewrite <- app_assoc].
    + injection Heq as <- <- <-. split; [done|]. by exists [c], l.
Qed.

(** Registering a callback that is registered already changes nothing:
    when no callback raises, [update_value] invokes every registered
    callback once, however often it was registered. *)
Theorem add_listener_once (data : pyval) (dp : SmartDeviceDataPoint) c calls :
  (∀ c', c' = c ∨ c' ∈ _listener dp → callback c' = Ok tt) →
  add_listener c (add_listener c dp) = add_listener c dp
  ∧ ∃ l, update_value data (add_listener c dp, calls)
         = (Ok tt, (with_value data (add_listener c dp), calls ++ l))
       ∧ NoDup l ∧ ∀ c', c' ∈ l ↔ c' = c ∨ c' ∈ _listener dp.
Proof.
  intros Hok. split.
  - unfold add_listener, with_listener. simpl. f_equal.
    apply set_eq. intros c'. rewrite !elem_of_union, elem_of_singleton.
    by intros; split; [intros [?|[?|?]]|intros [?|?]]; auto.
  - exists (set_iter (_listener (add_listener c dp))). split; [|split].
    + apply update_value_returns. intros c' Hc'. apply Hok.
      simpl in Hc'. apply elem_of_union in Hc' as [Hc'|Hc']; [left|by right].
      by apply elem_of_singleton in Hc'.
    + rewrite (set_iter_perm _). apply NoDup_elements.
    + intros c'. rewrite (set_iter_perm _), elem_of_elements. simpl.
      by rewrite elem_of_union, elem_of_singleton.
Qed.

(** After [remove_listener], [update_value] does not invoke the callback,
    whatever the other callbacks do; removing a callback that is not
    registered changes nothing. *)
Theorem remove_listener_silent (data : pyval) (dp : SmartDeviceDataPoint) c calls
    r dp' calls' :
  update_value data (remove_listener c dp, calls) = (r, (dp', calls')) →
  (∃ l, calls' = calls ++ l ∧ c ∉ l)
  ∧ dp' = with_value data (remove_listener c dp)
  ∧ (c ∉ _listener dp → remove_listener c dp = dp).
Proof.
  intros Hup. rewrite update_value_eq in Hup.
  apply for_each_call_log in Hup as (-> & l1 & l2 & Hl & ->).
  split; [|split; [done|]].
  - exists l1. split; [done|]. intros Hc.
    assert (c ∈ set_iter (_listener (remove_listener c dp))) as Hin.
    { rewrite Hl, elem_of_app. by left. }
    rewrite (set_iter_perm _), elem_of_elements in Hin. simpl in Hin.
    apply elem_of_difference in Hin as [_ Hin]. apply Hin. by apply elem_of_singleton.
  - intros Hc. destruct dp as [i n t v L]. unfold remove_listener, with_listener. simpl in *.
    f_equal. apply set_eq. intros c'. rewrite elem_of_difference, elem_of_singleton.
    split; [by intros [? _]|]. intros Hc'. split; [done|]. by intros ->.
Qed.

(** ** The codec, type by type *)

Section CodecProperties.

Variable int_of_str : string → result Z.
Variable float_of_str : string → result float.

(** The types without a conversion: 8 and every type that the two
    [match] statements do not name. *)
Lemma get_value_as_is (dp : SmartDeviceDataPoint) :
  point_type dp ∉ [1; 2; 7] → get_value int_of_str float_of_str dp = Ok (value dp).
Proof using Type.
  intros Ht. unfold get_value.
  destruct (point_type dp) as [|p|p]; try reflexivity;
    do 4 (try (destruct p as [p|p|]; try reflexivity));
    exfalso; apply Ht; compute_done.
Qed.

Lemma set_value_as_is (dp : SmartDeviceDataPoint) v :
  point_type dp ∉ [1; 2; 7] →
  set_value int_of_str v dp
  = (Ok (mkCommand (index dp) (point_type dp) 0 v), with_value v dp).
Proof using Type.
  intros Ht. destruct dp as [i n t v0 L]. unfold set_value, bind, get, modify, ret.
  simpl in *.
  destruct t as [|p|p]; try reflexivity;
    do 4 (try (destruct p as [p|p|]; try reflexivity));
    exfalso; apply Ht; compute_done.
Qed.

Lemma with_value_id (dp : SmartDeviceDataPoint) : with_value (value dp) dp = dp.
Proof using Type. by destruct dp. Qed.

(** Writing back what was read changes nothing: for a point that holds
    an integer wire value, from -1000 to 1000 if the point has type 2,
    [get_value] returns, and [set_value] of the value read stores the same
    wire value again and sends it. *)
Theorem set_value_of_get_value (dp : SmartDeviceDataPoint) (k : Z) :
  value dp = PInt k → (point_type dp = 2 → (-1000 ≤ k ≤ 1000)%Z) →
  ∃ v, get_value int_of_str float_of_str dp = Ok v
       ∧ set_value int_of_str v dp
         = (Ok (mkCommand (index dp) (point_type dp) 0 (PInt k)), dp)
       ∧ (point_type dp = 2 → v = PFloat (one_decimal k))
       ∧ (point_type dp ≠ 2 → v = PInt k).
Proof using Type.
  intros Hv Hk.
  destruct (decide (point_type dp ∈ [1; 2; 7])) as [Ht|Ht].
  - repeat (apply elem_of_cons in Ht as [Ht|Ht]); [| | |by apply elem_of_nil in Ht].
    + exists (PInt k). unfold get_value, set_value, bind, get, modify, lift, ret.
      rewrite Ht, Hv. simpl. rewrite <- Hv, with_value_id.
      unfold send_data_point_update. rewrite Ht, Hv. split_and!; try done; congruence.
    + destruct (one_decimal_codec k (Hk Ht)) as (Hint & Hfloat & _).
      exists (PFloat (one_decimal k)).
      unfold get_value, set_value, bind, get, modify, lift, ret.
      rewrite Ht, Hv. simpl. rewrite Hfloat, Hint. rewrite <- Hv, with_value_id.
      unfold send_data_point_update. rewrite Ht, Hv. split_and!; try done; congruence.
    + exists (PInt k). unfold get_value, set_value, bind, get, modify, lift, ret.
      rewrite Ht, Hv. simpl. rewrite <- Hv, with_value_id.
      unfold send_data_point_update. rewrite Ht, Hv. split_and!; try done; congruence.
  - exists (PInt k). rewrite (get_value_as_is dp Ht), (set_value_as_is dp _ Ht), Hv.
    rewrite <- Hv, with_value_id, Hv. split_and!; try done.
    intros H2. destruct Ht. rewrite H2. compute_done.
Qed.

(** What [set_value] leaves: the command of the value stored, or the
    data point as it was. *)
Lemma set_value_leaves (dp : SmartDeviceDataPoint) v :
  match set_value int_of_str v dp with
  | (Ok c, dp') => c = send_data_point_update dp' ∧ point_type dp' = point_type dp
                   ∧ index dp' = index dp
  | (Raise _, dp') => dp' = dp
  end.
Proof using Type.
  unfold set_value, bind, get, modify, lift, ret.
  destruct (point_type dp) as [|p|p] eqn:Ht; try done;
    do 4 (try (destruct p as [p|p|]; try done)).
  - by destruct (py_int int_of_str v).
  - destruct (py_mul10 v) as [x|e]; [|done]. by destruct (py_int int_of_str x).
  - by destruct (py_int int_of_str v).
Qed.

(** [set_value] stores nothing that it could not convert: when it raises,
    the data point is as it was.  When it returns, the command it sends
    carries the index and the type of the point and the wire value that
    the point now holds. *)
Theorem set_value_atomic (dp : SmartDeviceDataPoint) v r dp' :
  set_value int_of_str v dp = (r, dp') →
  match r with
  | Raise _ => dp' = dp
  | Ok c => c = mkCommand (index dp) (point_type dp) 0 (value dp')
            ∧ dp' = with_value (value dp') dp
  end.
Proof using Type.
  destruct (decide (point_type dp ∈ [1; 2; 7])) as [Ht|Ht].
  - unfold set_value, bind, get, modify, lift, ret.
    repeat (apply elem_of_cons in Ht as [Ht|Ht]); [| | |by apply elem_of_nil in Ht];
      rewrite Ht.
    + destruct (py_int int_of_str v) as [z|e]; intros [= <- <-]; [|done].
      unfold send_data_point_update. simpl. by rewrite Ht.
    + destruct (py_mul10 v) as [x|e]; [|by intros [= <- <-]].
      destruct (py_int int_of_str x) as [z|e]; intros [= <- <-]; [|done].
      unfold send_data_point_update. simpl. by rewrite Ht.
    + destruct (py_int int_of_str v) as [z|e]; intros [= <- <-]; [|done].
      unfold send_data_point_update. simpl. by rewrite Ht.
  - rewrite (set_value_as_is dp v Ht). by intros [= <- <-].
Qed.

(** Without a value to convert ([None]), [set_value] raises [TypeError]
    on a point of type 1, 2 or 7 and leaves it as it was; on a point of
    any other type it stores [None] and sends it.  [get_value] of a point
    that holds [None] raises [TypeError] for the types 1, 2 and 7 and
    returns [None] for the others. *)
Theorem codec_of_none (dp : SmartDeviceDataPoint) :
  (point_type dp ∈ [1; 2; 7] →
     set_value int_of_str PNone dp = (Raise TypeError, dp)
     ∧ get_value int_of_str float_of_str (with_value PNone dp) = Raise TypeError)
  ∧ (point_type dp ∉ [1; 2; 7] →
       set_value int_of_str PNone dp
       = (Ok (mkCommand (index dp) (point_type dp) 0 PNone), with_value PNone dp)
       ∧ get_value int_of_str float_of_str (with_value PNone dp) = Ok PNone).
Proof using Type.
  split; intros Ht.
  - unfold set_value, get_value, bind, get, modify, lift, ret. simpl.
    repeat (apply elem_of_cons in Ht as [Ht|Ht]); [| | |by apply elem_of_nil in Ht];
      by rewrite Ht.
  - split; [by apply set_value_as_is|]. by rewrite get_value_as_is.
Qed.

End CodecProperties.

(** * Further properties of the inbound router *)

(** ** The entries of a message, one after the other *)

Lemma on_mqtt_message_app (l1 l2 : list Entry) st :
  on_mqtt_message (command_entries (l1 ++ l2)) st
  = (on_mqtt_message (command_entries l1) ;; on_mqtt_message (command_entries l2)) st.
Proof using Type. unfold on_mqtt_message, command_entries. simpl. apply for_each_app. Qed.

Lemma on_mqtt_message_other (d : Entry) st :
  cmd d ≠ Some 98 → on_mqtt_message (command_entries [d]) st = (Ok tt, st).
Proof using Type.
  intros Hd. unfold on_mqtt_message, command_entries. simpl.
  rewrite for_each_cons. unfold bind.
  destruct (cmd d) as [[|p|p]|]; try reflexivity.
  do 7 (try (destruct p as [p|p|]; try reflexivity)). by destruct Hd.
Qed.

Lemma on_mqtt_message_cons (d : Entry) (l : list Entry) st :
  on_mqtt_message (command_entries (d :: l)) st
  = (on_mqtt_message (command_entries [d]) ;; on_mqtt_message (command_entries l)) st.
Proof using Type. apply (on_mqtt_message_app [d] l). Qed.

Lemma on_mqtt_message_other_method (data : Message) st :
  method data ≠ Some "command" →
  on_mqtt_message data st = (Raise UnboundLocalError, st).
Proof using Type.
  intros Hm. unfold on_mqtt_message. by rewrite bool_decide_eq_false_2.
Qed.

(** The entries of a command message whose [cmd] is not 98 have no
    effect: the router does what it does on the entries with [cmd] 98
    alone, in their order. *)
Theorem on_mqtt_message_other_cmd (entries : list Entry) st :
  on_mqtt_message (command_entries entries) st
  = on_mqtt_message (command_entries (filter (λ d, cmd d = Some 98) entries)) st.
Proof using Type.
  revert st. induction entries as [|d l IH]; intros st; [done|].
  rewrite filter_cons. destruct (decide (cmd d = Some 98)) as [Hd|Hd].
  - rewrite on_mqtt_message_cons, (on_mqtt_message_cons d (filter _ l)). unfold bind.
    destruct (on_mqtt_message (command_entries [d]) st) as [[[]|e] st1]; [apply IH|done].
  - rewrite on_mqtt_message_cons. unfold bind.
    rewrite (on_mqtt_message_other d st Hd). apply IH.
Qed.

(** The router handles the entries in order and stops at the first one
    for an address that no device has: it raises [AttributeError], what
    the entries before it did stays done, and the entries after it are
    not handled. *)
Theorem on_mqtt_message_stops_at_unknown_mac (l1 l2 : list Entry) (d : Entry)
    st api1 calls1 :
  on_mqtt_message (command_entries l1) st = (Ok tt, (api1, calls1)) →
  cmd d = Some 98 → devices api1 !! default "" (mac d) = None →
  on_mqtt_message (command_entries (l1 ++ d :: l2)) st
  = (Raise AttributeError, (api1, calls1)).
Proof using Type.
  intros H1 Hd Hmac. rewrite on_mqtt_message_app. unfold bind. rewrite H1.
  rewrite on_mqtt_message_cons. unfold bind.
  assert (on_mqtt_message (command_entries [d]) (api1, calls1)
          = (Raise AttributeError, (api1, calls1))) as ->; [|done].
  unfold on_mqtt_message, command_entries, for_each. simpl. unfold bind, get.
  rewrite Hd. simpl. by rewrite Hmac.
Qed.

(** ** What the router changes *)

Lemma update_value_only (data : pyval) (dp : SmartDeviceDataPoint) calls r dp' calls' :
  update_value data (dp, calls) = (r, (dp', calls')) →
  dp' = with_value data dp ∧ ∃ l, calls' = calls ++ l.
Proof using Type.
  rewrite update_value_eq. intros (-> & l1 & l2 & _ & ->)%for_each_call_log.
  split; [done|]. by exists l1.
Qed.

Lemma values_only_refl (device : SmartDevice) : values_only device device.
Proof using Type.
  split; [by destruct device|]. intros k.
  destruct (data_points device !! k) as [dp|]; [|done]. by destruct dp.
Qed.

Lemma values_only_trans (a b c : SmartDevice) :
  values_only a b → values_only b c → values_only a c.
Proof using Type.
  intros [Hab Hkab] [Hbc Hkbc]. split.
  - rewrite <- Hab, <- Hbc. by destruct c.
  - intros k. specialize (Hkab k). specialize (Hkbc k).
    destruct (data_points a !! k) as [x|], (data_points b !! k) as [y|],
      (data_points c !! k) as [z|]; try done.
    unfold same_point in *. rewrite <- Hkab, <- Hkbc. by destruct z.
Qed.

Lemma values_only_insert (device : SmartDevice) k dp data :
  data_points device !! k = Some dp →
  values_only device
    (set_data_points (<[k := with_value data dp]> (data_points device)) device).
Proof using Type.
  intros Hk. split; [by destruct device|]. intros k'. simpl.
  destruct (decide (k' = k)) as [->|Hne].
  - rewrite Hk. destruct device. simpl in *. rewrite lookup_insert_eq. by destruct dp.
  - destruct device. simpl in *. rewrite lookup_insert_ne by done.
    destruct (data_points0 !! k') as [x|]; [|done]. by destruct x.
Qed.

Lemma handle_mqtt_command_only data (device : SmartDevice) calls r device' calls' :
  handle_mqtt_command data (device, calls) = (r, (device', calls')) →
  values_only device device' ∧ ∃ l, calls' = calls ++ l.
Proof using Type.
  unfold handle_mqtt_command. revert device calls.
  induction data as [|[k c] data IH]; intros device calls Heq.
  - injection Heq as <- <- <-. split; [apply values_only_refl|].
    exists []. by rewrite app_nil_r.
  - rewrite for_each_cons in Heq. unfold bind at 1 in Heq. unfold bind at 1 in Heq.
    unfold get in Heq. simpl in Heq.
    destruct (data_points device !! k) as [dp|] eqn:Hk.
    + unfold on_data_point in Heq.
      destruct (update_value (default PNone (payload_v c)) (dp, calls))
        as [r1 [dp1 calls1]] eqn:Hup.
      apply update_value_only in Hup as (-> & l1 & ->).
      pose proof (values_only_insert device k dp (default PNone (payload_v c)) Hk) as H1.
      destruct r1 as [[]|e].
      * apply IH in Heq as (H2 & l2 & ->). split; [by eapply values_only_trans|].
        exists (l1 ++ l2). by rewrite app_assoc.
      * injection Heq as <- <- <-. split; [done|]. by exists l1.
    + unfold ret in Heq. by apply IH in Heq.
Qed.

Lemma devices_values_only_refl (api : TopbandCloudApi) : devices_values_only api api.
Proof using Type.
  intros a. destruct (devices api !! a); [apply values_only_refl|done].
Qed.

Lemma devices_values_only_trans (a b c : TopbandCloudApi) :
  devices_values_only a b → devices_values_only b c → devices_values_only a c.
Proof using Type.
  intros Hab Hbc k. specialize (Hab k). specialize (Hbc k).
  destruct (devices a !! k), (devices b !! k), (devices c !! k); try done.
  by eapply values_only_trans.
Qed.

(** All that the router ever changes is the value of data points that
    exist: whatever the message and the outcome, the devices, their keys
    and every other attribute of the devices and of their data points
    are as they were, and the log of calls has only grown. *)
Theorem on_mqtt_message_changes_values_only (data : Message) api calls r api' calls' :
  on_mqtt_message data (api, calls) = (r, (api', calls')) →
  devices_values_only api api' ∧ ∃ l, calls' = calls ++ l.
Proof using Type.
  unfold on_mqtt_message. case_bool_decide as Hm.
  2:{ intros [= <- <- <-]. split; [apply devices_values_only_refl|].
      exists []. by rewrite app_nil_r. }
  generalize (default [] (msg_data data)). intros l. revert api calls.
  induction l as [|d l IH]; intros api calls Heq.
  - injection Heq as <- <- <-. split; [apply devices_values_only_refl|].
    exists []. by rewrite app_nil_r.
  - rewrite for_each_cons in Heq. unfold bind at 1 in Heq.
    match type of Heq with
    | (let '(_, _) := ?b in _) = _ =>
        assert (∀ r1 api1 calls1, b = (r1, (api1, calls1)) →
                  devices_values_only api api1 ∧ ∃ l1, calls1 = calls ++ l1) as Hstep;
        [|destruct b as [r1 [api1 calls1]] eqn:Hb]
    end.
    { intros r1 api1 calls1.
      destruct (decide (cmd d = Some 98)) as [Hd|Hd].
      - rewrite Hd. unfold bind, get. simpl.
        destruct (devices api !! default "" (mac d)) as [device|] eqn:Ha.
        + unfold on_device.
          destruct (handle_mqtt_command _ (device, calls)) as [r2 [device2 calls2]] eqn:Hh.
          apply handle_mqtt_command_only in Hh as (Hv & l2 & ->).
          intros [= <- <- <-]. split; [|by exists l2].
          intros a. simpl. destruct (decide (a = default "" (mac d))) as [->|Hne].
          * by rewrite Ha, lookup_insert_eq.
          * rewrite lookup_insert_ne by done.
            destruct (devices api !! a); [apply values_only_refl|done].
        + intros [= <- <- <-]. split; [apply devices_values_only_refl|].
          exists []. by rewrite app_nil_r.
      - assert (∀ st, match cmd d with
                      | Some 98 =>
                          do st0 <- get;
                          match devices st0.1 !! default "" (mac d) with
                          | Some device =>
                              on_device (default "" (mac d)) device
                                (handle_mqtt_command (default [] (command d)))
                          | None => raise AttributeError
                          end
                      | _ => ret tt
                      end st = (Ok tt, st)) as ->.
        { intros st. destruct (cmd d) as [[|p|p]|]; try reflexivity.
          do 7 (try (destruct p as [p|p|]; try reflexivity)). by destruct Hd. }
        intros [= <- <- <-]. split; [apply devices_values_only_refl|].
        exists []. by rewrite app_nil_r. }
    destruct (Hstep r1 api1 calls1 eq_refl) as (H1 & l1 & ->).
    destruct r1 as [[]|e].
    + apply IH in Heq as (H2 & l2 & ->). split; [by eapply devices_values_only_trans|].
      exists (l1 ++ l2). by rewrite app_assoc.
    + injection Heq as <- <- <-. split; [done|]. by exists l1.
Qed.

Lemma values_only_listeners_at (device device' : SmartDevice) k :
  values_only device device' → listeners_at device' k = listeners_at device k.
Proof using Type.
  intros [_ Hk]. specialize (Hk k). unfold listeners_at.
  destruct (data_points device !! k) as [dp|], (data_points device' !! k) as [dp'|];
    try done.
  unfold same_point in Hk. by rewrite <- Hk.
Qed.

Lemma handle_mqtt_command_cons k c data st :
  handle_mqtt_command ((k, c) :: data) st
  = (handle_mqtt_command [(k, c)] ;; handle_mqtt_command data) st.
Proof using Type. unfold handle_mqtt_command. apply (for_each_app [(k, c)] data). Qed.

Lemma handle_mqtt_command_known k c (device : SmartDevice) calls dp :
  data_points device !! k = Some dp →
  handle_mqtt_command [(k, c)] (device, calls)
  = on_data_point k dp (update_value (default PNone (payload_v c))) (device, calls).
Proof using Type.
  intros Hk. unfold handle_mqtt_command, for_each. simpl. unfold bind, get. simpl.
  rewrite Hk. unfold on_data_point.
  by destruct (update_value _ _) as [[[]|e] [dp' calls']].
Qed.

Lemma handle_mqtt_command_unknown k c (device : SmartDevice) calls :
  data_points device !! k = None →
  handle_mqtt_command [(k, c)] (device, calls) = (Ok tt, (device, calls)).
Proof using Type.
  intros Hk. unfold handle_mqtt_command, for_each. simpl. unfold bind, get. simpl.
  by rewrite Hk.
Qed.

(** [handle_mqtt_command] stores, for every key of the command that the
    device has, the member "v" of its payload as it is, [None] when the
    payload has none, whatever the type of the point, and invokes the
    listeners of that point; it skips the keys that the device does not
    have and leaves every other data point as it was.  (The keys of the
    command are distinct and no callback raises.) *)
Theorem handle_mqtt_command_stores (data : list (string * Payload))
    (device : SmartDevice) calls :
  NoDup data.*1 →
  (∀ k c, k ∈ data.*1 → c ∈ listeners_at device k → callback c = Ok tt) →
  ∃ device',
    handle_mqtt_command data (device, calls)
    = (Ok tt, (device', calls ++ concat (map (λ x, listeners_at device (fst x)) data)))
    ∧ values_only device device'
    ∧ ∀ k dp, data_points device !! k = Some dp →
        data_points device' !! k
        = Some (with_value
                  match (list_to_map data : gmap string Payload) !! k with
                  | Some cmd => default PNone (payload_v cmd)
                  | None => value dp
                  end dp).
Proof using Type.
  revert device calls.
  induction data as [|[k0 c0] data IH]; intros device calls Hnd Hok.
  - exists device. simpl. rewrite app_nil_r. split; [done|].
    split; [apply values_only_refl|]. intros k dp Hk.
    by rewrite lookup_empty, with_value_id.
  - rewrite fmap_cons in Hnd. apply NoDup_cons in Hnd as [Hk0 Hnd].
    rewrite handle_mqtt_command_cons. unfold bind.
    destruct (data_points device !! k0) as [dp0|] eqn:Hd0.
    + rewrite (handle_mqtt_command_known k0 c0 device calls dp0 Hd0).
      unfold on_data_point.
      assert (update_value (default PNone (payload_v c0)) (dp0, calls)
              = (Ok tt, (with_value (default PNone (payload_v c0)) dp0,
                         calls ++ listeners_at device k0))) as ->.
      { rewrite update_value_eq. unfold listeners_at. rewrite Hd0.
        apply for_each_call_returns. intros c Hc. apply (Hok k0); [left|].
        unfold listeners_at. by rewrite Hd0. }
      pose proof (values_only_insert device k0 dp0 (default PNone (payload_v c0)) Hd0) as H1.
      set (device1 := set_data_points _ device) in *.
      destruct (IH device1 (calls ++ listeners_at device k0) Hnd) as (device' & Heq & H2 & Hl).
      { intros k c Hk Hc. apply (Hok k); [by right|].
        by rewrite <- (values_only_listeners_at device device1 k H1). }
      exists device'. split; [|split; [by eapply values_only_trans|]].
      * rewrite Heq. simpl. rewrite <- app_assoc.
        assert (map (λ x : string * Payload, listeners_at device1 x.1) data
                = map (λ x, listeners_at device x.1) data) as ->; [|done].
        apply map_ext. intros x. by apply values_only_listeners_at.
      * intros k dp Hk. simpl. destruct (decide (k = k0)) as [->|Hne].
        -- rewrite lookup_insert_eq.
           rewrite (Hl k0 (with_value (default PNone (payload_v c0)) dp0)).
           ++ rewrite (not_elem_of_list_to_map_1 _ k0 Hk0).
              rewrite Hd0 in Hk. injection Hk as <-. by destruct dp0.
           ++ unfold device1. destruct device. simpl. by rewrite lookup_insert_eq.
        -- rewrite lookup_insert_ne by done. apply Hl.
           unfold device1. destruct device. simpl in *. by rewrite lookup_insert_ne.
    + rewrite (handle_mqtt_command_unknown k0 c0 device calls Hd0).
      destruct (IH device calls Hnd) as (device' & Heq & H2 & Hl).
      { intros k c Hk Hc. apply (Hok k); [by right|done]. }
      exists device'. split; [|split; [done|]].
      * rewrite Heq. simpl. unfold listeners_at at 2. by rewrite Hd0.
      * intros k dp Hk. simpl. rewrite lookup_insert_ne by congruence. by apply Hl.
Qed.

(** ** The exceptions of the router *)

Lemma for_each_call_raise {X} (l : list positive) (x : X) calls e x' calls' :
  for_each l call (x, calls) = (Raise e, (x', calls')) →
  ∃ c calls0, calls' = calls0 ++ [c] ∧ callback c = Raise e.
Proof using Type.
  revert calls. induction l as [|c l IH]; intros calls Heq; [done|].
  rewrite for_each_cons in Heq. unfold bind, call at 1 in Heq.
  destruct (callback c) as [[]|e0] eqn:Hc.
  - by apply IH in Heq.
  - injection Heq as <- <- <-. by exists c, calls.
Qed.

Lemma handle_mqtt_command_raise data (device : SmartDevice) calls e device' calls' :
  handle_mqtt_command data (device, calls) = (Raise e, (device', calls')) →
  ∃ c calls0, calls' = calls0 ++ [c] ∧ callback c = Raise e.
Proof using Type.
  revert device calls. induction data as [|[k c] data IH]; intros device calls Heq; [done|].
  rewrite handle_mqtt_command_cons in Heq. unfold bind in Heq.
  destruct (data_points device !! k) as [dp|] eqn:Hk.
  - rewrite (handle_mqtt_command_known k c device calls dp Hk) in Heq.
    unfold on_data_point in Heq.
    destruct (update_value (default PNone (payload_v c)) (dp, calls))
      as [[[]|e1] [dp1 calls1]] eqn:Hup.
    + by apply IH in Heq.
    + injection Heq as <- <- <-. rewrite update_value_eq in Hup.
      by apply for_each_call_raise in Hup.
  - rewrite (handle_mqtt_command_unknown k c device calls Hk) in Heq. by apply IH in Heq.
Qed.

Lemma on_mqtt_message_entry (d : Entry) api calls r api1 calls1 :
  on_mqtt_message (command_entries [d]) (api, calls) = (r, (api1, calls1)) →
  devices_values_only api api1
  ∧ ∀ e, r = Raise e →
      (e = AttributeError ∧ cmd d = Some 98 ∧ devices api !! default "" (mac d) = None)
      ∨ ∃ c calls0, calls1 = calls0 ++ [c] ∧ callback c = Raise e.
Proof using Type.
  destruct (decide (cmd d = Some 98)) as [Hd|Hd].
  - unfold on_mqtt_message, command_entries, for_each. simpl. unfold bind, get.
    rewrite Hd. simpl.
    destruct (devices api !! default "" (mac d)) as [device|] eqn:Ha.
    + unfold on_device.
      destruct (handle_mqtt_command _ (device, calls)) as [r2 [device2 calls2]] eqn:Hh.
      pose proof (handle_mqtt_command_only _ _ _ _ _ _ Hh) as (Hv & _).
      assert (devices_values_only api
                (mkApi (<[default "" (mac d) := device2]> (devices api)))) as Hdev.
      { intros a. simpl. destruct (decide (a = default "" (mac d))) as [->|Hne].
        - by rewrite Ha, lookup_insert_eq.
        - rewrite lookup_insert_ne by done.
          destruct (devices api !! a); [apply values_only_refl|done]. }
      destruct r2 as [[]|e2]; intros [= <- <- <-]; (split; [done|]); [done|].
      intros e [= <-]. right. by apply handle_mqtt_command_raise in Hh.
    + unfold raise. intros [= <- <- <-]. split; [apply devices_values_only_refl|].
      intros e [= <-]. by left.
  - rewrite (on_mqtt_message_other d _ Hd). intros [= <- <- <-].
    split; [apply devices_values_only_refl|done].
Qed.

Lemma on_mqtt_message_entries_raise (l : list Entry) api calls e api' calls' :
  on_mqtt_message (command_entries l) (api, calls) = (Raise e, (api', calls')) →
  (e = AttributeError
   ∧ ∃ d, d ∈ l ∧ cmd d = Some 98 ∧ devices api !! default "" (mac d) = None)
  ∨ ∃ c calls0, calls' = calls0 ++ [c] ∧ callback c = Raise e.
Proof using Type.
  revert api calls. induction l as [|d l IH]; intros api calls Heq; [done|].
  rewrite on_mqtt_message_cons in Heq. unfold bind in Heq.
  destruct (on_mqtt_message (command_entries [d]) (api, calls))
    as [r1 [api1 calls1]] eqn:H1.
  apply on_mqtt_message_entry in H1 as (Hdev & Hraise).
  destruct r1 as [[]|e1].
  - apply IH in Heq as [(-> & d' & Hd' & Hcmd & Hmac)|Hcall]; [left|by right].
    split; [done|]. exists d'. split; [by apply list_elem_of_further|]. split; [done|].
    specialize (Hdev (default "" (mac d'))). rewrite Hmac in Hdev.
    by destruct (devices api !! default "" (mac d')).
  - injection Heq as <- <- <-.
    destruct (Hraise e1 eq_refl) as [(-> & Hcmd & Hmac)|Hcall]; [left|by right].
    split; [done|]. exists d. split; [apply list_elem_of_here|done].
Qed.

(** The router raises for three reasons only.  A message whose method is
    not "command" raises [UnboundLocalError] and changes nothing; in a
    command message, an entry with [cmd] 98 for an address that no device
    has raises [AttributeError]; otherwise the exception is the one of a
    callback, the last one invoked. *)
Theorem on_mqtt_message_raises (data : Message) api calls e api' calls' :
  on_mqtt_message data (api, calls) = (Raise e, (api', calls')) →
  (method data ≠ Some "command" ∧ e = UnboundLocalError ∧ api' = api ∧ calls' = calls)
  ∨ (method data = Some "command"
     ∧ ((e = AttributeError
         ∧ ∃ d, d ∈ default [] (msg_data data) ∧ cmd d = Some 98
                ∧ devices api !! default "" (mac d) = None)
        ∨ ∃ c calls0, calls' = calls0 ++ [c] ∧ callback c = Raise e)).
Proof using Type.
  destruct (decide (method data = Some "command")) as [Hm|Hm].
  - intros Heq. right. split; [done|].
    apply (on_mqtt_message_entries_raise (default [] (msg_data data)) api calls e api' calls').
    rewrite <- Heq. unfold on_mqtt_message, command_entries. simpl.
    by rewrite (bool_decide_eq_true_2 _ Hm).
  - rewrite (on_mqtt_message_other_method data _ Hm). intros [= <- <- <-]. by left.
Qed.

(** * The outbound transport *)

Lemma send_mqtt_command_client now (device : SmartDevice) command client serial :
  send_mqtt_command now device command (mkTransport (Some client) serial)
  = (Ok tt,
     mkTransport
       (Some (mkMqttClient
                (published client
                 ++ [(download_topic device, command_payload (serial + 1) now device command)])
                (subscribed client)))
       (serial + 1)).
Proof using Type. done. Qed.

(** With a client, [send_mqtt_command] publishes one message for every
    command, in order, numbered with consecutive serials from the one
    after the current serial on; the subscriptions stay.  Without a
    client it publishes nothing, counts nothing and raises nothing. *)
Theorem send_mqtt_command_serials (requests : list (Z * SmartDevice * Command))
    (t : Transport) :
  send_all requests t
  = (Ok tt,
     match _mqtt t with
     | None => t
     | Some client =>
         mkTransport
           (Some (mkMqttClient
                    (published client
                     ++ imap (λ i '(now, device, command),
                                (download_topic device,
                                 command_payload (_mqtt_serial t + 1 + Z.of_nat i)
                                   now device command)) requests)
                    (subscribed client)))
           (_mqtt_serial t + Z.of_nat (length requests))
     end).
Proof using Type.
  unfold send_all. destruct t as [[client|] serial]; simpl.
  - revert client serial. induction requests as [|[[now device] command] l IH];
      intros client serial.
    + simpl. rewrite app_nil_r, Z.add_0_r. by destruct client.
    + rewrite for_each_cons. unfold bind. rewrite send_mqtt_command_client.
      rewrite IH. simpl. rewrite <- app_assoc. simpl.
      replace (serial + 1 + Z.of_nat 0) with (serial + 1) by lia.
      replace (serial + Z.of_nat (S (length l)))
        with (serial + 1 + Z.of_nat (length l)) by lia.
      assert (imap (λ i '(now, device, command),
                      (download_topic device,
                       command_payload (serial + 1 + 1 + Z.of_nat i) now device command)) l
              = imap ((λ i '(now, device, command),
                         (download_topic device,
                          command_payload (serial + 1 + Z.of_nat i) now device command))
                      ∘ S) l) as ->; [|done].
      apply imap_ext. intros i [[now' device'] command'] _. simpl. do 2 f_equal. lia.
  - induction requests as [|[[now device] command] l IH]; [done|].
    rewrite for_each_cons. unfold bind. simpl. exact IH.
Qed.

(** * The device table *)

Lemma subscribed_to_app (l1 l2 : list string) (t : Transport) :
  subscribed_to l2 (subscribed_to l1 t) = subscribed_to (l1 ++ l2) t.
Proof using Type.
  unfold subscribed_to. destruct t as [[client|] serial]; simpl; [|done].
  by rewrite <- app_assoc.
Qed.

Lemma subscribed_to_nil (t : Transport) : subscribed_to [] t = t.
Proof using Type.
  unfold subscribed_to. destruct t as [[[p s]|] serial]; simpl; [|done].
  by rewrite app_nil_r.
Qed.

(** The device of a row whose snapshot has the two keys. *)
Lemma classified_row_ok (d : DeviceRow) :
  row_complete d →
  ∃ device, classified_row d = Ok device
    ∧ mac_address device = extAddr d
    ∧ data_points device = new_data_point <$> default ∅ (pointDataMap d).
Proof.
  intros Hd. unfold classified_row, SmartDevice_init.
  match goal with |- context [parse_data_points ?s] => set (self := s) end.
  destruct (parse_data_points_returns self) as [self' Hparse].
  { intros k Hk. simpl. rewrite lookup_fmap. destruct (Hd k Hk) as [p ->]. by eexists. }
  pose proof (parse_data_points_frame self) as (Hdp & Hid & _).
  rewrite Hparse in *. simpl in Hdp, Hid. exists self'. split; [done|].
  split; [|done]. unfold identity in Hid. simpl in Hid. congruence.
Qed.

Lemma classified_row_raises (d : DeviceRow) k :
  k ∈ unsupported_keys → default ∅ (pointDataMap d) !! k = None →
  ∃ k', classified_row d = Raise (KeyError k') ∧ k' ∈ unsupported_keys
        ∧ default ∅ (pointDataMap d) !! k' = None.
Proof.
  intros Hk Hnone. unfold classified_row, SmartDevice_init.
  match goal with |- context [parse_data_points ?s] => set (self := s) end.
  destruct (parse_data_points self) as [[[]|e] self'] eqn:Hparse.
  - exfalso. apply parse_data_points_inv in Hparse as (_ & _ & _ & _ & _ & _ & Hin & _).
    destruct (Hin k Hk) as [dp Hdp]. simpl in Hdp. by rewrite lookup_fmap, Hnone in Hdp.
  - apply parse_data_points_raises in Hparse as (k' & -> & Hk' & Hnone').
    exists k'. split; [done|]. split; [done|].
    simpl in Hnone'. rewrite lookup_fmap in Hnone'.
    by destruct (default ∅ (pointDataMap d) !! k').
Qed.

Lemma add_device_ok (d : DeviceRow) device api t :
  classified_row d = Ok device →
  add_device d (api, t)
  = (Ok tt, (mkApi (<[mac_address device := device]> (devices api)),
             subscribed_to [business_topic device; upload_topic device] t)).
Proof using Type.
  intros Hd. unfold add_device, bind, on_transport, device_of_row, SmartDevice_new, bind, lift.
  fold (classified_row d). rewrite Hd. unfold mqtt_subscribe, ret, modify, subscribed_to.
  by destruct t as [[[p s]|] serial]; simpl; rewrite <- ?app_assoc.
Qed.

Lemma add_device_raise (d : DeviceRow) e api t :
  classified_row d = Raise e → add_device d (api, t) = (Raise e, (api, t)).
Proof using Type.
  intros Hd. unfold add_device, bind, on_transport, device_of_row, SmartDevice_new, bind, lift.
  fold (classified_row d). by rewrite Hd.
Qed.

(** The table after the rows [rows], all with the two keys: under every
    address, the device of the last row with that address. *)
Lemma add_devices (rows : list DeviceRow) api t :
  Forall row_complete rows →
  ∃ table,
    for_each rows add_device (api, t)
    = (Ok tt, (mkApi table, subscribed_to (topics_of rows) t))
    ∧ ∀ a, table !! a
           = match last (filter (λ d, extAddr d = a) rows) with
             | Some d => match classified_row d with
                         | Ok device => Some device
                         | Raise _ => None
                         end
             | None => devices api !! a
             end.
Proof.
  revert api t. induction rows as [|d rows IH]; intros api t Hall.
  - exists (devices api). unfold topics_of. simpl. rewrite subscribed_to_nil.
    split; [by destruct api|done].
  - apply Forall_cons in Hall as [Hd Hall].
    destruct (classified_row_ok d Hd) as (device & Hdev & Hmac & _).
    rewrite for_each_cons. unfold bind. rewrite (add_device_ok d device api t Hdev).
    destruct (IH (mkApi (<[mac_address device := device]> (devices api)))
                (subscribed_to [business_topic device; upload_topic device] t) Hall)
      as (table & Heq & Hl).
    exists table. split.
    + rewrite Heq, subscribed_to_app. unfold topics_of. simpl. by rewrite Hdev.
    + intros a. rewrite Hl, filter_cons. simpl. rewrite Hmac.
      destruct (decide (extAddr d = a)) as [->|Hne].
      * rewrite last_cons. destruct (last (filter _ rows)); [done|].
        by rewrite Hdev, lookup_insert_eq.
      * destruct (last (filter _ rows)); [done|]. by rewrite lookup_insert_ne.
Qed.

(** When the snapshot of every row has the two keys that classification
    pops by name, [async_get_devices] returns the new table: under every
    address of a row, the device made of the last row with that address,
    and nothing else, whatever the table held before.  Every device is
    under its own address, has the data points of its row, none with a
    listener, and its two topics are subscribed to, in the order of the
    rows. *)
Theorem async_get_devices_table (rows : list DeviceRow) api t :
  Forall row_complete rows →
  ∃ table,
    async_get_devices rows (api, t)
    = (Ok table, (mkApi table, subscribed_to (topics_of rows) t))
    ∧ (∀ a, table !! a
            = match last (filter (λ d, extAddr d = a) rows) with
              | Some d => match classified_row d with
                          | Ok device => Some device
                          | Raise _ => None
                          end
              | None => None
              end)
    ∧ ∀ a device, table !! a = Some device →
        mac_address device = a
        ∧ ∃ d, d ∈ rows ∧ extAddr d = a
               ∧ data_points device = new_data_point <$> default ∅ (pointDataMap d)
               ∧ ∀ k dp, data_points device !! k = Some dp → _listener dp = ∅.
Proof.
  intros Hall. destruct (add_devices rows (mkApi ∅) t Hall) as (table & Heq & Hl).
  exists table. split; [|split].
  - unfold async_get_devices, bind, modify, get, ret. destruct api. by rewrite Heq.
  - intros a. rewrite Hl. by destruct (last _).
  - intros a device Ha. rewrite Hl in Ha.
    destruct (last (filter (λ d, extAddr d = a) rows)) as [d|] eqn:Hlast; [|done].
    apply last_Some_elem_of, list_elem_of_filter in Hlast as [Hda Hd].
    rewrite Forall_forall in Hall.
    destruct (classified_row_ok d (Hall d Hd)) as (device' & Hdev & Hmac & Hdp).
    rewrite Hdev in Ha. injection Ha as <-.
    split; [congruence|]. exists d. split; [done|]. split; [done|]. split; [done|].
    intros k dp Hk. rewrite Hdp, lookup_fmap in Hk.
    destruct (default ∅ (pointDataMap d) !! k); [|done]. by injection Hk as <-.
Qed.

(** [async_get_devices] stops at the first row whose snapshot lacks one
    of the two keys that classification pops by name: it raises the
    [KeyError] of an absent one, the table holds the devices of the rows
    before that row only, just those are subscribed to, and the rows
    after it are not looked at. *)
Theorem async_get_devices_stops (rows1 rows2 : list DeviceRow) (d : DeviceRow) k api t :
  Forall row_complete rows1 →
  k ∈ unsupported_keys → default ∅ (pointDataMap d) !! k = None →
  ∃ table k',
    async_get_devices rows1 (api, t)
    = (Ok table, (mkApi table, subscribed_to (topics_of rows1) t))
    ∧ async_get_devices (rows1 ++ d :: rows2) (api, t)
      = (Raise (KeyError k'), (mkApi table, subscribed_to (topics_of rows1) t))
    ∧ k' ∈ unsupported_keys ∧ default ∅ (pointDataMap d) !! k' = None.
Proof.
  intros Hall Hk Hnone.
  destruct (add_devices rows1 (mkApi ∅) t Hall) as (table & Heq & _).
  destruct (classified_row_raises d k Hk Hnone) as (k' & Hraise & Hk' & Hnone').
  exists table, k'. split; [|split; [|done]].
  - unfold async_get_devices, bind, modify, get, ret. destruct api. by rewrite Heq.
  - unfold async_get_devices, bind, modify. destruct api. rewrite for_each_app.
    unfold bind. rewrite Heq, for_each_cons. unfold bind.
    by rewrite (add_device_raise d _ _ _ Hraise).
Qed.

(** * The entities *)

Section EntityProperties.

Variable int_of_str : string → result Z.
Variable float_of_str : string → result float.

(** A write through [set_value] reaches the transport as one command
    with the next serial, carrying the wire value that the point now
    holds.  Without a client the value is stored all the same and nothing
    is published; when the conversion raises, nothing is stored and
    nothing is published. *)
Theorem set_value_and_send_outcome now (device : SmartDevice) v
    (dp : SmartDeviceDataPoint) (t : Transport) :
  match set_value int_of_str v dp with
  | (Raise e, _) =>
      set_value_and_send int_of_str now device v (dp, t) = (Raise e, (dp, t))
  | (Ok _, dp') =>
      set_value_and_send int_of_str now device v (dp, t)
      = (Ok tt,
         (dp',
          match _mqtt t with
          | None => t
          | Some client =>
              mkTransport
                (Some (mkMqttClient
                         (published client
                          ++ [(download_topic device,
                               command_payload (_mqtt_serial t + 1) now device
                                 (mkCommand (index dp) (point_type dp) 0 (value dp')))])
                         (subscribed client)))
                (_mqtt_serial t + 1)
          end))
  end.
Proof using Type.
  unfold set_value_and_send.
  pose proof (set_value_leaves int_of_str dp v) as Hleaves.
  destruct (set_value int_of_str v dp) as [[c|e] dp'].
  - destruct Hleaves as (-> & Ht & Hi). unfold send_data_point_update. rewrite Ht, Hi.
    by destruct t as [[client|] serial].
  - by rewrite Hleaves.
Qed.

(** [turn_on] and [turn_off] write the data point and send the command,
    but do not change what [is_on] returns: that is the flag
    [_attr_is_on], which only [_handle_update] refreshes.  Once
    [_handle_update] has run on the value written, [is_on] is true after
    [turn_on] and false after [turn_off], whatever the type of the point.
    On a point of type 2, [turn_on] stores and sends 10, not 1. *)
Theorem switch_is_on_cached (self : RadiantSmartSwitch) :
  (∃ c self',
     RadiantSmartSwitch_turn_on int_of_str self = (Ok c, self')
     ∧ RadiantSmartSwitch_is_on self' = RadiantSmartSwitch_is_on self
     ∧ value (fst self')
       = PInt (if bool_decide (point_type (fst self) = 2) then 10 else 1)
     ∧ cmd_v c = value (fst self')
     ∧ ∃ self'',
         RadiantSmartSwitch_handle_update int_of_str float_of_str self' = (Ok tt, self'')
         ∧ fst self'' = fst self'
         ∧ RadiantSmartSwitch_is_on self'' = true)
  ∧ (∃ c self',
       RadiantSmartSwitch_turn_off int_of_str self = (Ok c, self')
       ∧ RadiantSmartSwitch_is_on self' = RadiantSmartSwitch_is_on self
       ∧ value (fst self') = PInt 0
       ∧ cmd_v c = value (fst self')
       ∧ ∃ self'',
           RadiantSmartSwitch_handle_update int_of_str float_of_str self' = (Ok tt, self'')
           ∧ fst self'' = fst self'
           ∧ RadiantSmartSwitch_is_on self'' = false).
Proof using Type.
  destruct self as [dp on].
  unfold RadiantSmartSwitch_turn_on, RadiantSmartSwitch_turn_off,
    RadiantSmartSwitch_handle_update, RadiantSmartSwitch_is_on.
  destruct (decide (point_type dp ∈ [1; 2; 7])) as [Ht|Ht].
  - destruct dp as [i n pt v0 L]. simpl in Ht |- *.
    unfold set_value, get_value, bind, get, modify, lift, ret.
    repeat (apply elem_of_cons in Ht as [->|Ht]); [| | |by apply elem_of_nil in Ht];
      (split; eexists _, _; split_and!; try done; eexists; by split_and!).
  - rewrite !(set_value_as_is int_of_str dp _ Ht). simpl.
    assert (bool_decide (point_type dp = 2) = false) as ->.
    { apply bool_decide_eq_false_2. intros H2. apply Ht. rewrite H2. compute_done. }
    split; eexists _, (_, _); (split; [done|]); simpl;
      rewrite get_value_as_is by done; split_and!; try done; eexists; by split_and!.
Qed.

(** The thermostat reads back the mode it wrote, whatever the type of
    its point: for each mode of the table of the thermostat rule,
    [set_hvac_mode] sends one command, with the code of the mode (ten
    times the code on a point of type 2), and the mode looked up in the
    table under [get_value()] is then that mode. *)
Theorem thermostat_mode_round_trip (d1 d2 d3 dp : SmartDeviceDataPoint) (m : HVACMode) :
  ∃ c dp',
    RadiantSmartThermostat_set_hvac_mode int_of_str (thermostat d1 d2 d3) m dp
    = (Ok [c], dp')
    ∧ RadiantSmartThermostat_hvac_mode int_of_str float_of_str (thermostat d1 d2 d3) dp'
      = Ok (Some m)
    ∧ value dp'
      = PInt (if bool_decide (point_type dp = 2) then mode_code m * 10 else mode_code m)
    ∧ cmd_v c = value dp'.
Proof using Type.
  unfold RadiantSmartThermostat_set_hvac_mode, RadiantSmartThermostat_hvac_mode.
  destruct (decide (point_type dp ∈ [1; 2; 7])) as [Ht|Ht].
  - destruct dp as [i n pt v0 L]. simpl in Ht |- *.
    unfold set_value, get_value. simpl. unfold bind, get, modify, lift, ret.
    repeat (apply elem_of_cons in Ht as [->|Ht]); [| | |by apply elem_of_nil in Ht];
      destruct m; simpl; eexists _, _; by split_and!.
  - assert (bool_decide (point_type dp = 2) = false) as ->.
    { apply bool_decide_eq_false_2. intros H2. apply Ht. rewrite H2. compute_done. }
    destruct m; simpl; unfold bind, ret; rewrite (set_value_as_is int_of_str dp _ Ht);
      eexists _, _; (split; [done|]); rewrite get_value_as_is by done; by split_and!.
Qed.

End EntityProperties.

(** * The sensor platform *)

(** When classification returns, the descriptors from which the sensor
    platform builds its sensors, those of [sensors_data] and then one for
    every residual point, have one descriptor for every key of
    [sensors_data] and one for every residual key, no key twice; the
    descriptor of a residual point has the name of the point and no
    unit, class, options or category. *)
Theorem sensor_descriptors_keys (self self' : SmartDevice) :
  parse_data_points self = (Ok tt, self') →
  NoDup (map (λ x, fst (SensorData.data_point x))
           (sensors_data self' ++ residual_sensors self'))
  ∧ (∀ k, k ∈ map (λ x, fst (SensorData.data_point x))
                (sensors_data self' ++ residual_sensors self')
          ↔ k ∈ map (λ x, fst (SensorData.data_point x)) (sensors_data self')
            ∨ is_Some (unknown_points self' !! k))
  ∧ ∀ x, x ∈ residual_sensors self' →
      unknown_points self' !! fst (SensorData.data_point x)
      = Some (snd (SensorData.data_point x))
      ∧ x = SensorData.mk (SensorData.data_point x) (name (snd (SensorData.data_point x)))
              None None None None None None.
Proof.
  intros Hparse.
  pose proof (classified_lookup self self' Hparse) as (Hnd & _ & _ & Hl).
  assert (∀ k, k ∈ map (λ x, fst (SensorData.data_point x)) (residual_sensors self')
               ↔ is_Some (unknown_points self' !! k)) as Hres.
  { intros k. rewrite <- dict_items_keys. unfold residual_sensors.
    rewrite map_map, !list_elem_of_fmap. split.
    - intros ([k' d] & -> & Hin). by exists (k', d).
    - intros ([k' d] & -> & Hin). by exists (k', d). }
  rewrite map_app. split; [|split].
  - apply NoDup_app. split; [|split].
    + rewrite group_keys_passes in Hnd.
      apply (NoDup_concat _ Hnd (pass_keys Sensors self')).
      apply list_elem_of_fmap. exists Sensors. split; [done|compute_done].
    + intros k Hk [d Hd]%Hres.
      assert (k ∈ group_keys self') as Hg by (by apply (pass_keys_group_keys Sensors)).
      by rewrite Hl, (bool_decide_eq_true_2 _ Hg) in Hd.
    + unfold residual_sensors. rewrite map_map.
      assert (map (λ x, fst (SensorData.data_point (let '(k, point) := x in
                SensorData.mk (k, point) (name point) None None None None None None)))
                (dict_items (unknown_points self'))
              = (dict_items (unknown_points self')).*1) as ->.
      { apply map_ext. by intros [k d]. }
      apply dict_items_NoDup.
  - intros k. by rewrite elem_of_app, Hres.
  - intros x Hx. unfold residual_sensors in Hx.
    apply list_elem_of_fmap in Hx as ([k d] & -> & Hin). simpl.
    split; [|done]. by apply dict_items_lookup.
Qed.

Section SensorPlatform.

Variable int_of_str : string → result Z.
Variable float_of_str : string → result float.

Lemma native_value_reading (x : SmartDevice * SensorData.t) :
  match reading int_of_str float_of_str x with
  | Ok _ => ∃ v, native_value int_of_str float_of_str (snd x)
                   (deref (fst x) (SensorData.data_point (snd x))) = Ok v
  | Raise e => native_value int_of_str float_of_str (snd x)
                 (deref (fst x) (SensorData.data_point (snd x))) = Raise e
  end.
Proof using Type.
  unfold reading, native_value. destruct (get_value _ _ _); [|done]. by eexists.
Qed.

(** The loop over the descriptors of one device. *)
Lemma for_each_append_sensor (device : SmartDevice) (l : list SensorData.t) entities :
  match for_each l (append_sensor int_of_str float_of_str device) entities with
  | (Ok _, entities') =>
      ∃ new, entities' = entities ++ new
             ∧ Forall2 (sensor_for int_of_str float_of_str) new (map (pair device) l)
  | (Raise e, _) =>
      ∃ data, data ∈ l ∧ reading int_of_str float_of_str (device, data) = Raise e
  end.
Proof using Type.
  revert entities. induction l as [|data l IH]; intros entities.
  - exists []. by rewrite app_nil_r.
  - rewrite for_each_cons. unfold bind at 1.
    pose proof (native_value_reading (device, data)) as Hread.
    unfold append_sensor at 1. unfold bind, lift, modify, RadiantSmartSensor_init.
    destruct (reading int_of_str float_of_str (device, data)) as [v|e] eqn:Hr; simpl in Hread.
    + destruct Hread as [v' Hnative]. rewrite Hnative.
      specialize (IH (entities ++ [mkSensor data v'])).
      destruct (for_each l _ _) as [[[]|e] entities'].
      * destruct IH as (new & -> & Hnew). exists (mkSensor data v' :: new).
        split; [by rewrite <- app_assoc|]. by constructor.
      * destruct IH as (data' & Hin & Hraise). exists data'. split; [|done].
        by apply list_elem_of_further.
    + rewrite Hread. exists data. split; [apply list_elem_of_here|done].
Qed.

(** The loop over the devices. *)
Lemma for_each_device_sensors (devices : list SmartDevice) entities :
  match for_each devices (λ device,
          for_each (sensors_data device) (append_sensor int_of_str float_of_str device) ;;
          for_each (residual_sensors device) (append_sensor int_of_str float_of_str device))
          entities with
  | (Ok _, entities') =>
      ∃ new, entities' = entities ++ new
             ∧ Forall2 (sensor_for int_of_str float_of_str) new (platform_descriptors devices)
  | (Raise e, _) =>
      ∃ x, x ∈ platform_descriptors devices ∧ reading int_of_str float_of_str x = Raise e
  end.
Proof using Type.
  revert entities. induction devices as [|device devices IH]; intros entities.
  - exists []. by rewrite app_nil_r.
  - rewrite for_each_cons. unfold bind at 1. rewrite <- for_each_app.
    unfold platform_descriptors. simpl. fold (platform_descriptors devices).
    pose proof (for_each_append_sensor device
                  (sensors_data device ++ residual_sensors device) entities) as Hdev.
    destruct (for_each (sensors_data device ++ residual_sensors device) _ _)
      as [[[]|e] entities1].
    + destruct Hdev as (new1 & -> & Hnew1). specialize (IH (entities ++ new1)).
      destruct (for_each devices _ _) as [[[]|e] entities2].
      * destruct IH as (new2 & -> & Hnew2). exists (new1 ++ new2).
        split; [by rewrite app_assoc|]. by apply Forall2_app.
      * destruct IH as (x & Hin & Hraise). exists x. split; [|done].
        apply elem_of_app. by right.
    + destruct Hdev as (data & Hin & Hraise). exists (device, data). split; [|done].
      apply elem_of_app. left. apply list_elem_of_fmap. by exists data.
Qed.

(** The sensor platform builds its sensors all or none.  When the
    constructor of no sensor raises, [async_setup_entry] hands over one
    sensor for every descriptor of every device, in order, each with the
    native value of its data point in the current state of the device.
    When one raises, which it does exactly when [get_value] raises on the
    data point of a descriptor, the exception leaves [async_setup_entry]
    and no sensor of any device is handed over. *)
Theorem sensor_async_setup_entry_outcome (devices : list SmartDevice) :
  match sensor_async_setup_entry int_of_str float_of_str devices with
  | Ok entities =>
      Forall2 (sensor_for int_of_str float_of_str) entities (platform_descriptors devices)
  | Raise e =>
      ∃ x, x ∈ platform_descriptors devices ∧ reading int_of_str float_of_str x = Raise e
  end
  ∧ ((∃ entities, sensor_async_setup_entry int_of_str float_of_str devices = Ok entities)
     ↔ ∀ x, x ∈ platform_descriptors devices →
            ∃ v, reading int_of_str float_of_str x = Ok v).
Proof using Type.
  assert (match sensor_async_setup_entry int_of_str float_of_str devices with
          | Ok entities =>
              Forall2 (sensor_for int_of_str float_of_str) entities
                (platform_descriptors devices)
          | Raise e =>
              ∃ x, x ∈ platform_descriptors devices
                   ∧ reading int_of_str float_of_str x = Raise e
          end) as Hout.
  { unfold sensor_async_setup_entry, bind at 1.
    pose proof (for_each_device_sensors devices []) as Hloop.
    destruct (for_each devices _ _) as [[[]|e] entities]; simpl.
    - by destruct Hloop as (new & -> & Hnew).
    - done. }
  split; [done|]. split.
  - intros [entities Hok] x Hx. rewrite Hok in Hout.
    apply list_elem_of_lookup in Hx as [i Hi].
    destruct (Forall2_lookup_r _ _ _ _ _ Hout Hi) as (entity & _ & _ & Hnative).
    unfold reading. unfold native_value in Hnative.
    destruct (get_value _ _ _) as [v|e]; [by exists v|done].
  - intros Hall. destruct (sensor_async_setup_entry _ _ _) as [entities|e]; [by eexists|].
    destruct Hout as (x & Hx & Hraise). destruct (Hall x Hx) as [v Hv]. congruence.
Qed.

End SensorPlatform.

End Model.

(** * The claims on sample inputs *)

Lemma map_to_list_perm (m : dict) : map_to_list m ≡ₚ map_to_list m.
Proof. reflexivity. Qed.

Lemma elements_perm (s : gset positive) : elements s ≡ₚ elements s.
Proof. reflexivity. Qed.

Lemma sample_unsupported_keys (self : SmartDevice) :
  Forall (λ k, is_Some (data_points self !! k)) unsupported_keys →
  ∀ k, k ∈ unsupported_keys → is_Some (data_points self !! k).
Proof. intros H k Hk. rewrite Forall_forall in H. by apply H. Qed.

(** C2 as stated fails on [pruned_device], whatever the order of
    iteration: the day-program key is in the input and in none of the
    three parts. *)
Lemma partition_counterexample :
  ¬ ∃ dict_items, (∀ m : dict, dict_items m ≡ₚ map_to_list m)
                  ∧ partition_as_stated dict_items pruned_device.
Proof.
  intros (items & Hperm & Hclaim).
  destruct (parse_data_points_returns items Hperm pruned_device) as [self' Hp].
  { apply sample_unsupported_keys. compute_done. }
  destruct (Hclaim self' Hp) as [_ Hdom].
  destruct (classified_lookup items Hperm _ _ Hp) as (_ & Hgk & _ & Hl).
  assert ("PARAM_ID_TH_ROOM_PROG_DAY_1" ∈ dom (data_points pruned_device)) as Hin.
  { apply elem_of_dom. vm_compute. eauto. }
  rewrite Hdom in Hin. apply elem_of_union in Hin as [Hin|Hin].
  - apply elem_of_union in Hin as [Hin|Hin].
    + apply elem_of_list_to_set, Hgk in Hin. destruct Hin as [_ Hin].
      vm_compute in Hin. discriminate.
    + apply elem_of_dom in Hin. rewrite Hl in Hin.
      replace (startswith_any unsupported_prefixes "PARAM_ID_TH_ROOM_PROG_DAY_1")
        with true in Hin by (by vm_compute).
      rewrite orb_true_r in Hin. by destruct Hin.
  - apply elem_of_list_to_set in Hin. revert Hin. compute_done.
Qed.

Lemma classification_partition_witness :
  NoDup (group_keys pruned_device_parsed)
  ∧ dom (data_points pruned_device)
    = list_to_set (group_keys pruned_device_parsed)
        ∪ dom (unknown_points pruned_device_parsed)
        ∪ list_to_set unsupported_keys
        ∪ prefix_pruned pruned_device pruned_device_parsed
  ∧ list_to_set (group_keys pruned_device_parsed) ## dom (unknown_points pruned_device_parsed)
  ∧ list_to_set (group_keys pruned_device_parsed) ## (list_to_set unsupported_keys : gset string)
  ∧ list_to_set (group_keys pruned_device_parsed)
      ## prefix_pruned pruned_device pruned_device_parsed
  ∧ dom (unknown_points pruned_device_parsed) ## (list_to_set unsupported_keys : gset string)
  ∧ dom (unknown_points pruned_device_parsed)
      ## prefix_pruned pruned_device pruned_device_parsed
  ∧ (list_to_set unsupported_keys : gset string)
      ## prefix_pruned pruned_device pruned_device_parsed.
Proof.
  apply (classification_partition map_to_list map_to_list_perm pruned_device).
  vm_compute. reflexivity.
Defined.

(** C3 as stated fails on [pruned_device], whatever the order of
    iteration: the water-heater rule, the first to run, starts on a
    working map that has the device-module key. *)
Lemma pruned_before_group_rules_counterexample :
  ¬ ∃ dict_items, (∀ m : dict, dict_items m ≡ₚ map_to_list m)
                  ∧ pruned_before_group_rules dict_items pruned_device.
Proof.
  intros (items & _ & Hclaim).
  specialize (Hclaim WaterHeaters eq_refl _ eq_refl "PARAM_ID_SYS_DEVICE_MODULE").
  assert ("PARAM_ID_SYS_DEVICE_MODULE" ∈ unsupported_keys) as Hk by compute_done.
  specialize (Hclaim Hk). vm_compute in Hclaim. discriminate.
Qed.

Lemma unsupported_keys_pruned_last_witness :
  (∀ p, ∃ self_p, run_until map_to_list p pruned_device = (Ok tt, self_p)
                  ∧ unknown_points self_p !! "PARAM_ID_SYS_DEVICE_MODULE"
                    = data_points pruned_device !! "PARAM_ID_SYS_DEVICE_MODULE")
  ∧ (∀ self', parse_data_points map_to_list pruned_device = (Ok tt, self') →
       is_Some (data_points pruned_device !! "PARAM_ID_SYS_DEVICE_MODULE")
       ∧ unknown_points self' !! "PARAM_ID_SYS_DEVICE_MODULE" = None
       ∧ "PARAM_ID_SYS_DEVICE_MODULE" ∉ group_keys self').
Proof.
  apply (unsupported_keys_pruned_last map_to_list map_to_list_perm pruned_device).
  vm_compute. left.
Defined.

Lemma parse_data_points_missing_key_witness :
  ∃ k' self', k' ∈ unsupported_keys ∧ data_points incomplete_device !! k' = None
              ∧ parse_data_points map_to_list incomplete_device
                = (Raise (KeyError k'), self').
Proof.
  apply (parse_data_points_missing_key map_to_list map_to_list_perm incomplete_device
           "PARAM_ID_SYS_DEVICE_MODULE").
  - vm_compute. left.
  - vm_compute. reflexivity.
Defined.

Lemma unsupported_prefixes_dropped_witness :
  ("PARAM_ID_TH_ROOM_PROG_DAY_1" ∉ unsupported_keys)
  ∧ ("PARAM_ID_TH_ROOM_PROG_DAY_1" ∉ group_keys pruned_device_parsed)
  ∧ unknown_points pruned_device_parsed !! "PARAM_ID_TH_ROOM_PROG_DAY_1" = None
  ∧ ∀ x, x ∈ residual_sensors map_to_list pruned_device_parsed →
         fst (SensorData.data_point x) ≠ "PARAM_ID_TH_ROOM_PROG_DAY_1".
Proof.
  apply (unsupported_prefixes_dropped map_to_list map_to_list_perm pruned_device
           pruned_device_before_removal pruned_device_parsed).
  - vm_compute. reflexivity.
  - vm_compute. reflexivity.
  - vm_compute. eauto.
  - vm_compute. reflexivity.
Defined.

Lemma sample_dict_has (ks ks' : list string) :
  Forall (λ k, is_Some (sample_dict ks !! k)) ks' →
  ∀ k, k ∈ ks' → is_Some (sample_dict ks !! k).
Proof. intros H k Hk. rewrite Forall_forall in H. by apply H. Qed.

Lemma sample_dict_lacks (ks ks' : list string) :
  Forall (λ k, sample_dict ks !! k = None) ks' →
  ∀ k, k ∈ ks' → sample_dict ks !! k = None.
Proof. intros H k Hk. rewrite Forall_forall in H. by apply H. Qed.

Lemma water_heaters_count_witness :
  (∃ w m', get_water_heaters (sample_dict ch_keys) = (Ok [w], m')
           ∧ WaterHeaterData.name w = "Heating Water Heater")
  ∧ (∃ w1 w2 m', get_water_heaters (sample_dict (ch_keys ++ dhw_keys)) = (Ok [w1; w2], m')).
Proof.
  split.
  - apply (proj1 (water_heaters_count (sample_dict ch_keys))).
    + apply sample_dict_has. vm_compute. repeat constructor; eauto.
    + apply sample_dict_lacks. vm_compute. repeat constructor.
  - apply (proj2 (water_heaters_count (sample_dict (ch_keys ++ dhw_keys)))).
    apply sample_dict_has. vm_compute. repeat constructor; eauto.
Defined.

Lemma heating_target_temperature_claimed_once_witness :
  ∃ rest m',
    get_sensors_data map_to_list (data_points pruned_device)
    = (Ok (heating_target_temperature (sample_point "PARAM_ID_BOILER_CH_TRG_TEMP") :: rest), m')
    ∧ SensorData.name (heating_target_temperature (sample_point "PARAM_ID_BOILER_CH_TRG_TEMP"))
      = "Heating Target Temperature"
    ∧ SensorData.data_point
        (heating_target_temperature (sample_point "PARAM_ID_BOILER_CH_TRG_TEMP"))
      = ("PARAM_ID_BOILER_CH_TRG_TEMP", sample_point "PARAM_ID_BOILER_CH_TRG_TEMP")
    ∧ (∀ x, x ∈ rest → fst (SensorData.data_point x) ≠ "PARAM_ID_BOILER_CH_TRG_TEMP")
    ∧ m' !! "PARAM_ID_BOILER_CH_TRG_TEMP" = None.
Proof.
  apply (heating_target_temperature_claimed_once map_to_list map_to_list_perm
           (data_points pruned_device)).
  vm_compute. reflexivity.
Defined.

Lemma fixed_point_round_trip_witness :
  ∃ c dp' y,
    set_value no_parser (PFloat (one_decimal 215)) room_temperature = (Ok c, dp')
    ∧ value dp' = PInt 215
    ∧ get_value no_parser no_parser dp' = Ok (PFloat y)
    ∧ y = one_decimal 215.
Proof.
  apply (fixed_point_round_trip no_parser no_parser room_temperature 215).
  - reflexivity.
  - lia.
Defined.

(** C4 as stated fails on the float 955664366110449.1, which is
    7645314928883593 / 8 = 955664366110449.125: ten times it is rounded
    to 9556643661104492, which is stored, and [get_value] gives
    955664366110449.25, which is 0.125 away. *)
Lemma round_trips_counterexample :
  ¬ ∃ int_of_str float_of_str,
      round_trips int_of_str float_of_str room_temperature (ratio 7645314928883593 8).
Proof.
  intros (i & f & Hclaim).
  destruct (Hclaim eq_refl) as (c & dp' & y & qx & qy & Hset & Hget & Hx & Hy & Hd).
  vm_compute in Hset. injection Hset as _ <-.
  vm_compute in Hget. injection Hget as <-.
  vm_compute in Hx, Hy. injection Hx as <-. injection Hy as <-.
  vm_compute in Hd. by apply Hd.
Qed.

(** The float of that counterexample is the one nearest to the decimal
    955664366110449.1: it is 0.025 away, and the floats of its size are
    0.125 apart. *)
Lemma round_trips_counterexample_decimal :
  Q_of_float (ratio 7645314928883593 8) = Some (7645314928883593 # 8)
  ∧ (Qabs ((7645314928883593 # 8) - (9556643661104491 # 10)) == 1 # 40)%Q
  ∧ Q_of_float (PrimFloat.next_up (ratio 7645314928883593 8))
    = Some (7645314928883594 # 8)
  ∧ Q_of_float (PrimFloat.next_down (ratio 7645314928883593 8))
    = Some (7645314928883592 # 8).
Proof. vm_compute. by split_and!. Qed.

(** Beyond the range of the floats there is no round trip at all: ten
    times 1e308 is an infinity, and [int] of it raises. *)
Lemma set_value_overflow :
  set_value no_parser (PFloat (nearest_float (10 ^ 308))) room_temperature
  = (Raise OverflowError, room_temperature).
Proof. vm_compute. reflexivity. Qed.

(** C5 as stated fails on the value 0.57: ten times it is the float
    5.699999999999999, [int] of it is 5, [round] of it is 6. *)
Lemma stores_rounded_counterexample :
  ¬ ∃ int_of_str, stores_rounded int_of_str room_temperature (ratio 57 100).
Proof.
  intros (i & Hclaim). destruct (Hclaim eq_refl) as (c & dp' & p & Heq & Hp & Hv).
  vm_compute in Heq. injection Heq as _ <-.
  vm_compute in Hp. injection Hp as <-. vm_compute in Hv. discriminate.
Qed.

Lemma set_value_truncates_witness :
  match Q_of_float (PrimFloat.mul (ratio 57 100) ten) with
  | Some p =>
      ∃ z, set_value no_parser (PFloat (ratio 57 100)) room_temperature
           = (Ok (mkCommand (index room_temperature) 2 0 (PInt z)),
              with_value (PInt z) room_temperature)
        ∧ z = truncate p
        ∧ (Qabs (p - inject_Z z) < 1)%Q
        ∧ (Qabs (inject_Z z) <= Qabs p)%Q
        ∧ ∀ k, (-1000 ≤ k ≤ 1000)%Z → ratio 57 100 = one_decimal k →
               z = k ∧ py_round p = k
  | None =>
      ∃ e, set_value no_parser (PFloat (ratio 57 100)) room_temperature
           = (Raise e, room_temperature)
           ∧ (e = OverflowError ∨ e = ValueError)
  end.
Proof.
  apply (set_value_truncates no_parser room_temperature (ratio 57 100)). reflexivity.
Defined.

(** C6 as stated fails on a point with two listeners that both raise,
    whatever the order of iteration: the first one called raises and the
    other is never invoked. *)
Lemma fan_out_isolated_counterexample :
  ¬ ∃ set_iter, (∀ s : gset positive, set_iter s ≡ₚ elements s)
                ∧ fan_out_isolated all_raise set_iter (PInt 7) room_temperature.
Proof.
  intros (iter & Hperm & Hclaim).
  assert (2 ≤ size (_listener room_temperature))%nat as Hsize by (vm_compute; lia).
  specialize (Hclaim Hsize).
  assert (1%positive ∈ _listener room_temperature) as H1 by compute_done.
  assert (2%positive ∈ _listener room_temperature) as H2 by compute_done.
  pose proof (Hclaim 1%positive _ H1 eq_refl 2%positive H2 ltac:(done)) as Ha.
  pose proof (Hclaim 2%positive _ H2 eq_refl 1%positive H1 ltac:(done)) as Hb.
  unfold invoked in Ha, Hb. rewrite update_value_eq in Ha, Hb.
  pose proof (Hperm (_listener room_temperature)) as Hl.
  replace (elements (_listener room_temperature)) with [2%positive; 1%positive] in Hl
    by (by vm_compute).
  symmetry in Hl. apply Permutation_length_2_inv in Hl.
  destruct Hl as [Hl|Hl]; rewrite Hl in Ha, Hb; vm_compute in Ha, Hb.
  - change (1%positive ∈ [2%positive]) in Hb.
    apply list_elem_of_singleton in Hb. discriminate.
  - change (2%positive ∈ [1%positive]) in Ha.
    apply list_elem_of_singleton in Ha. discriminate.
Qed.

Lemma update_value_stops_at_raise_witness :
  update_value second_raises elements (PInt 7) (room_temperature, [])
  = (Raise (CallbackError 2), (with_value (PInt 7) room_temperature, [] ++ [] ++ [2%positive]))
  ∧ ∀ c', c' ∈ [1%positive] →
          c' ∈ _listener room_temperature ∧ c' ∉ [] ++ [2%positive].
Proof.
  apply (update_value_stops_at_raise second_raises elements elements_perm (PInt 7)
           room_temperature [] [] 2%positive [1%positive] (CallbackError 2)).
  - vm_compute. reflexivity.
  - intros c' Hc'. by apply elem_of_nil in Hc'.
  - reflexivity.
Defined.

(** C1, on the code: a command for the address "ZZ:ZZ", which no device
    has, makes [on_mqtt_message] raise [AttributeError]; no device, no
    data point is changed and no callback is invoked. *)
Theorem unknown_mac_raises :
  on_mqtt_message all_raise elements
    (command_message "ZZ:ZZ" [("PARAM_ID_BOILER_FLOW_TEMP", mkPayload (Some (PInt 42)))])
    (one_device_api, [])
  = (Raise AttributeError, (one_device_api, [])).
Proof. apply on_mqtt_message_unknown_mac. reflexivity. Qed.

(** C1, second half: for the known address "AA:BB", a command with a key
    that the device does not have is ignored. *)
Lemma unknown_key_ignored :
  on_mqtt_message all_raise elements
    (command_message "AA:BB" [("FOO", mkPayload (Some (PInt 42)))])
    (one_device_api, [])
  = (Ok tt, (one_device_api, [])).
Proof.
  apply (on_mqtt_message_unknown_keys all_raise elements one_device_api [] "AA:BB"
           pruned_device); [reflexivity|].
  intros k cmd Hin. apply list_elem_of_singleton in Hin. injection Hin as -> _.
  reflexivity.
Qed.

(** * The further properties on sample inputs *)

Lemma boiler_parses : parse_data_points map_to_list boiler = (Ok tt, boiler_parsed).
Proof. vm_compute. reflexivity. Qed.

Lemma parse_data_points_outcome_witness :
  ((∃ self', parse_data_points map_to_list boiler = (Ok tt, self'))
   ↔ ∀ k, k ∈ unsupported_keys → is_Some (data_points boiler !! k))
  ∧ ∀ e self', parse_data_points map_to_list incomplete_device = (Raise e, self') →
      ∃ k, e = KeyError k ∧ k ∈ unsupported_keys
           ∧ data_points incomplete_device !! k = None.
Proof.
  split.
  - apply (proj1 (parse_data_points_outcome map_to_list map_to_list_perm boiler)).
  - apply (proj2 (parse_data_points_outcome map_to_list map_to_list_perm incomplete_device)).
Defined.

Lemma parse_data_points_keeps_data_points_witness :
  data_points boiler_parsed = data_points boiler
  ∧ identity boiler_parsed = identity boiler.
Proof.
  apply (parse_data_points_keeps_data_points map_to_list boiler (Ok tt) boiler_parsed).
  vm_compute. reflexivity.
Defined.

Lemma suffix_keys_classified_witness :
  (sensor_key "PARAM_ID_BOILER_WATER_PRESSURE" = true →
     "PARAM_ID_BOILER_WATER_PRESSURE"
       ∈ map (λ x, fst (SensorData.data_point x)) (sensors_data boiler_parsed)
     ∨ ∃ q, q ∈ [WaterHeaters; Climate; Select; Switches; Numbers]
            ∧ "PARAM_ID_BOILER_WATER_PRESSURE" ∈ pass_keys q boiler_parsed)
  ∧ (binary_sensor_key "PARAM_ID_BOILER_WATER_PRESSURE" = true →
       "PARAM_ID_BOILER_WATER_PRESSURE"
         ∈ map (λ x, fst (SensorData.data_point x)) (binary_sensors_data boiler_parsed)
       ∨ ∃ q, q ∈ [WaterHeaters; Climate; Select; Switches; Numbers; Sensors]
              ∧ "PARAM_ID_BOILER_WATER_PRESSURE" ∈ pass_keys q boiler_parsed)
  ∧ (sensor_key "PARAM_ID_BOILER_WATER_PRESSURE"
     || binary_sensor_key "PARAM_ID_BOILER_WATER_PRESSURE" = true →
       "PARAM_ID_BOILER_WATER_PRESSURE" ∈ group_keys boiler_parsed
       ∧ unknown_points boiler_parsed !! "PARAM_ID_BOILER_WATER_PRESSURE" = None).
Proof.
  apply (suffix_keys_classified map_to_list map_to_list_perm boiler boiler_parsed).
  - vm_compute. reflexivity.
  - vm_compute. eauto.
Defined.

Lemma single_key_rules_witness :
  (∀ d, data_points boiler !! "SYS_WORK_MODE" = Some d →
     ∃ x, x ∈ select_data boiler_parsed ∧ SelectData.data_point x = ("SYS_WORK_MODE", d)
          ∧ SelectData.name x = "Work Mode")
  ∧ (∀ d, data_points boiler !! "PARAM_ID_BOILER_DHW_PRO_EN" = Some d →
       ∃ x, x ∈ switches_data boiler_parsed
            ∧ SwitchData.data_point x = ("PARAM_ID_BOILER_DHW_PRO_EN", d)
            ∧ SwitchData.name x = "Domestic Water Heating Program")
  ∧ (∀ d, data_points boiler !! "PARAM_ID_SYS_DST_ENABLE" = Some d →
       ∃ x, x ∈ switches_data boiler_parsed
            ∧ SwitchData.data_point x = ("PARAM_ID_SYS_DST_ENABLE", d)
            ∧ SwitchData.name x = "Auto Time Sync")
  ∧ (∀ d, data_points boiler !! "PARAM_ID_TH_POWEROFF_FROZE_TEMP" = Some d →
       ∃ x, x ∈ numbers_data boiler_parsed
            ∧ NumberData.data_point x = ("PARAM_ID_TH_POWEROFF_FROZE_TEMP", d)
            ∧ NumberData.name x = "Poweroff Froze Temperature"
            ∧ NumberData.min_value x = Some 5%Q ∧ NumberData.max_value x = Some 15%Q
            ∧ NumberData.step_value x = Some (1 # 2)%Q
            ∧ NumberData.unit_of_measurement x = Some CELSIUS)
  ∧ ∀ k, k ∈ [ "SYS_WORK_MODE"; "PARAM_ID_BOILER_DHW_PRO_EN"; "PARAM_ID_SYS_DST_ENABLE";
               "PARAM_ID_TH_POWEROFF_FROZE_TEMP" ] →
         is_Some (data_points boiler !! k) →
         (k ∉ map (λ x, fst (SensorData.data_point x)) (sensors_data boiler_parsed))
         ∧ (k ∉ map (λ x, fst (SensorData.data_point x)) (binary_sensors_data boiler_parsed))
         ∧ unknown_points boiler_parsed !! k = None.
Proof.
  apply (single_key_rules map_to_list map_to_list_perm boiler boiler_parsed).
  vm_compute. reflexivity.
Defined.

Lemma sensors_by_suffix_witness :
  Forall (sensor_by_suffix (data_points boiler)) (sensors_data boiler_parsed)
  ∧ Forall (λ x, sensor_key (fst (SensorData.data_point x)) = true)
      (sensors_data boiler_parsed)
  ∧ NoDup (map (λ x, fst (SensorData.data_point x)) (sensors_data boiler_parsed)).
Proof.
  apply (sensors_by_suffix map_to_list map_to_list_perm boiler boiler_parsed).
  vm_compute. reflexivity.
Defined.

Lemma water_heaters_wiring_witness :
  water_heaters boiler_parsed = water_heaters_for (data_points boiler)
  ∧ (is_Some (data_points boiler !! "PARAM_ID_BOILER_CH_TRG_TEMP") →
       "PARAM_ID_BOILER_CH_TRG_TEMP"
         ∈ map (λ x, fst (SensorData.data_point x)) (sensors_data boiler_parsed)
       ∧ "PARAM_ID_BOILER_CH_TRG_TEMP"
           ∉ concat (map WaterHeaterData.keys (water_heaters boiler_parsed))).
Proof.
  apply (water_heaters_wiring map_to_list map_to_list_perm boiler boiler_parsed).
  vm_compute. reflexivity.
Defined.

Lemma thermostat_all_or_nothing_witness :
  thermostat_of (data_points boiler) (climate_data boiler_parsed)
  ∧ ((¬ ∀ k, k ∈ thermostat_keys → is_Some (data_points boiler !! k)) →
       (∀ k, k ∈ ["PARAM_ID_TH_CUR_ROOM_TEMP"; "PARAM_ID_TH_TRG_ROOM_TEMP"] →
             is_Some (data_points boiler !! k) →
             k ∈ map (λ x, fst (SensorData.data_point x)) (sensors_data boiler_parsed))
       ∧ unknown_points boiler_parsed !! "PARAM_ID_TH_WORK_MODE"
         = data_points boiler !! "PARAM_ID_TH_WORK_MODE").
Proof.
  apply (thermostat_all_or_nothing map_to_list map_to_list_perm boiler boiler_parsed).
  vm_compute. reflexivity.
Defined.

Lemma classification_by_key_witness :
  ("PARAM_ID_BOILER_DHW_CUR_TEMP" ∈ group_keys boiler_parsed
   ↔ is_Some (data_points boiler !! "PARAM_ID_BOILER_DHW_CUR_TEMP")
     ∧ grouped (data_points boiler) "PARAM_ID_BOILER_DHW_CUR_TEMP" = true)
  ∧ unknown_points boiler_parsed !! "PARAM_ID_BOILER_DHW_CUR_TEMP"
    = if grouped (data_points boiler) "PARAM_ID_BOILER_DHW_CUR_TEMP"
         || bool_decide ("PARAM_ID_BOILER_DHW_CUR_TEMP" ∈ unsupported_keys)
         || startswith_any unsupported_prefixes "PARAM_ID_BOILER_DHW_CUR_TEMP"
      then None else data_points boiler !! "PARAM_ID_BOILER_DHW_CUR_TEMP".
Proof.
  apply (classification_by_key map_to_list map_to_list_perm boiler boiler_parsed).
  vm_compute. reflexivity.
Defined.

Lemma sensor_descriptors_keys_witness :
  NoDup (map (λ x, fst (SensorData.data_point x))
           (sensors_data boiler_parsed ++ residual_sensors map_to_list boiler_parsed))
  ∧ (∀ k, k ∈ map (λ x, fst (SensorData.data_point x))
                (sensors_data boiler_parsed ++ residual_sensors map_to_list boiler_parsed)
          ↔ k ∈ map (λ x, fst (SensorData.data_point x)) (sensors_data boiler_parsed)
            ∨ is_Some (unknown_points boiler_parsed !! k))
  ∧ ∀ x, x ∈ residual_sensors map_to_list boiler_parsed →
      unknown_points boiler_parsed !! fst (SensorData.data_point x)
      = Some (snd (SensorData.data_point x))
      ∧ x = SensorData.mk (SensorData.data_point x) (name (snd (SensorData.data_point x)))
              None None None None None None.
Proof.
  apply (sensor_descriptors_keys map_to_list map_to_list_perm boiler boiler_parsed).
  vm_compute. reflexivity.
Defined.

Lemma add_listener_once_witness :
  add_listener 1 (add_listener 1 room_temperature) = add_listener 1 room_temperature
  ∧ ∃ l, update_value all_return elements (PInt 215) (add_listener 1 room_temperature, [])
         = (Ok tt, (with_value (PInt 215) (add_listener 1 room_temperature), [] ++ l))
       ∧ NoDup l ∧ ∀ c', c' ∈ l ↔ c' = 1%positive ∨ c' ∈ _listener room_temperature.
Proof.
  apply (add_listener_once all_return elements elements_perm (PInt 215) room_temperature
           1%positive []).
  intros c' _. reflexivity.
Defined.

Lemma remove_listener_silent_witness :
  (∃ l, [2%positive] = [] ++ l ∧ 1%positive ∉ l)
  ∧ with_value (PInt 7) (remove_listener 1 room_temperature)
    = with_value (PInt 7) (remove_listener 1 room_temperature)
  ∧ (1%positive ∉ _listener room_temperature →
       remove_listener 1 room_temperature = room_temperature).
Proof.
  apply (remove_listener_silent second_raises elements elements_perm (PInt 7)
           room_temperature 1%positive [] (Raise (CallbackError 2))).
  vm_compute. reflexivity.
Defined.

Lemma set_value_of_get_value_witness :
  ∃ v, get_value no_parser no_parser room_temperature = Ok v
       ∧ set_value no_parser v room_temperature
         = (Ok (mkCommand 12 2 0 (PInt 200)), room_temperature)
       ∧ (point_type room_temperature = 2 → v = PFloat (one_decimal 200))
       ∧ (point_type room_temperature ≠ 2 → v = PInt 200).
Proof.
  apply (set_value_of_get_value no_parser no_parser room_temperature 200).
  - reflexivity.
  - intros _. lia.
Defined.

Lemma set_value_atomic_witness :
  mkCommand 12 2 0 (PInt 210)
  = mkCommand (index room_temperature) (point_type room_temperature) 0
      (value (with_value (PInt 210) room_temperature))
  ∧ with_value (PInt 210) room_temperature
    = with_value (value (with_value (PInt 210) room_temperature)) room_temperature.
Proof.
  apply (set_value_atomic no_parser room_temperature (PInt 21)
           (Ok (mkCommand 12 2 0 (PInt 210))) (with_value (PInt 210) room_temperature)).
  vm_compute. reflexivity.
Defined.

Lemma on_mqtt_message_raises_witness :
  (method (command_entries [flow_entry; stray_entry; flow_entry]) ≠ Some "command"
   ∧ AttributeError = UnboundLocalError
   ∧ mkApi {[ "AA:BB" := pruned_device_updated ]} = one_device_api
   ∧ [] = ([] : list positive))
  ∨ (method (command_entries [flow_entry; stray_entry; flow_entry]) = Some "command"
     ∧ ((AttributeError = AttributeError
         ∧ ∃ d, d ∈ default [] (msg_data (command_entries [flow_entry; stray_entry;
                                                            flow_entry]))
                ∧ cmd d = Some 98
                ∧ devices one_device_api !! default "" (mac d) = None)
        ∨ ∃ c calls0, [] = calls0 ++ [c] ∧ all_return c = Raise AttributeError)).
Proof.
  apply (on_mqtt_message_raises all_return elements
           (command_entries [flow_entry; stray_entry; flow_entry]) one_device_api []
           AttributeError (mkApi {[ "AA:BB" := pruned_device_updated ]}) []).
  vm_compute. reflexivity.
Defined.

Lemma on_mqtt_message_stops_at_unknown_mac_witness :
  on_mqtt_message all_return elements
    (command_entries ([other_entry; flow_entry] ++ stray_entry :: [flow_entry]))
    (one_device_api, [])
  = (Raise AttributeError, (mkApi {[ "AA:BB" := pruned_device_updated ]}, [])).
Proof.
  apply (on_mqtt_message_stops_at_unknown_mac all_return elements
           [other_entry; flow_entry] [flow_entry] stray_entry (one_device_api, [])).
  - vm_compute. reflexivity.
  - reflexivity.
  - vm_compute. reflexivity.
Defined.

Lemma on_mqtt_message_changes_values_only_witness :
  devices_values_only one_device_api (mkApi {[ "AA:BB" := pruned_device_updated ]})
  ∧ ∃ l : list positive, [] = [] ++ l.
Proof.
  apply (on_mqtt_message_changes_values_only all_return elements
           (command_entries [other_entry; flow_entry; stray_entry]) one_device_api []
           (Raise AttributeError)).
  vm_compute. reflexivity.
Defined.

Lemma handle_mqtt_command_stores_witness :
  ∃ device',
    handle_mqtt_command all_return elements flow_commands (pruned_device, [])
    = (Ok tt,
       (device',
        [] ++ concat (map (λ x, listeners_at elements pruned_device (fst x)) flow_commands)))
    ∧ values_only pruned_device device'
    ∧ ∀ k dp, data_points pruned_device !! k = Some dp →
        data_points device' !! k
        = Some (with_value
                  match (list_to_map flow_commands : gmap string Payload) !! k with
                  | Some cmd => default PNone (payload_v cmd)
                  | None => value dp
                  end dp).
Proof.
  apply (handle_mqtt_command_stores all_return elements flow_commands pruned_device []).
  - compute_done.
  - intros k c _ _. reflexivity.
Defined.

Lemma pruned_row_complete : row_complete pruned_row.
Proof.
  intros k Hk. unfold unsupported_keys in Hk.
  repeat (apply elem_of_cons in Hk as [->|Hk]); [..|by apply elem_of_nil in Hk];
    vm_compute; eauto.
Qed.

Lemma async_get_devices_table_witness :
  ∃ table,
    async_get_devices map_to_list [pruned_row] (one_device_api, connected)
    = (Ok table, (mkApi table, subscribed_to (topics_of map_to_list [pruned_row]) connected))
    ∧ (∀ a, table !! a
            = match last (filter (λ d, extAddr d = a) [pruned_row]) with
              | Some d => match classified_row map_to_list d with
                          | Ok device => Some device
                          | Raise _ => None
                          end
              | None => None
              end)
    ∧ ∀ a device, table !! a = Some device →
        mac_address device = a
        ∧ ∃ d, d ∈ [pruned_row] ∧ extAddr d = a
               ∧ data_points device = new_data_point <$> default ∅ (pointDataMap d)
               ∧ ∀ k dp, data_points device !! k = Some dp → _listener dp = ∅.
Proof.
  apply (async_get_devices_table map_to_list map_to_list_perm [pruned_row] one_device_api
           connected).
  apply Forall_cons. split; [apply pruned_row_complete|apply Forall_nil_2].
Defined.

Lemma async_get_devices_stops_witness :
  ∃ table k',
    async_get_devices map_to_list [pruned_row] (one_device_api, connected)
    = (Ok table, (mkApi table, subscribed_to (topics_of map_to_list [pruned_row]) connected))
    ∧ async_get_devices map_to_list ([pruned_row] ++ incomplete_row :: [pruned_row])
        (one_device_api, connected)
      = (Raise (KeyError k'),
         (mkApi table, subscribed_to (topics_of map_to_list [pruned_row]) connected))
    ∧ k' ∈ unsupported_keys ∧ default ∅ (pointDataMap incomplete_row) !! k' = None.
Proof.
  apply (async_get_devices_stops map_to_list map_to_list_perm [pruned_row] [pruned_row]
           incomplete_row "PARAM_ID_SYS_DEVICE_MODULE" one_device_api connected).
  - apply Forall_cons. split; [apply pruned_row_complete|apply Forall_nil_2].
  - compute_done.
  - vm_compute. reflexivity.
Defined.
